(** * github-bot: a shallow embedding of the Telegram-to-GitHub upload bot

    The development follows the Python sources:
    - [main.py]            : the authorization gate, the layout normaliser,
                             the command handlers and the two workflows;
    - [github_handler.py]  : the GitHub REST client ([GitHubHandler]);
    - [readme_generator.py]: the description generator ([ReadmeGenerator]);
    - [config.py]          : the constants.

    Python values are modelled as follows.  Integers are [Z], time stamps
    (seconds, [time.time()]) are rationals [Q], text and file contents are
    [string] (sequences of bytes, UTF-8 for text).  A [dict] used as a map
    is a [gmap]; a [dict] whose insertion order matters is an association
    list; a [set] is a [gset].  Exceptions are the [Raise] results of an
    error monad, I/O is explicit state passing over an environment that
    answers every request. *)

From Stdlib Require Import ZArith QArith List String Ascii Lia Permutation Bool Sorted.
From stdpp Require Import base gmap strings list pretty.

Set Warnings "-register-all".

Local Open Scope string_scope.
Local Open Scope Z_scope.

(** ** Python strings *)

Module Py.

Definition nl : string := String (ascii_of_nat 10) EmptyString.

(** [s.endswith(suffix)] *)
Definition endswith (s suffix : string) : bool :=
  let n := String.length s in
  let m := String.length suffix in
  if (m <=? n)%nat then String.eqb (substring (n - m) m s) suffix else false.

(** [needle in haystack] for strings *)
Fixpoint str_in (needle haystack : string) : bool :=
  String.prefix needle haystack ||
  match haystack with
  | EmptyString => false
  | String _ rest => str_in needle rest
  end.

(** [s.replace(old, new)] for a non-empty [old]: every occurrence, left to
    right, without overlap.  [skip] counts the bytes of a matched
    occurrence that are still to be dropped. *)
Fixpoint replace_go (old new : string) (skip : nat) (s : string) : string :=
  match s with
  | EmptyString => EmptyString
  | String c rest =>
      match skip with
      | S k => replace_go old new k rest
      | O =>
          if String.prefix old s
          then new +:+ replace_go old new (String.length old - 1) rest
          else String c (replace_go old new 0 rest)
      end
  end.

Definition replace (s old new : string) : string := replace_go old new 0 s.

(** [s.lower()], on the ASCII letters.  (The only characters outside ASCII
    whose lower case is an ASCII letter are U+212A, which gives k, and
    U+0130, which gives i followed by a combining dot.) *)
Definition lower_ascii (c : ascii) : ascii :=
  let n := nat_of_ascii c in
  if ((65 <=? n) && (n <=? 90))%nat then ascii_of_nat (n + 32) else c.

Fixpoint lower (s : string) : string :=
  match s with
  | EmptyString => EmptyString
  | String c rest => String (lower_ascii c) (lower rest)
  end.

(** Position of the last occurrence of the character [c] in [s]
    ([s.rfind(c)], [None] for -1). *)
Fixpoint rfind (c : ascii) (s : string) : option nat :=
  match s with
  | EmptyString => None
  | String d rest =>
      match rfind c rest with
      | Some i => Some (S i)
      | None => if Ascii.eqb c d then Some 0%nat else None
      end
  end.

Definition slice_from (i : nat) (s : string) : string :=
  substring i (String.length s - i) s.
Definition slice_to (i : nat) (s : string) : string := substring 0 i s.

(** Truth value of a string and of a list. *)
Definition truthy (s : string) : bool := negb (String.eqb s EmptyString).

End Py.

(** ** [os.path] on POSIX paths *)

Module OsPath.

Definition sep : ascii := "/"%char.
Definition extsep : ascii := "."%char.

(** [os.path.join(a, b)] for a relative [b]. *)
Definition join (a b : string) : string :=
  if String.eqb a EmptyString then b
  else if Py.endswith a "/" then a +:+ b else a +:+ "/" +:+ b.

(** [os.path.basename(p)] : what follows the last separator. *)
Definition basename (p : string) : string :=
  match Py.rfind sep p with
  | Some i => Py.slice_from (S i) p
  | None => p
  end.

Fixpoint rstrip_sep_rev (r : string) : string :=
  match r with
  | String c rest => if Ascii.eqb c sep then rstrip_sep_rev rest else r
  | EmptyString => EmptyString
  end.

Definition all_sep (s : string) : bool :=
  forallb (Ascii.eqb sep) (list_ascii_of_string s).

(** [os.path.dirname(p)] : the head up to the last separator, without its
    trailing separators unless it consists of separators only. *)
Definition dirname (p : string) : string :=
  match Py.rfind sep p with
  | Some i =>
      let head := Py.slice_to (S i) p in
      if all_sep head then head
      else String.rev (rstrip_sep_rev (String.rev head))
  | None => EmptyString
  end.

(** In [genericpath._splitext] the leading dots of the file name are not an
    extension: [has_non_dot n s] looks for a character other than the dot
    among the first [n] characters of [s]. *)
Fixpoint has_non_dot (n : nat) (s : string) : bool :=
  match n, s with
  | S k, String c rest => if Ascii.eqb c extsep then has_non_dot k rest else true
  | _, _ => false
  end.

(** Second component of [os.path.splitext(p)]. *)
Definition splitext_ext (p : string) : string :=
  let name_start := match Py.rfind sep p with Some i => S i | None => 0%nat end in
  match Py.rfind extsep p with
  | Some dot =>
      if (name_start <=? dot)%nat
      then if has_non_dot (dot - name_start) (Py.slice_from name_start p)
           then Py.slice_from dot p else EmptyString
      else EmptyString
  | None => EmptyString
  end.

End OsPath.

(** ** Exceptions *)

(** Every [except] clause of the program catches [Exception] (or
    everything) and inspects at most [str(e)]. *)
Inductive exn : Type := Exception (msg : string).

Definition exn_str (e : exn) : string := match e with Exception m => m end.

Inductive result (A : Type) : Type :=
| Ok (a : A)
| Raise (e : exn).
Arguments Ok {A} a.
Arguments Raise {A} e.

(** ** Data *)

(** A staged tree on disk: a file with its bytes, or a directory with its
    entries in the order in which the directory is listed.  The names of a
    directory are distinct and contain no separator. *)
Inductive node : Type :=
| File (content : string)
| Dir (entries : list (string * node)).

(** Parsed JSON ([json.load]); the fields of an object are in insertion
    order, one per key. *)
Inductive json : Type :=
| JNull
| JBool (b : bool)
| JNum (n : Z)
| JStr (s : string)
| JArr (elems : list json)
| JObj (fields : list (string * json)).

(** *** The REST interface *)

Inductive method : Type := GET | POST | PUT | DELETE | PATCH.

(** The [json=] or [params=] argument of a request. *)
Inductive body : Type :=
| NoBody
| CreateRepo (name description : string) (private auto_init : bool)
| PutContent (message content : string)
| DeleteContent (message sha : string)
| SetPrivate (private : bool)
| ListParams (per_page : Z) (sort direction : string).

Record request : Type := Request { meth : method; url : string; data : body }.

(** An element of the array that answers a contents request: an object
    with ['type'] ['file'], ['path'] and ['sha']; an object with ['type']
    ['dir'] and ['path']; an object with another ['type']; or anything
    else ([ItemMalformed]: not an object, or an object without a key that
    the program reads, so that the subscript raises).  The remote tree is
    finite: a directory entry carries the answer that the request for its
    own listing receives: an array of entries, a body that is not an array
    ([truthy] is its truth value), or no answer when the request raises. *)
Inductive item : Type :=
| ItemFile (path sha : string)
| ItemDir (path : string) (answer : listing)
| ItemOther (path : string)
| ItemMalformed
with listing : Type :=
| Listing (status : Z) (items : list item)
| Unlisted (status : Z) (truthy : bool)
| NoAnswer.

Record repo_info : Type := RepoInfo {
  ri_name : string;
  repo_description : option string;
  stargazers_count : Z;
  forks_count : Z;
  watchers_count : Z;
  repo_size : Z;
  repo_private : bool;
  repo_language : option string;
  html_url : string
}.

(** The decoded body of a response ([await response.json()]): [null]
    ([PNone], which is [None] in Python); the object of a user, with the
    key ['login']; the object of a repository, with the keys of
    [repo_info]; an array of such objects; an array of entries of a
    directory; and [PJunk], a value that is true and has none of these
    shapes (a number, a string, an object with other keys), on which every
    subscript, slice and loop of the program raises. *)
Inductive payload : Type :=
| PNone
| PUser (login : string)
| PRepo (info : repo_info)
| PRepos (repos : list repo_info)
| PContents (items : list item)
| PJunk.

(** [bool(x)] for a decoded body: an object with keys is true, an array is
    true when it has elements. *)
Definition truthy_payload (p : payload) : bool :=
  match p with
  | PNone => false
  | PUser _ | PRepo _ | PJunk => true
  | PRepos repos => match repos with [] => false | _ :: _ => true end
  | PContents items => match items with [] => false | _ :: _ => true end
  end.

(** [await response.json()] as a Python value: [null] is [None]. *)
Definition decoded (p : payload) : option payload :=
  match p with PNone => None | _ => Some p end.

(** [if x:] for a value that is [None] or a decoded body. *)
Definition truthy_value (x : option payload) : bool :=
  match x with Some p => truthy_payload p | None => false end.

(** What a subscript, [len], a slice or a loop raises on a decoded body of
    another shape than the one the program expects ([TypeError] or
    [KeyError]).  No handler of the program shows its text. *)
Definition ShapeError : exn :=
  Exception "TypeError: the decoded body has not the expected shape".

Record response : Type := Response { status : Z; json_body : payload }.

Record file_info : Type := FileInfo { fi_path : string; fi_sha : string }.

(** What the program does to the outside, in program order. *)
Inductive event : Type :=
| EvHttp (req : request) (resp : option response)
| EvReply (text : string)
| EvEdit (text : string)
| EvDownload (file_id : string).

(** ** The environment

    [W] is the state of the outside world.  A request is answered by
    [http] ([None]: the client raises); [time_time] and [strftime_now]
    read the clock; [OWNER_ID] is the configured owner;
    [download_to_drive] gives the bytes of an uploaded document;
    [zip_extractall] gives the extraction directory after
    [ZipFile(...).extractall] ([Ok None] for an archive without members,
    for which the directory is never created); [json_load] and [b64encode]
    are the library functions of these names. *)
Class Env : Type := {
  W : Type;
  OWNER_ID : Z;
  time_time : W -> Q;
  http : request -> W -> option response * W;
  download_to_drive : string -> W -> result string * W;
  strftime_now : W -> string;
  zip_extractall : string -> result (option node);
  json_load : string -> result json;
  b64encode : string -> string
}.

(** [context.user_data] of the owner: a dictionary with at most the keys
    ['mode'], ['update_repo_name'] and ['use_template']. *)
Record user_data : Type := UserData {
  ud_mode : option string;
  ud_update_repo_name : option string;
  ud_use_template : option bool
}.

(** ** [config.py] *)

Module Config.
(** [MAX_FILE_SIZE = 20 * 1024 * 1024] *)
Definition MAX_FILE_SIZE : Z := 20 * 1024 * 1024.
Definition GITHUB_API_BASE : string := "https://api.github.com".
End Config.

(** ** Stateful computations that may raise

    A computation over a state [S] returns a value or raises, and leaves a
    state in both cases (what was done before an exception stays done). *)
Definition stateful (S A : Type) : Type := S -> result A * S.

Definition ret {S A} (a : A) : stateful S A := fun st => (Ok a, st).
Definition raise {S A} (e : exn) : stateful S A := fun st => (Raise e, st).
Definition bind {S A B} (c : stateful S A) (k : A -> stateful S B)
  : stateful S B :=
  fun st => match c st with
            | (Ok a, st') => k a st'
            | (Raise e, st') => (Raise e, st')
            end.
(** [try: c except Exception as e: h e] *)
Definition try_except {S A} (c : stateful S A) (h : exn -> stateful S A)
  : stateful S A :=
  fun st => match c st with
            | (Ok a, st') => (Ok a, st')
            | (Raise e, st') => h e st'
            end.
Definition gets {S A} (f : S -> A) : stateful S A := fun st => (Ok (f st), st).
Definition modify {S} (f : S -> S) : stateful S unit := fun st => (Ok tt, f st).

Declare Scope prog_scope.
Delimit Scope prog_scope with prog.
Notation "x <- c1 ;; c2" := (bind c1 (fun x => c2))
  (at level 100, c1 at next level, right associativity) : prog_scope.
Notation "c1 ;;; c2" := (bind c1 (fun _ => c2))
  (at level 100, right associativity) : prog_scope.

Section Program.
Context `{E : Env}.

(** The state of the process: the world, the trace of what was done, and
    the mutable fields of [TelegramBot], [GitHubHandler] and the module. *)
Record state : Type := State {
  world : W;
  trace : list event;
  gh_username : option string;          (* GitHubHandler.username *)
  last_message_time : gmap Z Q;         (* TelegramBot.last_message_time *)
  upload_counter : Z;                   (* main.upload_counter *)
  udata : user_data                     (* context.user_data *)
}.

Definition prog (A : Type) : Type := stateful state A.

End Program.



(** ** [github_handler.py] : class [GitHubHandler] *)

Section GitHubHandler.
Context `{E : Env}.
Local Open Scope prog_scope.

Definition set_world (w : W) (st : state) : state :=
  State w (trace st) (gh_username st) (last_message_time st)
        (upload_counter st) (udata st).
Definition set_trace (t : list event) (st : state) : state :=
  State (world st) t (gh_username st) (last_message_time st)
        (upload_counter st) (udata st).
Definition set_gh_username (u : option string) (st : state) : state :=
  State (world st) (trace st) u (last_message_time st)
        (upload_counter st) (udata st).
Definition set_last_message_time (m : gmap Z Q) (st : state) : state :=
  State (world st) (trace st) (gh_username st) m
        (upload_counter st) (udata st).
Definition set_upload_counter (n : Z) (st : state) : state :=
  State (world st) (trace st) (gh_username st) (last_message_time st)
        n (udata st).
Definition set_udata (d : user_data) (st : state) : state :=
  State (world st) (trace st) (gh_username st) (last_message_time st)
        (upload_counter st) d.

Definition emit (ev : event) : prog unit :=
  modify (fun st => set_trace (trace st ++ [ev])%list st).

(** One request sent to the remote API and answered by the world. *)
Definition http_request (req : request) : prog (option response) :=
  fun st =>
    let '(r, w') := http req (world st) in
    (Ok r, set_trace (trace st ++ [EvHttp req r])%list (set_world w' st)).

(** One request whose answer [r] is known beforehand (the listing of a
    directory of the remote tree). *)
Definition http_answered (r : option response) (req : request)
  : prog (option response) :=
  emit (EvHttp req r) ;;; ret r.

Definition api_base : string := "https://api.github.com".

(** [if x:] for an optional string. *)
Definition truthy_opt (u : option string) : bool :=
  match u with Some s => Py.truthy s | None => false end.

Definition user_request : request := Request GET (api_base +:+ "/user") NoBody.

(** [get_username] : the cached login, or the one the API gives. *)
Definition get_username : prog (option string) :=
  cached <- gets gh_username ;;
  if truthy_opt cached then ret cached
  else
    r <- http_request user_request ;;
    match r with
    | Some resp =>
        if (status resp =? 200)%Z then
          match json_body resp with
          | PUser login =>
              modify (set_gh_username (Some login)) ;;; ret (Some login)
          | _ => ret None          (* user_data['login'] raises; caught *)
          end
        else ret None
    | None => ret None
    end.

Definition create_request (repo_name description : string) : request :=
  Request POST (api_base +:+ "/user/repos")
          (CreateRepo repo_name description false false).

(** [create_repository] *)
Definition create_repository (repo_name description : string) : prog bool :=
  r <- http_request (create_request repo_name description) ;;
  match r with
  | Some resp =>
      if (status resp =? 201)%Z then ret true
      else if (status resp =? 422)%Z then ret false
      else ret false
  | None => ret false
  end.

(** [os.walk(source_dir)] with the loop over [files] of [upload_files] and
    [analyze_project]: the relative path and the bytes of every file, the
    files of a directory before those of its subdirectories. *)
Fixpoint walk_files (rel : string) (n : node) : list (string * string) :=
  match n with
  | File _ => []
  | Dir entries =>
      flat_map (fun e => match snd e with
                         | File c => [(OsPath.join rel (fst e), c)]
                         | Dir _ => []
                         end) entries ++
      flat_map (fun e => match snd e with
                         | File _ => []
                         | Dir _ => walk_files (OsPath.join rel (fst e)) (snd e)
                         end) entries
  end.

Definition os_walk_files (source_dir : option node) : list (string * string) :=
  match source_dir with
  | Some n => walk_files "" n
  | None => []
  end.

Definition contents_url (username repo_name path : string) : string :=
  api_base +:+ "/repos/" +:+ username +:+ "/" +:+ repo_name +:+ "/contents/" +:+ path.

Definition put_request (username repo_name relative_path content : string)
  : request :=
  Request PUT (contents_url username repo_name relative_path)
          (PutContent ("Add " +:+ relative_path) (b64encode content)).

(** [response.status in [200, 201]] *)
Definition uploaded_ok (r : option response) : bool :=
  match r with
  | Some resp => (status resp =? 200)%Z || (status resp =? 201)%Z
  | None => false
  end.

(** The loop of [upload_files]; a file whose request fails or raises is
    logged and the loop goes on. *)
Fixpoint upload_loop (username repo_name : string)
    (files_to_upload : list (string * string)) (success_count : Z) : prog Z :=
  match files_to_upload with
  | [] => ret success_count
  | (relative_path, file_content) :: rest =>
      r <- http_request (put_request username repo_name relative_path file_content) ;;
      upload_loop username repo_name rest
        (if uploaded_ok r then success_count + 1 else success_count)
  end.

(** [upload_files] *)
Definition upload_files (repo_name : string) (source_dir : option node)
  : prog bool :=
  username <- get_username ;;
  match username with
  | Some u =>
      if Py.truthy u then
        success_count <- upload_loop u repo_name (os_walk_files source_dir) 0 ;;
        ret (0 <? success_count)
      else ret false
  | None => ret false
  end.

Definition repos_request : request :=
  Request GET (api_base +:+ "/user/repos") (ListParams 100 "updated" "desc").

(** [get_repositories] : the decoded body of a 200 answer as it is, the
    empty list otherwise. *)
Definition get_repositories : prog (option payload) :=
  r <- http_request repos_request ;;
  match r with
  | Some resp =>
      if (status resp =? 200)%Z then ret (decoded (json_body resp))
      else ret (Some (PRepos []))
  | None => ret (Some (PRepos []))
  end.

Definition repo_url (username repo_name : string) : string :=
  api_base +:+ "/repos/" +:+ username +:+ "/" +:+ repo_name.

(** [delete_repository] *)
Definition delete_repository (repo_name : string) : prog bool :=
  username <- get_username ;;
  if truthy_opt username then
    r <- http_request (Request DELETE (repo_url (default "" username) repo_name) NoBody) ;;
    match r with
    | Some resp => ret (status resp =? 204)%Z
    | None => ret false
    end
  else ret false.

(** [get_repository_info] : the decoded body of a 200 answer as it is,
    [None] otherwise. *)
Definition get_repository_info (repo_name : string) : prog (option payload) :=
  username <- get_username ;;
  if truthy_opt username then
    r <- http_request (Request GET (repo_url (default "" username) repo_name) NoBody) ;;
    match r with
    | Some resp =>
        if (status resp =? 200)%Z then ret (decoded (json_body resp))
        else ret None
    | None => ret None
    end
  else ret None.

(** What [get_repository_contents] makes of the answer to its request: the
    decoded body of a 200 answer as it is, the empty list for 404, [None]
    otherwise. *)
Definition contents_of_response (r : option response) : option payload :=
  match r with
  | Some resp =>
      if (status resp =? 200)%Z then decoded (json_body resp)
      else if (status resp =? 404)%Z then Some (PContents [])
      else None
  | None => None
  end.

Definition contents_request (username repo_name path : string) : request :=
  Request GET (contents_url username repo_name path) NoBody.

(** [get_repository_contents], with the way the request is sent as a
    parameter. *)
Definition get_repository_contents_via
    (send : request -> prog (option response)) (repo_name path : string)
  : prog (option payload) :=
  username <- get_username ;;
  if truthy_opt username then
    r <- send (contents_request (default "" username) repo_name path) ;;
    ret (contents_of_response r)
  else ret None.

Definition get_repository_contents (repo_name path : string)
  : prog (option payload) :=
  get_repository_contents_via http_request repo_name path.

Definition delete_request (username repo_name : string) (f : file_info)
  : request :=
  Request DELETE (contents_url username repo_name (fi_path f))
          (DeleteContent ("chore: delete " +:+ OsPath.basename (fi_path f))
                         (fi_sha f)).

(** [response.status == 200] for a deletion *)
Definition deleted_ok (r : option response) : bool :=
  match r with
  | Some resp => (status resp =? 200)%Z
  | None => false
  end.

(** [delete_file] *)
Definition delete_file (repo_name : string) (f : file_info) : prog bool :=
  username <- get_username ;;
  if truthy_opt username then
    r <- http_request (delete_request (default "" username) repo_name f) ;;
    ret (deleted_ok r)
  else ret false.

Definition listing_response (a : listing) : option response :=
  match a with
  | Listing s items => Some (Response s (PContents items))
  | Unlisted s truthy => Some (Response s (if truthy then PJunk else PNone))
  | NoAnswer => None
  end.

(** [if not contents] *)
Definition no_contents (c : option payload) : bool := negb (truthy_value c).

(** The body of the loop [for item in contents] of
    [find_files_recursively]; [files_to_delete] is the list of the
    enclosing function, to which files are appended.  For a directory the
    function calls itself on the path of the entry: it asks for the
    contents, returns at once when there are none, and loops over them.
    The loop raises on contents that are not an array, and its body raises
    on an element without the keys that it reads. *)
Fixpoint visit_item (repo_name : string) (it : item)
    (files_to_delete : list file_info) {struct it} : prog (list file_info) :=
  match it with
  | ItemFile path sha => ret (files_to_delete ++ [FileInfo path sha])%list
  | ItemDir path answer =>
      contents <- get_repository_contents_via
                    (http_answered (listing_response answer)) repo_name path ;;
      if no_contents contents then ret files_to_delete
      else
        match answer with
        | Listing _ items =>
            (fix visit_all (l : list item) (acc : list file_info)
               : prog (list file_info) :=
               match l with
               | [] => ret acc
               | i :: rest =>
                   acc' <- visit_item repo_name i acc ;;
                   visit_all rest acc'
               end) items files_to_delete
        | Unlisted _ _ => raise ShapeError
        | NoAnswer => raise ShapeError
        end
  | ItemOther _ => ret files_to_delete
  | ItemMalformed => raise ShapeError
  end.

(** [for item in contents: ...] over an array of entries *)
Fixpoint visit_items (repo_name : string) (contents : list item)
    (files_to_delete : list file_info) : prog (list file_info) :=
  match contents with
  | [] => ret files_to_delete
  | i :: rest =>
      acc' <- visit_item repo_name i files_to_delete ;;
      visit_items repo_name rest acc'
  end.

(** [for item in contents: ...] over what [get_repository_contents]
    returned. *)
Definition visit_contents (repo_name : string) (contents : option payload)
    (files_to_delete : list file_info) : prog (list file_info) :=
  match contents with
  | Some (PContents items) => visit_items repo_name items files_to_delete
  | _ => raise ShapeError
  end.

(** [await find_files_recursively()] : the call on the root path. *)
Definition find_files_recursively (repo_name : string)
    (files_to_delete : list file_info) : prog (list file_info) :=
  contents <- get_repository_contents repo_name "" ;;
  if no_contents contents then ret files_to_delete
  else visit_contents repo_name contents files_to_delete.

(** The deletion loop of [clear_repository_contents]: it stops at the first
    failure.  The result is [all_deleted]. *)
Fixpoint delete_loop (repo_name : string) (files_to_delete : list file_info)
  : prog bool :=
  match files_to_delete with
  | [] => ret true
  | file_info :: rest =>
      success <- delete_file repo_name file_info ;;
      if negb success then ret false
      else delete_loop repo_name rest
  end.

(** [clear_repository_contents] *)
Definition clear_repository_contents (repo_name : string) : prog bool :=
  try_except
    (files_to_delete <- find_files_recursively repo_name [] ;;
     match files_to_delete with
     | [] => ret true
     | _ :: _ =>
         all_deleted <- delete_loop repo_name files_to_delete ;;
         if all_deleted then ret true else ret false
     end)
    (fun _ => ret false).

(** [set_repository_visibility] *)
Definition set_repository_visibility (repo_name : string) (private : bool)
  : prog bool :=
  username <- get_username ;;
  if truthy_opt username then
    r <- http_request (Request PATCH (repo_url (default "" username) repo_name)
                               (SetPrivate private)) ;;
    match r with
    | Some resp => ret (status resp =? 200)%Z
    | None => ret false
    end
  else ret false.

End GitHubHandler.

(** ** The extraction directory

    The state is the node at [extract_dir] ([None] while the directory does
    not exist); a path is the list of the names below it.  The operations
    are those of [os], [os.path] and [shutil] that [main.py] and
    [readme_generator.py] call. *)

Module FS.

Definition path : Type := list string.
Definition fs : Type := option node.

Fixpoint assoc (name : string) (entries : list (string * node)) : option node :=
  match entries with
  | [] => None
  | (n, x) :: rest => if String.eqb n name then Some x else assoc name rest
  end.

Fixpoint lookup (p : path) (n : node) : option node :=
  match p with
  | [] => Some n
  | c :: p' =>
      match n with
      | Dir entries =>
          match assoc c entries with
          | Some m => lookup p' m
          | None => None
          end
      | File _ => None
      end
  end.

Definition stat (p : path) (d : fs) : option node :=
  match d with Some n => lookup p n | None => None end.

Definition remove_entry (name : string) (entries : list (string * node))
  : list (string * node) :=
  List.filter (fun e => negb (String.eqb (fst e) name)) entries.

(** The entry [name] set to [x]: in place when the name is there, as a new
    last entry otherwise. *)
Fixpoint set_entry (name : string) (x : node) (entries : list (string * node))
  : list (string * node) :=
  match entries with
  | [] => [(name, x)]
  | (n, y) :: rest =>
      if String.eqb n name then (n, x) :: rest
      else (n, y) :: set_entry name x rest
  end.

(** [f] applied to the entries of the directory at [p]. *)
Fixpoint alter_dir (p : path)
    (f : list (string * node) -> list (string * node)) (n : node) : node :=
  match n with
  | File c => File c
  | Dir entries =>
      match p with
      | [] => Dir (f entries)
      | c :: p' =>
          Dir (map (fun e => if String.eqb (fst e) c
                             then (fst e, alter_dir p' f (snd e)) else e)
                   entries)
      end
  end.

Definition parent (p : path) : path := List.removelast p.
Definition name_of (p : path) : string := List.last p "".

Definition detach (p : path) (n : node) : node :=
  alter_dir (parent p) (remove_entry (name_of p)) n.
Definition attach (p : path) (x : node) (n : node) : node :=
  alter_dir (parent p) (set_entry (name_of p) x) n.

Local Open Scope prog_scope.

Definition FileNotFoundError : exn := Exception "No such file or directory".
Definition NotADirectoryError : exn := Exception "Not a directory".
Definition IsADirectoryError : exn := Exception "Is a directory".
Definition DirectoryNotEmpty : exn := Exception "Directory not empty".
Definition InvalidArgument : exn := Exception "Invalid argument".
Definition DestinationExists : exn := Exception "Destination path already exists".

(** [os.path.exists] and [os.path.isdir] *)
Definition os_path_exists (p : path) : stateful fs bool :=
  gets (fun d => match stat p d with Some _ => true | None => false end).
Definition os_path_isdir (p : path) : stateful fs bool :=
  gets (fun d => match stat p d with Some (Dir _) => true | _ => false end).

(** [os.listdir] *)
Definition os_listdir (p : path) : stateful fs (list string) :=
  x <- gets (stat p) ;;
  match x with
  | Some (Dir entries) => ret (map fst entries)
  | Some (File _) => raise NotADirectoryError
  | None => raise FileNotFoundError
  end.

Definition is_prefix (p q : path) : bool :=
  (length p <=? length q)%nat && bool_decide (firstn (length p) q = p).

(** [os.rename(src, dst)] : a missing destination is created; a file
    replaces a file and a directory replaces an empty directory; everything
    else fails. *)
Definition os_rename (src dst : path) : stateful fs unit :=
  s <- gets (stat src) ;;
  t <- gets (stat dst) ;;
  up <- gets (stat (parent dst)) ;;
  match s with
  | None => raise FileNotFoundError
  | Some x =>
      if bool_decide (src = dst) then ret tt
      else if is_prefix src dst then raise InvalidArgument
      else
        let move := modify (fun d => attach dst x <$> (detach src <$> d)) in
        match t, x with
        | None, _ =>
            match up with
            | Some (Dir _) => match dst with [] => raise InvalidArgument | _ => move end
            | Some (File _) => raise NotADirectoryError
            | None => raise FileNotFoundError
            end
        | Some (File _), File _ => move
        | Some (File _), Dir _ => raise NotADirectoryError
        | Some (Dir _), File _ => raise IsADirectoryError
        | Some (Dir []), Dir _ => move
        | Some (Dir (_ :: _)), Dir _ => raise DirectoryNotEmpty
        end
  end.

(** [shutil.move(src, dst)] : a source moved onto an existing directory
    goes inside it, and the path it would take there must be free.  When
    the rename fails so do the copies by which [shutil.move] would replace
    it, and the exception is the caller's. *)
Definition shutil_move (src dst : path) : stateful fs unit :=
  dst_is_dir <- os_path_isdir dst ;;
  if dst_is_dir then
    if bool_decide (src = dst) then os_rename src dst
    else
      let real_dst := (dst ++ [name_of src])%list in
      taken <- os_path_exists real_dst ;;
      if taken then raise DestinationExists
      else os_rename src real_dst
  else os_rename src dst.

(** [os.rmdir] *)
Definition os_rmdir (p : path) : stateful fs unit :=
  x <- gets (stat p) ;;
  match x with
  | Some (Dir []) =>
      match p with
      | [] => modify (fun _ => None)
      | _ => modify (fun d => detach p <$> d)
      end
  | Some (Dir (_ :: _)) => raise DirectoryNotEmpty
  | Some (File _) => raise NotADirectoryError
  | None => raise FileNotFoundError
  end.

(** [with open(p, 'w') as f: f.write(content)] *)
Definition write_file (p : path) (content : string) : stateful fs unit :=
  x <- gets (stat p) ;;
  up <- gets (stat (parent p)) ;;
  match x, up with
  | Some (Dir _), _ => raise IsADirectoryError
  | _, Some (Dir _) =>
      match p with
      | [] => raise IsADirectoryError
      | _ => modify (fun d => attach p (File content) <$> d)
      end
  | _, Some (File _) => raise NotADirectoryError
  | _, None => raise FileNotFoundError
  end.

(** [with open(p, 'r') as f: f.read()] *)
Definition read_file (p : path) : stateful fs string :=
  x <- gets (stat p) ;;
  match x with
  | Some (File c) => ret c
  | Some (Dir _) => raise IsADirectoryError
  | None => raise FileNotFoundError
  end.

End FS.

(** ** [main.py] : the layout of the extracted archive *)

Section ZipStructure.
Local Open Scope prog_scope.
Import FS.

(** [_check_zip_structure] : [True] when the structure is correct, [False]
    when the only entry of the root is a directory. *)
Definition _check_zip_structure : stateful fs bool :=
  contents <- os_listdir [] ;;
  match contents with
  | [c] =>
      nested <- os_path_isdir [c] ;;
      if nested then ret false else ret true
  | _ => ret true
  end.

(** The loop [for item in os.listdir(nested_dir)] of [_fix_zip_structure]. *)
Fixpoint move_items (nested_dir : path) (items : list string)
  : stateful fs unit :=
  match items with
  | [] => ret tt
  | item :: rest =>
      shutil_move (nested_dir ++ [item])%list [item] ;;;
      move_items nested_dir rest
  end.

(** [_fix_zip_structure] *)
Definition _fix_zip_structure : stateful fs unit :=
  contents <- os_listdir [] ;;
  match contents with
  | [c] =>
      nested <- os_path_isdir [c] ;;
      if nested then
        let nested_dir := [c] in
        items <- os_listdir nested_dir ;;
        move_items nested_dir items ;;;
        os_rmdir nested_dir
      else ret tt
  | _ => ret tt
  end.

(** The two lines that both workflows run after the extraction:
    [if not self._check_zip_structure(extract_dir):
         self._fix_zip_structure(extract_dir)] *)
Definition check_and_fix_zip_structure : stateful fs unit :=
  ok <- _check_zip_structure ;;
  if negb ok then _fix_zip_structure else ret tt.

End ZipStructure.

(** ** Python dictionaries in insertion order *)

Module Dict.
Section Dict.
Context {V : Type}.

Fixpoint get (k : string) (d : list (string * V)) : option V :=
  match d with
  | [] => None
  | (k', v) :: rest => if String.eqb k' k then Some v else get k rest
  end.

(** [k in d] *)
Definition contains (k : string) (d : list (string * V)) : bool :=
  match get k d with Some _ => true | None => false end.

(** [d[k]] *)
Definition getitem {S} (k : string) (d : list (string * V)) : stateful S V :=
  match get k d with
  | Some v => ret v
  | None => raise (Exception ("KeyError: " +:+ k))
  end.

(** [d[k] = v] : an existing key keeps its place, a new one goes last. *)
Fixpoint set (k : string) (v : V) (d : list (string * V)) : list (string * V) :=
  match d with
  | [] => [(k, v)]
  | (k', v') :: rest =>
      if String.eqb k' k then (k', v) :: rest else (k', v') :: set k v rest
  end.

End Dict.
End Dict.

(** ** [readme_generator.py] : class [ReadmeGenerator] *)

Section ReadmeGenerator.
Context `{E : Env}.
Local Open Scope prog_scope.
Import FS.

Definition language_extensions : list (string * string) :=
  [ (".py", "Python"); (".js", "JavaScript"); (".ts", "TypeScript");
    (".java", "Java"); (".cpp", "C++"); (".c", "C"); (".cs", "C#");
    (".php", "PHP"); (".rb", "Ruby"); (".go", "Go"); (".rs", "Rust");
    (".swift", "Swift"); (".kt", "Kotlin"); (".dart", "Dart");
    (".html", "HTML"); (".css", "CSS"); (".scss", "SCSS"); (".sass", "Sass");
    (".vue", "Vue.js"); (".jsx", "React JSX"); (".tsx", "React TSX");
    (".r", "R"); (".m", "Objective-C"); (".sh", "Shell"); (".bat", "Batch");
    (".ps1", "PowerShell") ].

Record analysis : Type := Analysis {
  languages : list (string * Z);
  frameworks : list string;
  files : list string;
  directories : list string;
  main_language : option string;
  project_type : option string
}.

(** The loop [for file in files] over [os.walk(project_dir)]: the first
    component is [analysis['files']], the second [analysis['languages']]. *)
Fixpoint count_files (walked : list (string * string))
    (acc : list string * list (string * Z))
  : stateful fs (list string * list (string * Z)) :=
  match walked with
  | [] => ret acc
  | (relative_path, _) :: rest =>
      let file := OsPath.basename relative_path in
      let files' := (fst acc ++ [relative_path])%list in
      let ext := OsPath.splitext_ext file in
      if Dict.contains ext language_extensions then
        language <- Dict.getitem ext language_extensions ;;
        let n := default 0 (Dict.get language (snd acc)) + 1 in
        count_files rest (files', Dict.set language n (snd acc))
      else count_files rest (files', snd acc)
  end.

(** [max(d, key=d.get)] : the first key, in the order of the dictionary,
    whose count is the largest. *)
Fixpoint max_from (best : string) (best_count : Z) (rest : list (string * Z))
  : string :=
  match rest with
  | [] => best
  | (k, v) :: rest' =>
      if best_count <? v then max_from k v rest'
      else max_from best best_count rest'
  end.

Definition max_key (d : list (string * Z)) : stateful fs string :=
  match d with
  | [] => raise (Exception "max() arg is an empty sequence")
  | (k, v) :: rest => ret (max_from k v rest)
  end.

Definition framework_indicators : list (string * list string) :=
  [ ("package.json", ["Node.js"; "npm"]);
    ("requirements.txt", ["Python"]);
    ("Pipfile", ["Python"; "Pipenv"]);
    ("setup.py", ["Python"]);
    ("composer.json", ["PHP"; "Composer"]);
    ("Gemfile", ["Ruby"]);
    ("go.mod", ["Go"]);
    ("Cargo.toml", ["Rust"]);
    ("pom.xml", ["Java"; "Maven"]);
    ("build.gradle", ["Java"; "Gradle"]);
    ("pubspec.yaml", ["Dart"; "Flutter"]);
    ("vue.config.js", ["Vue.js"]);
    ("angular.json", ["Angular"]);
    ("next.config.js", ["Next.js"]);
    ("nuxt.config.js", ["Nuxt.js"]);
    ("gatsby-config.js", ["Gatsby"]);
    ("webpack.config.js", ["Webpack"]);
    ("vite.config.js", ["Vite"]);
    ("tsconfig.json", ["TypeScript"]);
    ("tailwind.config.js", ["Tailwind CSS"]);
    ("postcss.config.js", ["PostCSS"]) ].

Definition framework_packages : list (string * string) :=
  [ ("react", "React"); ("vue", "Vue.js"); ("angular", "Angular");
    ("express", "Express.js"); ("koa", "Koa.js"); ("fastify", "Fastify");
    ("nest", "NestJS"); ("svelte", "Svelte"); ("solid-js", "Solid.js");
    ("lit", "Lit"); ("bootstrap", "Bootstrap"); ("bulma", "Bulma");
    ("material-ui", "Material-UI"); ("ant-design", "Ant Design");
    ("chakra-ui", "Chakra UI") ].

(** The first loop of [_detect_frameworks]. *)
Fixpoint indicator_frameworks (files : list string) (frameworks : list string)
  : stateful fs (list string) :=
  match files with
  | [] => ret frameworks
  | file :: rest =>
      let filename := OsPath.basename file in
      if Dict.contains filename framework_indicators then
        found <- Dict.getitem filename framework_indicators ;;
        indicator_frameworks rest (frameworks ++ found)%list
      else indicator_frameworks rest frameworks
  end.

(** [package_data.get(key, {})] : only a dictionary has [get]. *)
Definition json_get (package_data : json) (key : string) : stateful fs json :=
  match package_data with
  | JObj fields => ret (default (JObj []) (Dict.get key fields))
  | _ => raise (Exception "AttributeError: no attribute 'get'")
  end.

(** The keys of [{**a, **b}] : both must be dictionaries. *)
Definition merged_keys (a b : json) : stateful fs (list string) :=
  match a, b with
  | JObj fa, JObj fb =>
      ret (map fst (fold_left (fun d kv => Dict.set (fst kv) (snd kv) d) fb fa))
  | _, _ => raise (Exception "TypeError: object is not a mapping")
  end.

(** The body of the [try] of [_detect_frameworks]: the frameworks that it
    appends.  Nothing is appended before the last statement that can
    raise. *)
Definition package_frameworks : stateful fs (list string) :=
  text <- read_file ["package.json"] ;;
  package_data <- match json_load text with
                  | Ok j => ret j
                  | Raise e => raise e
                  end ;;
  deps <- json_get package_data "dependencies" ;;
  dev <- json_get package_data "devDependencies" ;;
  dependencies <- merged_keys deps dev ;;
  ret (map snd
         (List.filter
            (fun pf => existsb (fun dep => Py.str_in (fst pf) dep) dependencies)
            framework_packages)).

(** [list(set(frameworks))] : the elements without repetition, in the
    order in which the set lists them. *)
Definition list_of_set (l : list string) : list string :=
  elements (list_to_set l : gset string).

(** [_detect_frameworks] *)
Definition _detect_frameworks (files : list string)
  : stateful fs (list string) :=
  frameworks <- indicator_frameworks files [] ;;
  has_package_json <- os_path_exists ["package.json"] ;;
  more <- (if has_package_json
           then try_except package_frameworks (fun _ => ret [])
           else ret []) ;;
  ret (list_of_set (frameworks ++ more)%list).

(** [name in [os.path.basename(f) for f in files]] *)
Definition has_basename (name : string) (files : list string) : bool :=
  existsb (String.eqb name) (map OsPath.basename files).

Definition any_endswith (suffixes : list string) (files : list string) : bool :=
  existsb (fun f => existsb (Py.endswith f) suffixes) files.

(** [_detect_project_type] *)
Definition _detect_project_type (files : list string) : option string :=
  if has_basename "package.json" files then Some "Web Application"
  else if any_endswith [".py"] files then
    if has_basename "requirements.txt" files then Some "Python Application"
    else if has_basename "manage.py" files then Some "Django Application"
    else if has_basename "app.py" files || has_basename "main.py" files
         then Some "Python Application"
    else Some "Application"
  else if any_endswith [".java"] files then Some "Java Application"
  else if any_endswith [".cpp"; ".c"] files then Some "C/C++ Application"
  else if any_endswith [".go"] files then Some "Go Application"
  else if any_endswith [".rs"] files then Some "Rust Application"
  else if any_endswith [".php"] files then Some "PHP Application"
  else if any_endswith [".rb"] files then Some "Ruby Application"
  else Some "Application".

(** [analyze_project] *)
Definition analyze_project : stateful fs analysis :=
  walked <- gets os_walk_files ;;
  counted <- count_files walked ([], []) ;;
  let files := fst counted in
  let languages := snd counted in
  main_language <- match languages with
                   | [] => ret None
                   | _ :: _ => k <- max_key languages ;; ret (Some k)
                   end ;;
  frameworks <- _detect_frameworks files ;;
  ret (Analysis languages frameworks files [] main_language
                (_detect_project_type files)).

(** [sorted(d.items(), key=lambda x: x[1], reverse=True)] : by decreasing
    count, items of equal count in their order in [d]. *)
Fixpoint insert_by_count (x : string * Z) (l : list (string * Z))
  : list (string * Z) :=
  match l with
  | [] => [x]
  | y :: rest =>
      if snd y <? snd x then x :: y :: rest
      else y :: insert_by_count x rest
  end.

Definition sorted_by_count (d : list (string * Z)) : list (string * Z) :=
  fold_left (fun acc x => insert_by_count x acc) d [].

(** [sorted(strings)] *)
Fixpoint insert_string (x : string) (l : list string) : list string :=
  match l with
  | [] => [x]
  | y :: rest =>
      if String.ltb x y then x :: y :: rest else y :: insert_string x rest
  end.

Definition sorted (l : list string) : list string :=
  fold_left (fun acc x => insert_string x acc) l [].

Definition line (s : string) : string := s +:+ Py.nl.

Definition concat_lines (l : list string) : string :=
  fold_right String.append "" l.

(** The description paragraph. *)
Definition description_section (a : analysis) : string :=
  match project_type a with
  | Some t =>
      if Py.truthy t then
        "A " +:+ t +:+
        (if truthy_opt (main_language a)
         then " built with " +:+ default "" (main_language a) else "") +:+
        "." +:+ Py.nl +:+ Py.nl
      else "Project uploaded via Telegram Bot." +:+ Py.nl +:+ Py.nl
  | None => "Project uploaded via Telegram Bot." +:+ Py.nl +:+ Py.nl
  end.

Definition nonempty {A} (l : list A) : bool :=
  match l with [] => false | _ :: _ => true end.

(** The section [## Technologies Used]. *)
Definition technologies_section (a : analysis) : string :=
  if nonempty (languages a) || nonempty (frameworks a) then
    line "## Technologies Used" +:+ Py.nl +:+
    (if nonempty (languages a) then
       line "**Languages:**" +:+
       concat_lines (map (fun lc => line ("- " +:+ fst lc))
                         (sorted_by_count (languages a))) +:+
       Py.nl
     else "") +:+
    (if nonempty (frameworks a) then
       line "**Frameworks/Libraries:**" +:+
       concat_lines (map (fun f => line ("- " +:+ f)) (frameworks a)) +:+
       Py.nl
     else "")
  else "".

(** The lines of the root files: the last one closes the drawing when
    there is no directory. *)
Fixpoint file_lines (no_dirs : bool) (sorted_files : list string) : string :=
  match sorted_files with
  | [] => ""
  | [file] =>
      if no_dirs then line ("└── " +:+ file) else line ("├── " +:+ file)
  | file :: rest => line ("├── " +:+ file) +:+ file_lines no_dirs rest
  end.

(** The section [## Project Structure]. *)
Definition structure_section (project_name : string) (a : analysis) : string :=
  let dirs : list string :=
    List.filter (fun d => Py.truthy d && negb (String.eqb d "."))
                (map OsPath.dirname (files a)) in
  let sorted_dirs := sorted (list_of_set dirs) in
  let sorted_files :=
    sorted (List.filter (fun f => String.eqb (OsPath.dirname f) "") (files a)) in
  line "## Project Structure" +:+ Py.nl +:+
  line "```" +:+
  line (project_name +:+ "/") +:+
  concat_lines (map (fun d => line ("├── " +:+ d +:+ "/")) sorted_dirs) +:+
  file_lines (negb (nonempty sorted_dirs)) sorted_files +:+
  line "```" +:+ Py.nl.

Definition clone_lines (project_name : string) : string :=
  line "# Clone the repository" +:+
  line ("git clone https://github.com/your-username/" +:+ project_name +:+ ".git").

(** The section [## Getting Started]. *)
Definition getting_started_section (project_name : string) (a : analysis)
  : string :=
  line "## Getting Started" +:+ Py.nl +:+
  (if has_basename "package.json" (files a) then
     line "### Prerequisites" +:+ Py.nl +:+
     line "- Node.js (v14 or higher)" +:+
     line "- npm or yarn" +:+ Py.nl +:+
     line "### Installation" +:+ Py.nl +:+
     line "```bash" +:+
     clone_lines project_name +:+
     line ("cd " +:+ project_name) +:+ Py.nl +:+
     line "# Install dependencies" +:+
     line "npm install" +:+
     line "# or" +:+
     line "yarn install" +:+
     line "```" +:+ Py.nl +:+
     line "### Usage" +:+ Py.nl +:+
     line "```bash" +:+
     line "# Start the application" +:+
     line "npm start" +:+
     line "# or" +:+
     line "yarn start" +:+
     line "```" +:+ Py.nl
   else if has_basename "requirements.txt" (files a) then
     line "### Prerequisites" +:+ Py.nl +:+
     line "- Python 3.7+" +:+
     line "- pip" +:+ Py.nl +:+
     line "### Installation" +:+ Py.nl +:+
     line "```bash" +:+
     clone_lines project_name +:+
     line ("cd " +:+ project_name) +:+ Py.nl +:+
     line "# Install dependencies" +:+
     line "pip install -r requirements.txt" +:+
     line "```" +:+ Py.nl +:+
     line "### Usage" +:+ Py.nl +:+
     line "```bash" +:+
     line "# Run the application" +:+
     line "python main.py" +:+
     line "```" +:+ Py.nl
   else
     line "### Installation" +:+ Py.nl +:+
     line "```bash" +:+
     clone_lines project_name +:+
     line ("cd " +:+ project_name) +:+
     line "```" +:+ Py.nl +:+
     line "### Usage" +:+ Py.nl +:+
     line "Follow the specific instructions for your project type." +:+ Py.nl).

(** The fixed end of the document. *)
Definition closing_sections : string :=
  line "## Contributing" +:+ Py.nl +:+
  line "1. Fork the repository" +:+
  line "2. Create your feature branch (`git checkout -b feature/amazing-feature`)" +:+
  line "3. Commit your changes (`git commit -m 'Add some amazing feature'`)" +:+
  line "4. Push to the branch (`git push origin feature/amazing-feature`)" +:+
  line "5. Open a Pull Request" +:+ Py.nl +:+
  line "## License" +:+ Py.nl +:+
  line "This project is licensed under the MIT License - see the LICENSE file for details." +:+
  Py.nl +:+
  line "---" +:+ Py.nl +:+
  line "*Project uploaded via Telegram Bot*".

Definition title_section (project_name : string) : string :=
  "# " +:+ project_name +:+ Py.nl +:+ Py.nl.

(** The document in terms of the analysis. *)
Definition render_readme (project_name : string) (a : analysis) : string :=
  title_section project_name +:+
  description_section a +:+
  technologies_section a +:+
  structure_section project_name a +:+
  getting_started_section project_name a +:+
  closing_sections.

(** [generate_readme] *)
Definition generate_readme (project_name : string) : stateful fs string :=
  a <- analyze_project ;;
  ret (render_readme project_name a).

End ReadmeGenerator.

(** ** [main.py] : class [TelegramBot] *)

(** The fixed texts of the replies. *)
Module Text.
Definition welcome_message : string := "
🤖 **Bot GitHub Upload Otomatis**

Halo! Bot ini bisa bantu kamu upload project ke GitHub secara otomatis.

**Fitur:**
• Upload project dari file ZIP
• Buat repository GitHub otomatis
• Generate README.md profesional
• Support 2 mode upload (normal & template)

**Cara upload project:**
1. Ketik `/upload` atau `/upload template`
2. Kirim file ZIP berisi project kamu
3. Bot akan otomatis buat repository dan upload semua file

**Struktur ZIP yang benar:**
```
✅ BENAR:
nama-project.zip
├── main.py
├── config.py
└── README.md

❌ SALAH:
nama-project.zip
└── folder-project/
    ├── main.py
    ├── config.py
    └── README.md
```

**File project harus langsung di root ZIP, bukan dalam folder!**

Ketik /help untuk lihat semua perintah yang bisa dipakai.
        ".

Definition help_message : string := "
📋 **Panduan Penggunaan Bot**

**Perintah yang Tersedia:**

/start - Tampilkan sambutan dan informasi bot
/help - Panduan penggunaan bot
/upload - Upload project baru ke GitHub
/upload template - Upload project baru dengan README template
/upd_repo [nama-repo] - Update repository yang sudah ada
/upd_repo template [nama-repo] - Update repo dengan README template
/priv [nama-repo] - Ubah repository menjadi private
/pblc [nama-repo] - Ubah repository menjadi public
/info - Lihat statistik upload
/del [nama-repo] - Hapus repository
/inp [nama-repo] - Info detail repository

**Mode Upload:**

🔹 **Mode Normal** (`/upload`)
• Jika ZIP berisi README.md → gunakan yang dari ZIP
• Jika ZIP tidak ada README.md → buat README basic

🔹 **Mode Template** (`/upload template`)
• Selalu gunakan template README profesional dari bot
• Ganti README.md yang ada di ZIP (jika ada)

**Cara Upload Project:**
1. Ketik `/upload` atau `/upload template`
2. Kirim file ZIP yang berisi project kamu
3. Bot akan secara otomatis:
   • Ekstrak file ZIP
   • Buat repository GitHub baru
   • Generate/gunakan README.md sesuai mode
   • Upload semua file ke repository

**Catatan:**
• Nama repository akan sama dengan nama file ZIP
• Semua file dalam ZIP akan diupload ke root repository
• Maksimal ukuran file: 20MB
        ".

Definition upload_message_template : string := "
📤 **Mode Upload Template Aktif**

Silakan kirim file ZIP yang berisi project kamu.

**Mode Template:** README.md akan dibuat menggunakan template profesional dari source code, mengganti README.md yang ada di ZIP (jika ada).

**Format yang didukung:** .zip
**Ukuran maksimal:** 20MB
            ".

Definition upload_message_normal : string := "
📤 **Mode Upload Aktif**

Silakan kirim file ZIP yang berisi project kamu.

**Mode Normal:** Jika ZIP berisi README.md, akan digunakan yang dari ZIP. Jika tidak ada, akan dibuat README.md basic.

**Format yang didukung:** .zip
**Ukuran maksimal:** 20MB
            ".

End Text.

(** An uploaded document and an incoming update.  Which handler runs is
    decided by the handler table of [main()]: one per command, one for
    documents, one for text that is not a command. *)
Record document : Type := Document {
  file_name : option string;            (* optional in the Bot API *)
  file_size : option Z;                 (* optional in the Bot API *)
  file_id : string
}.

Inductive command : Type :=
| CmdStart | CmdHelp | CmdUpload | CmdUpdRepo | CmdInfo
| CmdDel | CmdPriv | CmdPblc | CmdInp.

(** [text] is [update.message.text] and [args] is [context.args]. *)
Inductive message : Type :=
| Command (c : command) (text : string) (args : list string)
| DocumentUpload (doc : document)
| Text (text : string).

Record update : Type := Update {
  effective_user : option Z;
  incoming : message
}.

Module PyWs.
(** The white space characters of one byte: U+0009 to U+000D and U+001C
    to U+0020. *)
Definition is_space (c : ascii) : bool :=
  let n := nat_of_ascii c in
  ((9 <=? n) && (n <=? 13) || (28 <=? n) && (n <=? 32))%nat.

(** White space as [str.strip] and [str.split] see it: the code points
    U+0009 to U+000D, U+001C to U+0020, U+0085, U+00A0, U+1680, U+2000 to
    U+200A, U+2028, U+2029, U+202F, U+205F and U+3000.  [space_len s] is
    the number of bytes that such a character takes at the head of [s] in
    UTF-8, and 0 when [s] starts with another character. *)
Definition space_len (s : string) : nat :=
  match s with
  | EmptyString => 0%nat
  | String c rest =>
      if is_space c then 1%nat
      else
        let b := nat_of_ascii c in
        if (b =? 194)%nat then                     (* U+0085, U+00A0 *)
          match rest with
          | String d _ =>
              let n := nat_of_ascii d in
              if ((n =? 133) || (n =? 160))%nat then 2%nat else 0%nat
          | EmptyString => 0%nat
          end
        else if ((225 <=? b) && (b <=? 227))%nat then
          match rest with
          | String d (String e _) =>
              let n := nat_of_ascii d in
              let m := nat_of_ascii e in
              if ((b =? 225) && (n =? 154) && (m =? 128)                (* U+1680 *)
                  || (b =? 226) && (n =? 128) &&
                     ((128 <=? m) && (m <=? 138)                        (* U+2000-200A *)
                      || (m =? 168) || (m =? 169) || (m =? 175))        (* U+2028, 2029, 202F *)
                  || (b =? 226) && (n =? 129) && (m =? 159)             (* U+205F *)
                  || (b =? 227) && (n =? 128) && (m =? 128))%nat        (* U+3000 *)
              then 3%nat else 0%nat
          | _ => 0%nat
          end
        else 0%nat
  end.

(** [s.lstrip()]; [skip] counts the bytes of a white space character that
    are still to be dropped. *)
Fixpoint lstrip_go (skip : nat) (s : string) : string :=
  match s with
  | EmptyString => EmptyString
  | String c rest =>
      match skip with
      | S k => lstrip_go k rest
      | O =>
          match space_len s with
          | O => s
          | S k => lstrip_go k rest
          end
      end
  end.

Definition lstrip (s : string) : string := lstrip_go 0 s.

(** [s.rstrip()] : what is left of the first position from which there is
    white space only. *)
Fixpoint rstrip (s : string) : string :=
  match s with
  | EmptyString => EmptyString
  | String c rest =>
      if String.eqb (lstrip s) EmptyString then EmptyString
      else String c (rstrip rest)
  end.

(** [s.strip()] *)
Definition strip (s : string) : string := rstrip (lstrip s).

(** [s.split()] : the maximal runs of characters that are not white
    space.  [cur] is the run being read, reversed; [skip] is as in
    [lstrip_go]. *)
Fixpoint split_go (cur : string) (skip : nat) (s : string) : list string :=
  match s with
  | EmptyString =>
      match cur with EmptyString => [] | _ => [String.rev cur] end
  | String c rest =>
      match skip with
      | S k => split_go EmptyString k rest
      | O =>
          match space_len s with
          | O => split_go (String c cur) 0 rest
          | S k =>
              match cur with
              | EmptyString => split_go EmptyString k rest
              | _ => String.rev cur :: split_go EmptyString k rest
              end
          end
      end
  end.

Definition split (s : string) : list string := split_go EmptyString 0 s.

(** [context.args] of a command message: the words after the command. *)
Definition command_args (text : string) : list string := List.tl (split text).
End PyWs.

Section TelegramBot.
Context `{E : Env}.
Local Open Scope prog_scope.
Import FS.

Definition rate_limit_seconds : Q := 2%Q.

Definition Qlt_bool (x y : Q) : bool := negb (Qle_bool y x).

(** [_is_authorized_and_not_rate_limited] *)
Definition _is_authorized_and_not_rate_limited (upd : update) : prog bool :=
  match effective_user upd with
  | None => ret false
  | Some user_id =>
      if negb (user_id =? OWNER_ID) then ret false
      else
        current_time <- gets (fun st => time_time (world st)) ;;
        last_time <- gets (fun st => default 0%Q (last_message_time st !! user_id)) ;;
        if Qlt_bool (current_time - last_time)%Q rate_limit_seconds
        then ret false
        else
          modify (fun st => set_last_message_time
                              (<[user_id := current_time]> (last_message_time st)) st) ;;;
          ret true
  end.

Definition reply_text (text : string) : prog unit := emit (EvReply text).
Definition edit_text (text : string) : prog unit := emit (EvEdit text).

(** Updates of [context.user_data]. *)
Definition pop_mode (d : user_data) : user_data :=
  UserData None (ud_update_repo_name d) (ud_use_template d).
Definition pop_update_repo_name (d : user_data) : user_data :=
  UserData (ud_mode d) None (ud_use_template d).
Definition pop_use_template (d : user_data) : user_data :=
  UserData (ud_mode d) (ud_update_repo_name d) None.
Definition put_mode (m : string) (d : user_data) : user_data :=
  UserData (Some m) (ud_update_repo_name d) (ud_use_template d).
Definition put_update_repo_name (r : string) (d : user_data) : user_data :=
  UserData (ud_mode d) (Some r) (ud_use_template d).
Definition put_use_template (b : bool) (d : user_data) : user_data :=
  UserData (ud_mode d) (ud_update_repo_name d) (Some b).
Definition update_user_data (f : user_data -> user_data) : prog unit :=
  modify (fun st => set_udata (f (udata st)) st).

(** A handler body behind the gate: [if not self._is_authorized_...: return]. *)
Definition gated (upd : update) (body : prog unit) : prog unit :=
  ok <- _is_authorized_and_not_rate_limited upd ;;
  if negb ok then ret tt else body.

Definition start_command (upd : update) : prog unit :=
  gated upd (reply_text Text.welcome_message).

Definition help_command (upd : update) : prog unit :=
  gated upd (reply_text Text.help_message).

Definition upload_command (upd : update) (text : string) : prog unit :=
  gated upd
    (update_user_data pop_mode ;;;
     update_user_data pop_update_repo_name ;;;
     let command_text := PyWs.strip text in
     let use_template := String.eqb (Py.lower command_text) "/upload template" in
     update_user_data (put_use_template use_template) ;;;
     update_user_data (put_mode "upload") ;;;
     reply_text (if use_template then Text.upload_message_template
                 else Text.upload_message_normal)).

(** [f"{x}"] for a value that may be [None]. *)
Definition fmt_opt (x : option string) : string := default "None" x.

Definition enumerate_from_1 {A} (l : list A) : list (Z * A) :=
  combine (map Z.of_nat (seq 1 (length l))) l.

(** The text of [info_command] for a list of repositories that is not
    empty. *)
Definition statistics_text (repos : list repo_info) (counter : Z) : string :=
  "📊 **Statistik GitHub:**" +:+ Py.nl +:+ Py.nl +:+
  "📁 Total repository: " +:+ pretty (Z.of_nat (length repos)) +:+ Py.nl +:+
  "📤 Upload melalui bot: " +:+ pretty counter +:+ Py.nl +:+ Py.nl +:+
  "🔗 **5 Repository Terbaru:**" +:+ Py.nl +:+
  concat_lines
    (map (fun ir =>
            pretty (fst ir) +:+ ". " +:+ ri_name (snd ir) +:+ Py.nl +:+
            "   📝 " +:+ fmt_opt (repo_description (snd ir)) +:+ Py.nl +:+
            "   🌟 " +:+ pretty (stargazers_count (snd ir)) +:+ " stars" +:+
            Py.nl +:+ Py.nl)
         (enumerate_from_1 (firstn 5 repos))).

(** [info_command] : the text is built without a [try], so that [len],
    the slice and the subscripts raise on a value that is true and is not
    an array of repositories, before anything is sent. *)
Definition info_command (upd : update) : prog unit :=
  gated upd
    (repos <- get_repositories ;;
     counter <- gets upload_counter ;;
     repo_info <- (if truthy_value repos then
                     match repos with
                     | Some (PRepos repos) => ret (statistics_text repos counter)
                     | _ => raise ShapeError
                     end
                   else ret "Belum ada repository di akun GitHub kamu.") ;;
     reply_text repo_info).

Definition delete_command (upd : update) (args : list string) : prog unit :=
  gated upd
    match args with
    | [] =>
        reply_text ("Cara pakai: /del [nama-repository]" +:+ Py.nl +:+ Py.nl +:+
                    "Contoh: /del my-project")
    | repo_name :: _ =>
        reply_text ("🔄 Menghapus repository '" +:+ repo_name +:+ "'...") ;;;
        success <- delete_repository repo_name ;;
        if success
        then edit_text ("✅ Repository '" +:+ repo_name +:+ "' berhasil dihapus!")
        else edit_text ("❌ Gagal menghapus repository '" +:+ repo_name +:+
                        "'. Pastikan nama repository benar.")
    end.

Definition _toggle_repo_visibility (args : list string) (private : bool)
  : prog unit :=
  let command := if private then "priv" else "pblc" in
  match args with
  | [] => reply_text ("Cara pakai: /" +:+ command +:+ " [nama-repository]")
  | repo_name :: _ =>
      let visibility_text := if private then "private" else "public" in
      reply_text ("🔄 Mengubah repository '" +:+ repo_name +:+ "' menjadi " +:+
                  visibility_text +:+ "...") ;;;
      repo_info <- get_repository_info repo_name ;;
      if negb (truthy_value repo_info)
      then edit_text ("❌ Repository '" +:+ repo_name +:+ "' tidak ditemukan.")
      else
        success <- set_repository_visibility repo_name private ;;
        if success
        then edit_text ("✅ Repository '" +:+ repo_name +:+
                        "' berhasil diubah menjadi " +:+ visibility_text +:+ ".")
        else edit_text ("❌ Gagal mengubah visibilitas repository '" +:+
                        repo_name +:+ "'.")
  end.

Definition private_command (upd : update) (args : list string) : prog unit :=
  gated upd (_toggle_repo_visibility args true).

Definition public_command (upd : update) (args : list string) : prog unit :=
  gated upd (_toggle_repo_visibility args false).

(** The text of [project_info_command] for the object of a repository. *)
Definition repository_text (info : repo_info) : string :=
  "📊 **Info Repository: " +:+ ri_name info +:+ "**" +:+
  Py.nl +:+ Py.nl +:+
  "📝 **Deskripsi:** " +:+ fmt_opt (repo_description info) +:+ Py.nl +:+
  "🌟 **Stars:** " +:+ pretty (stargazers_count info) +:+ Py.nl +:+
  "🍴 **Forks:** " +:+ pretty (forks_count info) +:+ Py.nl +:+
  "👁️ **Watchers:** " +:+ pretty (watchers_count info) +:+ Py.nl +:+
  "📏 **Size:** " +:+ pretty (repo_size info) +:+ " KB" +:+ Py.nl +:+
  "🔒 **Private:** " +:+ (if repo_private info then "Yes" else "No") +:+
  Py.nl +:+
  "💻 **Language:** " +:+ fmt_opt (repo_language info) +:+ Py.nl +:+
  "🔗 **URL:** " +:+ html_url info +:+ Py.nl.

(** [project_info_command] : the subscripts of [repo_info] are outside
    any [try], so that they raise on a value that is true and is not the
    object of a repository. *)
Definition project_info_command (upd : update) (args : list string) : prog unit :=
  gated upd
    match args with
    | [] =>
        reply_text ("Cara pakai: /inp [nama-repository]" +:+ Py.nl +:+ Py.nl +:+
                    "Contoh: /inp my-project")
    | repo_name :: _ =>
        reply_text ("📡 Mengambil info repository '" +:+ repo_name +:+ "'...") ;;;
        repo_info <- get_repository_info repo_name ;;
        if truthy_value repo_info then
          match repo_info with
          | Some (PRepo info) => edit_text (repository_text info)
          | _ => raise ShapeError
          end
        else
          edit_text ("Repository '" +:+ repo_name +:+
                     "' tidak ditemukan di akun kamu.")
    end.

Definition readme_mode (use_template : bool) : string :=
  if use_template then "Template" else "Normal".

(** [update_repo_command] *)
Definition update_repo_command (upd : update) (text : string)
    (args : list string) : prog unit :=
  gated upd
    (update_user_data pop_mode ;;;
     update_user_data pop_update_repo_name ;;;
     match args with
     | [] =>
         reply_text ("Cara pakai: /upd_repo [nama-repository]" +:+ Py.nl +:+ Py.nl +:+
                     "Contoh: /upd_repo my-project")
     | repo_name :: _ =>
         reply_text ("Mengecek repository '" +:+ repo_name +:+ "'...") ;;;
         repo_info <- get_repository_info repo_name ;;
         if negb (truthy_value repo_info) then
           edit_text ("❌ Repository '" +:+ repo_name +:+
                      "' tidak ditemukan di akun GitHub kamu.")
         else
           update_user_data (put_mode "update") ;;;
           update_user_data (put_update_repo_name repo_name) ;;;
           let use_template := Py.str_in "template" (Py.lower text) in
           update_user_data (put_use_template use_template) ;;;
           edit_text
             ("✅ **Mode Update Aktif** untuk repository **'" +:+ repo_name +:+
              "'**" +:+ Py.nl +:+
              "📄 Mode README: " +:+ readme_mode use_template +:+ Py.nl +:+ Py.nl +:+
              "Silakan kirim file ZIP yang berisi konten baru untuk project ini.")
     end).

End TelegramBot.

(** ** [main.py] : the two workflows *)

Section Workflows.
Context `{E : Env}.
Local Open Scope prog_scope.
Import FS.

(** [file = await context.bot.get_file(...); await file.download_to_drive(...)] *)
Definition download (file_id : string) : prog string :=
  fun st =>
    let '(r, w') := download_to_drive file_id (world st) in
    (r, set_trace (trace st ++ [EvDownload file_id])%list (set_world w' st)).

(** [with zipfile.ZipFile(zip_path, 'r') as zip_ref: zip_ref.extractall(extract_dir)] *)
Definition extractall (zip_bytes : string) : prog fs :=
  match zip_extractall zip_bytes with
  | Ok d => ret d
  | Raise e => raise e
  end.

(** A computation on the extraction directory [d], run inside a workflow:
    its value and the directory afterwards.  An exception leaves the
    workflow, and the temporary directory with it. *)
Definition on_disk {A} (c : stateful fs A) (d : fs) : prog (A * fs) :=
  fun st =>
    match c d with
    | (Ok a, d') => (Ok (a, d'), st)
    | (Raise e, _) => (Raise e, st)
    end.

(** The block [# Generate README if needed] of both workflows;
    [basic_readme] is the text written when the archive has none. *)
Definition readme_step (use_template : bool) (project_name basic_readme : string)
  : stateful fs unit :=
  if use_template then
    readme_content <- generate_readme project_name ;;
    write_file ["README.md"] readme_content
  else
    present <- os_path_exists ["README.md"] ;;
    if negb present then write_file ["README.md"] basic_readme
    else ret tt.

Definition basic_readme_uploaded (project_name : string) : string :=
  "# " +:+ project_name +:+ Py.nl +:+ Py.nl +:+
  "Project uploaded via Telegram Bot" +:+ Py.nl.

Definition basic_readme_updated (project_name : string) : string :=
  "# " +:+ project_name +:+ Py.nl +:+ Py.nl +:+
  "Project updated via Telegram Bot" +:+ Py.nl.

Definition github_url (username : option string) (repo_name : string) : string :=
  "https://github.com/" +:+ fmt_opt username +:+ "/" +:+ repo_name.

Definition update_header (repo_name : string) : string :=
  "🔄 **Memperbarui repository '" +:+ repo_name +:+ "'**" +:+ Py.nl +:+ Py.nl.

(** [os.path.join(temp_dir, document.file_name)] : the path of the
    archive; a document without a name makes it raise. *)
Definition zip_path (doc : document) : prog string :=
  match file_name doc with
  | Some name => ret name
  | None =>
      raise (Exception
               "expected str, bytes or os.PathLike object, not NoneType")
  end.

(** The body of the [try] of [run_update_workflow]. *)
Definition update_steps (doc : document) (repo_name : string)
    (use_template : bool) : prog unit :=
  zip_path doc ;;;
  zip_bytes <- download (file_id doc) ;;
  edit_text (update_header repo_name +:+
             "✅ ZIP diunduh" +:+ Py.nl +:+ "📂 Mengekstrak file...") ;;;
  extract_dir <- extractall zip_bytes ;;
  fixed <- on_disk check_and_fix_zip_structure extract_dir ;;
  let extract_dir := snd fixed in
  edit_text (update_header repo_name +:+
             "✅ File diekstrak" +:+ Py.nl +:+ "🗑️ Membersihkan repository...") ;;;
  cleared <- clear_repository_contents repo_name ;;
  if negb cleared then
    edit_text ("❌ **Gagal membersihkan repository '" +:+ repo_name +:+ "'**" +:+
               Py.nl +:+ Py.nl +:+
               "Mungkin ada masalah dengan izin akses atau API GitHub. Proses update dibatalkan.")
  else
    written <- on_disk (readme_step use_template repo_name
                                    (basic_readme_updated repo_name)) extract_dir ;;
    let extract_dir := snd written in
    edit_text (update_header repo_name +:+
               "✅ Repository dibersihkan" +:+ Py.nl +:+ "📤 Mengunggah file baru...") ;;;
    success <- upload_files repo_name extract_dir ;;
    if success then
      username <- get_username ;;
      edit_text ("🎉 **Update Berhasil!**" +:+ Py.nl +:+ Py.nl +:+
                 "📁 Project: " +:+ repo_name +:+ Py.nl +:+
                 "🔗 Repository: " +:+ github_url username repo_name +:+ Py.nl +:+
                 "📄 Mode README: " +:+ readme_mode use_template)
    else
      edit_text ("❌ **Update Gagal**" +:+ Py.nl +:+ Py.nl +:+
                 "Gagal mengunggah file baru. Repository mungkin dalam keadaan kosong.").

(** [run_update_workflow] *)
Definition run_update_workflow (doc : document) (repo_name : string)
    (use_template : bool) : prog unit :=
  reply_text (update_header repo_name +:+ "📥 Mengunduh file ZIP...") ;;;
  try_except (update_steps doc repo_name use_template)
    (fun e =>
       edit_text ("❌ **Error saat memproses update**" +:+ Py.nl +:+ Py.nl +:+
                  "Terjadi kesalahan: " +:+ exn_str e)).

Definition create_header (project_name : string) : string :=
  "🔄 **Memproses upload project '" +:+ project_name +:+ "'**" +:+ Py.nl +:+ Py.nl.

Definition upload_success_text (project_name : string) (username : option string)
    (use_template : bool) (counter : Z) : string :=
  "🎉 **Upload Berhasil!**" +:+ Py.nl +:+ Py.nl +:+
  "📁 Project: " +:+ project_name +:+ Py.nl +:+
  "🔗 Repository: " +:+ github_url username project_name +:+ Py.nl +:+
  "📂 Mode: " +:+ readme_mode use_template +:+ Py.nl +:+
  "📊 Total upload: " +:+ pretty counter.

Definition upload_failure_text : string :=
  "❌ **Upload Gagal**" +:+ Py.nl +:+ Py.nl +:+
  "Repository berhasil dibuat tapi gagal upload file. Coba lagi nanti.".

(** The end of the create workflow, from [# Generate README if needed] on:
    the description, the upload, the counter and the last reply. *)
Definition upload_stage (project_name : string) (use_template : bool)
    (extract_dir : fs) : prog unit :=
  written <- on_disk (readme_step use_template project_name
                                  (basic_readme_uploaded project_name)) extract_dir ;;
  let extract_dir := snd written in
  success <- upload_files project_name extract_dir ;;
  if success then
    modify (fun st => set_upload_counter (upload_counter st + 1) st) ;;;
    username <- get_username ;;
    counter <- gets upload_counter ;;
    edit_text (upload_success_text project_name username use_template counter)
  else edit_text upload_failure_text.

(** The body of the [try] of the create workflow in [handle_document]. *)
Definition create_steps (doc : document) (project_name : string)
    (use_template : bool) : prog unit :=
  zip_bytes <- download (file_id doc) ;;
  edit_text (create_header project_name +:+
             "✅ File ZIP berhasil diunduh" +:+ Py.nl +:+ "📂 Mengekstrak file...") ;;;
  extract_dir <- extractall zip_bytes ;;
  fixed <- on_disk check_and_fix_zip_structure extract_dir ;;
  let extract_dir := snd fixed in
  edit_text (create_header project_name +:+
             "✅ File ZIP berhasil diunduh" +:+ Py.nl +:+
             "✅ File berhasil diekstrak" +:+ Py.nl +:+
             "🔄 Membuat repository GitHub...") ;;;
  now <- gets (fun st => strftime_now (world st)) ;;
  repo_created <- create_repository project_name
                    ("Project uploaded via Telegram Bot on " +:+ now) ;;
  if negb repo_created then
    edit_text ("❌ **Gagal membuat repository '" +:+ project_name +:+ "'**" +:+
               Py.nl +:+ Py.nl +:+
               "Repository dengan nama tersebut mungkin sudah ada atau ada masalah dengan GitHub API.")
  else
    edit_text (create_header project_name +:+
               "✅ File ZIP berhasil diunduh" +:+ Py.nl +:+
               "✅ File berhasil diekstrak" +:+ Py.nl +:+
               "✅ Repository GitHub berhasil dibuat" +:+ Py.nl +:+
               "🔄 Mengupload file...") ;;;
    upload_stage project_name use_template extract_dir.

Definition not_zip_text : string :=
  "❌ Hanya file ZIP yang didukung. Silakan upload file .zip".

Definition too_large_text : string :=
  "❌ File terlalu besar. Maksimal ukuran: " +:+
  pretty (Config.MAX_FILE_SIZE / (1024 * 1024)) +:+ "MB".

(** The create workflow of [handle_document], after the test of the mode.
    [document.file_name.endswith('.zip')] and
    [document.file_size > self.config.MAX_FILE_SIZE] raise on a document
    without the attribute, and both stand before the [try]. *)
Definition create_workflow (doc : document) : prog unit :=
  match file_name doc with
  | None => raise (Exception "'NoneType' object has no attribute 'endswith'")
  | Some name =>
      if negb (Py.endswith name ".zip") then reply_text not_zip_text
      else
        match file_size doc with
        | None =>
            raise (Exception
                     "'>' not supported between instances of 'NoneType' and 'int'")
        | Some size =>
            if Config.MAX_FILE_SIZE <? size then reply_text too_large_text
            else
              let project_name := Py.replace name ".zip" "" in
              use_template <- gets (fun st => default false (ud_use_template (udata st))) ;;
              update_user_data pop_mode ;;;
              update_user_data pop_use_template ;;;
              reply_text (create_header project_name +:+
                          "📥 Mengunduh file ZIP..." +:+ Py.nl +:+
                          "📂 Mode: " +:+ readme_mode use_template) ;;;
              try_except (create_steps doc project_name use_template)
                (fun e =>
                   edit_text ("❌ **Error saat memproses upload**" +:+ Py.nl +:+ Py.nl +:+
                              "Terjadi kesalahan: " +:+ exn_str e))
        end
  end.

Definition mode_is (m : string) (d : user_data) : bool :=
  match ud_mode d with
  | Some m' => String.eqb m' m
  | None => false
  end.

(** [handle_document] *)
Definition handle_document (upd : update) (doc : document) : prog unit :=
  gated upd
    (d <- gets udata ;;
     if mode_is "update" d then
       let repo_name := ud_update_repo_name d in
       let use_template := default false (ud_use_template d) in
       update_user_data pop_mode ;;;
       update_user_data pop_update_repo_name ;;;
       update_user_data pop_use_template ;;;
       if negb (truthy_opt repo_name) then
         reply_text "Terjadi kesalahan: nama repository untuk di-update tidak ditemukan."
       else run_update_workflow doc (default "" repo_name) use_template
     else if negb (mode_is "upload" d) then
       reply_text "Untuk mengunggah atau memperbarui, silakan gunakan perintah /upload atau /upd_repo terlebih dahulu."
     else create_workflow doc).

Definition any_word_in (words : list string) (text : string) : bool :=
  existsb (fun w => Py.str_in w text) words.

(** [handle_message] *)
Definition handle_message (upd : update) (text : string) : prog unit :=
  gated upd
    (let message_text := Py.lower text in
     if any_word_in ["help"; "bantuan"; "gimana"; "cara"] message_text then
       reply_text "Ketik /help untuk lihat semua perintah yang bisa dipakai!"
     else if any_word_in ["upload"; "project"] message_text then
       reply_text "Ketik /upload untuk upload project atau /upload template untuk mode template."
     else
       reply_text "Maaf, gak ngerti pesan kamu. Ketik /help untuk bantuan.").

(** The handler table of [main()]. *)
Definition dispatch (upd : update) : prog unit :=
  match incoming upd with
  | Command CmdStart _ _ => start_command upd
  | Command CmdHelp _ _ => help_command upd
  | Command CmdUpload text _ => upload_command upd text
  | Command CmdUpdRepo text args => update_repo_command upd text args
  | Command CmdInfo _ _ => info_command upd
  | Command CmdDel _ args => delete_command upd args
  | Command CmdPriv _ args => private_command upd args
  | Command CmdPblc _ args => public_command upd args
  | Command CmdInp _ args => project_info_command upd args
  | DocumentUpload doc => handle_document upd doc
  | Text text => handle_message upd text
  end.

End Workflows.

(** ** A scripted environment

    An environment for examples: the world is the time on the clock and
    the number of requests sent so far; the answer to a request is a
    function of that number and of the request. *)

Definition scripted_env (owner : Z)
    (answer : nat -> request -> option response)
    (documents : string -> result string)
    (unzip : string -> result (option node))
    (parse : string -> result json) : Env :=
  {| W := Q * nat;
     OWNER_ID := owner;
     time_time := fun w => fst w;
     http := fun req w => (answer (snd w) req, (fst w, S (snd w)));
     download_to_drive := fun fid w => (documents fid, w);
     strftime_now := fun _ => "2024-01-01 00:00:00";
     zip_extractall := unzip;
     json_load := parse;
     b64encode := fun s => s |}.

Definition initial_state `{E : Env} (w : W) : state :=
  State w [] None ∅ 0 (UserData None None None).

(** ** Vocabulary of the statements *)

Section GateVocabulary.
Context `{E : Env}.

(** The time of the owner's last accepted event, 0 before the first. *)
Definition last_accepted (st : state) : Q :=
  default 0%Q (last_message_time st !! OWNER_ID).

(** The state after an accepted event. *)
Definition accepted_state (st : state) : state :=
  set_last_message_time
    (<[OWNER_ID := time_time (world st)]> (last_message_time st)) st.

Definition gate_accepts (upd : update) (st : state) : bool :=
  match effective_user upd with
  | Some user_id =>
      (user_id =? OWNER_ID) &&
      Qle_bool rate_limit_seconds (time_time (world st) - last_accepted st)%Q
  | None => false
  end.

End GateVocabulary.

Section ClearVocabulary.
Context `{E : Env}.

(** A request that deletes a file. *)
Definition is_delete (ev : event) : bool :=
  match ev with
  | EvHttp (Request DELETE _ _) _ => true
  | _ => false
  end.

(** The deletion requests for [files], in order, each with its answer; as
    many as there are answers. *)
Definition deletions (username repo_name : string) (files : list file_info)
    (answers : list (option response)) : list event :=
  zip_with (fun f a => EvHttp (delete_request username repo_name f) a)
           files answers.

Definition not_delete (ev : event) : Prop := is_delete ev = false.

(** The fields of the bot that the GitHub client never writes. *)
Definition same_bot_fields (st st' : state) : Prop :=
  last_message_time st' = last_message_time st /\
  upload_counter st' = upload_counter st /\
  udata st' = udata st.

(** What both ways of sending a request have in common. *)
Definition sends (send : request -> prog (option response)) : Prop :=
  forall req st, exists r st',
    send req st = (Ok r, st') /\
    trace st' = (trace st ++ [EvHttp req r])%list /\
    gh_username st' = gh_username st /\
    same_bot_fields st st'.

(** The files of a remote tree, in the order in which the traversal meets
    them: those of an entry, and [None] when the entry holds something on
    which the traversal raises.  Only a listing answered with status 200
    is entered. *)
Fixpoint files_of_item (it : item) : option (list file_info) :=
  match it with
  | ItemFile path sha => Some [FileInfo path sha]
  | ItemDir _ (Listing s items) =>
      if s =? 200 then
        (fix files_of_all (l : list item) : option (list file_info) :=
           match l with
           | [] => Some []
           | i :: rest =>
               match files_of_item i, files_of_all rest with
               | Some found, Some more => Some (found ++ more)%list
               | _, _ => None
               end
           end) items
      else Some []
  | ItemDir _ (Unlisted s truthy) =>
      if (s =? 200) && truthy then None else Some []
  | ItemDir _ NoAnswer => Some []
  | ItemOther _ => Some []
  | ItemMalformed => None
  end.

Fixpoint files_of_items (l : list item) : option (list file_info) :=
  match l with
  | [] => Some []
  | i :: rest =>
      match files_of_item i, files_of_items rest with
      | Some found, Some more => Some (found ++ more)%list
      | _, _ => None
      end
  end.

(** The files of the repository, given what the listing of the root
    returned: none when there are no contents, [None] when the contents are
    not an array of entries. *)
Definition listed_files (contents : option payload) : option (list file_info) :=
  if no_contents contents then Some []
  else match contents with
       | Some (PContents items) => files_of_items items
       | _ => None
       end.

(** What a traversal of entries with the files [expected] does once the
    login is known: it appends the files to the list, or raises when
    there is something malformed among the entries; the requests that it
    sends are not deletions. *)
Definition traverses (expected : option (list file_info))
    (run : list file_info -> prog (list file_info)) : Prop :=
  forall acc st, truthy_opt (gh_username st) = true ->
    exists st' evs,
      match expected with
      | Some found => run acc st = (Ok (acc ++ found)%list, st')
      | None => exists e, run acc st = (Raise e, st')
      end /\
      trace st' = (trace st ++ evs)%list /\
      Forall not_delete evs /\
      gh_username st' = gh_username st /\
      same_bot_fields st st'.

(** The answer to a deletion request is a success; true of every other
    event. *)
Definition deletion_ok (ev : event) : bool :=
  match ev with
  | EvHttp (Request DELETE _ _) r => deleted_ok r
  | _ => true
  end.

End ClearVocabulary.

Section UploadVocabulary.
Context `{E : Env}.

(** The upload requests for [files] (relative path and bytes), in order,
    each with its answer. *)
Definition uploads (username repo_name : string)
    (files : list (string * string)) (answers : list (option response))
  : list event :=
  zip_with (fun f a => EvHttp (put_request username repo_name (fst f) (snd f)) a)
           files answers.

(** The number of files that were uploaded. *)
Definition uploaded_count (answers : list (option response)) : Z :=
  Z.of_nat (length (List.filter uploaded_ok answers)).

(** The directory after the description step of a workflow, when the step
    does not raise. *)
Definition staged_with_readme (use_template : bool)
    (project_name basic_readme : string) (extract_dir : FS.fs) : option FS.fs :=
  match readme_step use_template project_name basic_readme extract_dir with
  | (Ok _, d) => Some d
  | (Raise _, _) => None
  end.

(** [needle] occurs in [text]. *)
Definition occurs_in (needle text : string) : Prop :=
  exists before after, text = before +:+ needle +:+ after.

End UploadVocabulary.

(** ** An environment in which every request succeeds

    The login is [octocat]; creating and writing answer 201, a listing
    answers 404, every document is an archive with the single file
    [main.py]. *)

Definition demo_answer (n : nat) (req : request) : option response :=
  match meth req with
  | GET =>
      if String.eqb (url req) (api_base +:+ "/user")
      then Some (Response 200 (PUser "octocat"))
      else Some (Response 404 PNone)
  | POST | PUT => Some (Response 201 PNone)
  | _ => Some (Response 200 PNone)
  end.

Definition demo_entries : list (string * node) :=
  [("main.py", File "print('hello')")].

Definition demo_env : Env :=
  scripted_env 42 demo_answer
    (fun _ => Ok "PK")
    (fun _ => Ok (Some (Dir demo_entries)))
    (fun _ => Raise (Exception "Expecting value")).

Definition demo_state : @state demo_env :=
  @initial_state demo_env (1700000000%Q, 0%nat).

(** ** An environment with a repository to refresh

    As [demo_env], but the repository has the file [old.txt] and the
    directory [docs] with the file [docs/guide.md]; deletions answer 200. *)

Definition demo_repo_info : repo_info :=
  RepoInfo "demo" (Some "Project uploaded via Telegram Bot") 0 0 0 12 false
           (Some "Python") "https://github.com/octocat/demo".

Definition refresh_listing : list item :=
  [ItemFile "old.txt" "3b18e5";
   ItemDir "docs" (Listing 200 [ItemFile "docs/guide.md" "9f2c41"])].

Definition refresh_answer (n : nat) (req : request) : option response :=
  match meth req with
  | GET =>
      if String.eqb (url req) (api_base +:+ "/user")
      then Some (Response 200 (PUser "octocat"))
      else if String.eqb (url req) (contents_url "octocat" "demo" "")
      then Some (Response 200 (PContents refresh_listing))
      else if String.eqb (url req) (repo_url "octocat" "demo")
      then Some (Response 200 (PRepo demo_repo_info))
      else Some (Response 404 PNone)
  | POST | PUT => Some (Response 201 PNone)
  | _ => Some (Response 200 PNone)
  end.

Definition refresh_env : Env :=
  scripted_env 42 refresh_answer
    (fun _ => Ok "PK")
    (fun _ => Ok (Some (Dir demo_entries)))
    (fun _ => Raise (Exception "Expecting value")).

(** The owner has sent [/upd_repo demo]. *)
Definition refresh_armed : @state refresh_env :=
  set_udata (UserData (Some "update") (Some "demo") (Some false))
            (@initial_state refresh_env (1700000000%Q, 0%nat)).

Definition refresh_idle : @state refresh_env :=
  @initial_state refresh_env (1700000000%Q, 0%nat).

(** A Java archive: a valid archive whose name does not end in [.zip]. *)
Definition jar_document : document :=
  Document (Some "demo.jar") (Some 51200) "file-7".

(** An archive of 30 MiB. *)
Definition large_document : document :=
  Document (Some "demo.zip") (Some (30 * 1024 * 1024)) "file-8".

(** The trace of the handler for a document sent by the owner of
    [refresh_env] while the refresh of [demo] is armed. *)
Definition refresh_trace (doc : document) : list event :=
  @trace refresh_env
    (snd (@dispatch refresh_env (Update (Some 42) (DocumentUpload doc))
                    refresh_armed)).

Section ReadmeVocabulary.
Context `{E : Env}.

(** A computation on the extraction directory that returns a value and
    leaves the directory as it is. *)
Definition total {A} (c : stateful FS.fs A) : Prop :=
  forall d, exists a, c d = (Ok a, d).

(** A computation that may raise but leaves the directory as it is. *)
Definition reads {A} (c : stateful FS.fs A) : Prop :=
  forall d, snd (c d) = d.

(** The document for a project in which nothing is recognised: the
    title, the generic description, an empty drawing of the structure, the
    generic instructions and the fixed end; no section on technologies. *)
Definition fallback_readme (project_name : string) : string :=
  "# " +:+ project_name +:+ Py.nl +:+
  Py.nl +:+
  "A Application." +:+ Py.nl +:+
  Py.nl +:+
  "## Project Structure" +:+ Py.nl +:+
  Py.nl +:+
  "```" +:+ Py.nl +:+
  project_name +:+ "/" +:+ Py.nl +:+
  "```" +:+ Py.nl +:+
  Py.nl +:+
  "## Getting Started" +:+ Py.nl +:+
  Py.nl +:+
  "### Installation" +:+ Py.nl +:+
  Py.nl +:+
  "```bash" +:+ Py.nl +:+
  "# Clone the repository" +:+ Py.nl +:+
  "git clone https://github.com/your-username/" +:+ project_name +:+ ".git" +:+ Py.nl +:+
  "cd " +:+ project_name +:+ Py.nl +:+
  "```" +:+ Py.nl +:+
  Py.nl +:+
  "### Usage" +:+ Py.nl +:+
  Py.nl +:+
  "Follow the specific instructions for your project type." +:+ Py.nl +:+
  Py.nl +:+
  "## Contributing" +:+ Py.nl +:+
  Py.nl +:+
  "1. Fork the repository" +:+ Py.nl +:+
  "2. Create your feature branch (`git checkout -b feature/amazing-feature`)" +:+ Py.nl +:+
  "3. Commit your changes (`git commit -m 'Add some amazing feature'`)" +:+ Py.nl +:+
  "4. Push to the branch (`git push origin feature/amazing-feature`)" +:+ Py.nl +:+
  "5. Open a Pull Request" +:+ Py.nl +:+
  Py.nl +:+
  "## License" +:+ Py.nl +:+
  Py.nl +:+
  "This project is licensed under the MIT License - see the LICENSE file for details." +:+ Py.nl +:+
  Py.nl +:+
  "---" +:+ Py.nl +:+
  Py.nl +:+
  "*Project uploaded via Telegram Bot*" +:+ Py.nl.

(** The analysis of a project without files. *)
Definition empty_analysis : analysis :=
  Analysis [] [] [] [] None (Some "Application").

End ReadmeVocabulary.

(** ** An environment in which one upload fails

    As [demo_env], but writing [main.py] answers 500. *)

Definition flaky_answer (n : nat) (req : request) : option response :=
  match meth req with
  | PUT =>
      if String.eqb (url req) (contents_url "octocat" "demo" "main.py")
      then Some (Response 500 PNone)
      else Some (Response 201 PNone)
  | _ => demo_answer n req
  end.

Definition flaky_env : Env :=
  scripted_env 42 flaky_answer
    (fun _ => Ok "PK")
    (fun _ => Ok (Some (Dir demo_entries)))
    (fun _ => Raise (Exception "Expecting value")).

(** The state [st] of [demo_env] when [dt] seconds have passed. *)
Definition later (dt : Q) (st : @state demo_env) : @state demo_env :=
  @set_world demo_env ((fst (@world demo_env st) + dt)%Q, snd (@world demo_env st)) st.

(** The owner's messages of the scenarios. *)
Definition owner_upload_command : update :=
  Update (Some 42) (Command CmdUpload "/upload" []).

Definition owner_demo_zip : update :=
  Update (Some 42) (DocumentUpload (Document (Some "demo.zip") (Some 51200) "file-1")).

Definition stranger_demo_zip : update :=
  Update (Some 7) (DocumentUpload (Document (Some "demo.zip") (Some 51200) "file-1")).

(** The upload requests of a trace: path and answered status. *)
Definition put_summary (t : list event) : list (string * option Z) :=
  flat_map (fun ev => match ev with
                      | EvHttp (Request PUT u _) a => [(u, option_map status a)]
                      | _ => []
                      end) t.

(** ** Vocabulary for what a computation leaves alone *)

Section FrameVocabulary.
Context `{E : Env}.

(** The computation returns a value in every state. *)
Definition never_raises {A} (c : prog A) : Prop :=
  forall st, exists a st', c st = (Ok a, st').

(** The computation, whether it returns or raises, leaves [f] as it was. *)
Definition preserves {X A} (f : state -> X) (c : prog A) : Prop :=
  forall st, f (snd (c st)) = f st.

(** The computation returns and leaves [f] as it was. *)
Definition steady {X A} (f : state -> X) (c : prog A) : Prop :=
  forall st, exists a st', c st = (Ok a, st') /\ f st' = f st.

(** [f] does not look at what the GitHub client and the replies write:
    the world, the trace and the cached login. *)
Definition client_blind {X} (f : state -> X) : Prop :=
  (forall w st, f (set_world w st) = f st) /\
  (forall t st, f (set_trace t st) = f st) /\
  (forall u st, f (set_gh_username u st) = f st).

End FrameVocabulary.

Section CounterVocabulary.
Context `{E : Env}.

(** The computation leaves the upload counter as it was or adds one. *)
Definition adds_at_most_one {A} (c : prog A) : Prop :=
  forall st,
    upload_counter (snd (c st)) = upload_counter st \/
    upload_counter (snd (c st)) = upload_counter st + 1.

(** The document passes the tests of the create workflow. *)
Definition valid_archive (doc : document) : bool :=
  match file_name doc, file_size doc with
  | Some name, Some size =>
      Py.endswith name ".zip" && negb (Config.MAX_FILE_SIZE <? size)
  | _, _ => false
  end.

End CounterVocabulary.

(** ** An environment in which every request fails

    Every request is answered with status 500. *)

Definition failing_env : Env :=
  scripted_env 42 (fun _ _ => Some (Response 500 PNone))
    (fun _ => Ok "PK")
    (fun _ => Ok (Some (Dir demo_entries)))
    (fun _ => Raise (Exception "Expecting value")).

Definition failing_state : @state failing_env :=
  @initial_state failing_env (1700000000%Q, 0%nat).

(** ** An environment in which deletions are refused

    As [refresh_env], but a deletion answers 403. *)

Definition protected_answer (n : nat) (req : request) : option response :=
  match meth req with
  | DELETE => Some (Response 403 PNone)
  | _ => refresh_answer n req
  end.

Definition protected_env : Env :=
  scripted_env 42 protected_answer
    (fun _ => Ok "PK")
    (fun _ => Ok (Some (Dir demo_entries)))
    (fun _ => Raise (Exception "Expecting value")).

Definition protected_state : @state protected_env :=
  @initial_state protected_env (1700000000%Q, 0%nat).

(** ** An environment that answers with an object

    The login is [octocat]; every other [GET] is answered with status
    200 and an object that is neither a repository nor a list, as is the
    answer to a contents request for a path that is a file. *)

Definition object_answer (n : nat) (req : request) : option response :=
  match meth req with
  | GET =>
      if String.eqb (url req) (api_base +:+ "/user")
      then Some (Response 200 (PUser "octocat"))
      else Some (Response 200 PJunk)
  | POST | PUT => Some (Response 201 PNone)
  | _ => Some (Response 200 PNone)
  end.

Definition object_env : Env :=
  scripted_env 42 object_answer
    (fun _ => Ok "PK")
    (fun _ => Ok (Some (Dir demo_entries)))
    (fun _ => Raise (Exception "Expecting value")).

Definition object_state : @state object_env :=
  @initial_state object_env (1700000000%Q, 0%nat).

Section AbortVocabulary.
Context `{E : Env}.

Definition clearing_failed_text (repo_name : string) : string :=
  "❌ **Gagal membersihkan repository '" +:+ repo_name +:+ "'**" +:+
  Py.nl +:+ Py.nl +:+
  "Mungkin ada masalah dengan izin akses atau API GitHub. Proses update dibatalkan.".

Definition creation_failed_text (project_name : string) : string :=
  "❌ **Gagal membuat repository '" +:+ project_name +:+ "'**" +:+
  Py.nl +:+ Py.nl +:+
  "Repository dengan nama tersebut mungkin sudah ada atau ada masalah dengan GitHub API.".

(** The state with [evs] added to the trace. *)
Definition with_events (evs : list event) (st : state) : state :=
  set_trace (trace st ++ evs)%list st.

(** What [run_update_workflow] has sent when it comes to the clearing. *)
Definition update_progress (doc : document) (repo_name : string) : list event :=
  [EvReply (update_header repo_name +:+ "📥 Mengunduh file ZIP...");
   EvDownload (file_id doc);
   EvEdit (update_header repo_name +:+
           "✅ ZIP diunduh" +:+ Py.nl +:+ "📂 Mengekstrak file...");
   EvEdit (update_header repo_name +:+
           "✅ File diekstrak" +:+ Py.nl +:+ "🗑️ Membersihkan repository...")].

(** What the create workflow has sent when it comes to the creation. *)
Definition create_progress (doc : document) (project_name : string)
    (use_template : bool) : list event :=
  [EvReply (create_header project_name +:+
            "📥 Mengunduh file ZIP..." +:+ Py.nl +:+
            "📂 Mode: " +:+ readme_mode use_template);
   EvDownload (file_id doc);
   EvEdit (create_header project_name +:+
           "✅ File ZIP berhasil diunduh" +:+ Py.nl +:+ "📂 Mengekstrak file...");
   EvEdit (create_header project_name +:+
           "✅ File ZIP berhasil diunduh" +:+ Py.nl +:+
           "✅ File berhasil diekstrak" +:+ Py.nl +:+
           "🔄 Membuat repository GitHub...")].

(** The reply of the create workflow once the repository is there. *)
Definition uploading_text (project_name : string) : string :=
  create_header project_name +:+
  "✅ File ZIP berhasil diunduh" +:+ Py.nl +:+
  "✅ File berhasil diekstrak" +:+ Py.nl +:+
  "✅ Repository GitHub berhasil dibuat" +:+ Py.nl +:+
  "🔄 Mengupload file...".

End AbortVocabulary.

Section TallyVocabulary.
Context `{E : Env}.

(** The sum of the counts of a tally. *)
Definition total_count (d : list (string * Z)) : Z :=
  fold_right (fun kv s => snd kv + s) 0 d.

(** The file has an extension of the table [language_extensions]. *)
Definition recognised (relative_path : string) : bool :=
  Dict.contains (OsPath.splitext_ext (OsPath.basename relative_path))
                language_extensions.

(** The item has the count [c]. *)
Definition by_count (c : Z) (kv : string * Z) : bool := snd kv =? c.

End TallyVocabulary.

(** ** An environment without a network

    As [demo_env], but every request raises in the client. *)

Definition offline_env : Env :=
  scripted_env 42 (fun _ _ => None)
    (fun _ => Ok "PK")
    (fun _ => Ok (Some (Dir demo_entries)))
    (fun _ => Raise (Exception "Expecting value")).

(** * Properties *)

(** ** Python strings and paths on examples *)

Example splitext_py : OsPath.splitext_ext "main.py" = ".py".
Proof. reflexivity. Qed.
Example splitext_hidden : OsPath.splitext_ext ".bashrc" = "".
Proof. reflexivity. Qed.
Example splitext_two : OsPath.splitext_ext "a.tar.gz" = ".gz".
Proof. reflexivity. Qed.
Example dirname_nested : OsPath.dirname "src/lib/a.py" = "src/lib".
Proof. reflexivity. Qed.
Example dirname_flat : OsPath.dirname "a.py" = "".
Proof. reflexivity. Qed.
Example basename_nested : OsPath.basename "src/lib/a.py" = "a.py".
Proof. reflexivity. Qed.
Example replace_zip : Py.replace "my.zip.backup.zip" ".zip" "" = "my.backup".
Proof. reflexivity. Qed.
Example endswith_zip : Py.endswith "demo.zip" ".zip" = true.
Proof. reflexivity. Qed.
Example lower_mixed : Py.lower "/Upd_Repo TEMPLATE x" = "/upd_repo template x".
Proof. reflexivity. Qed.
Example split_words :
  PyWs.command_args "/upd_repo  template demo" = ["template"; "demo"].
Proof. reflexivity. Qed.
Example strip_spaces : PyWs.strip "  /upload template " = "/upload template".
Proof. reflexivity. Qed.
(** The no-break space U+00A0 (bytes C2 A0) separates words. *)
Example split_no_break_space :
  PyWs.command_args
    ("/upd_repo" +:+ String (ascii_of_nat 194) (String (ascii_of_nat 160) "demo"))
  = ["demo"].
Proof. reflexivity. Qed.


(** ** Creating a repository *)

Section CreateRepository.
Context `{E : Env}.

Lemma create_repository_unfold repo_name description st :
  create_repository repo_name description st =
  (Ok (match fst (http (create_request repo_name description) (world st)) with
       | Some resp => status resp =? 201
       | None => false
       end),
   snd (http_request (create_request repo_name description) st)).
Proof.
  unfold create_repository, http_request, bind.
  destruct (http _ (world st)) as [[resp|] w']; cbn; [|reflexivity].
  destruct (status resp =? 201); [reflexivity|].
  destruct (status resp =? 422); reflexivity.
Qed.

(** C5. [create_repository] returns [True] exactly when the API answers
    with status 201.  The answer 422 (the repository exists), every other
    status and a request that raises all give the same value [False]. *)
Theorem create_repository_true_iff_201 (repo_name description : string)
    (st : state) :
  let answer := fst (http (create_request repo_name description) (world st)) in
  let outcome := fst (create_repository repo_name description st) in
  (outcome = Ok true <-> exists resp, answer = Some resp /\ status resp = 201) /\
  (forall resp, answer = Some resp -> status resp = 422 -> outcome = Ok false) /\
  (forall resp, answer = Some resp -> status resp <> 201 -> outcome = Ok false) /\
  (answer = None -> outcome = Ok false).
Proof.
  cbv zeta. rewrite create_repository_unfold. cbn [fst].
  destruct (fst (http _ (world st))) as [resp|].
  - destruct (Z.eqb_spec (status resp) 201) as [Heq|Hne].
    + split; [|split; [|split]].
      * split; [intros _; now exists resp | reflexivity].
      * intros r [= <-] H. lia.
      * intros r [= <-] H. contradiction.
      * discriminate.
    + split; [|split; [|split]].
      * split; [discriminate|]. intros (r & [= <-] & H). contradiction.
      * reflexivity.
      * reflexivity.
      * reflexivity.
  - split; [|split; [|split]].
    + split; [discriminate|]. intros (r & H & _). discriminate.
    + discriminate.
    + discriminate.
    + reflexivity.
Qed.

End CreateRepository.

(** ** The gate *)

Section Gate.
Context `{E : Env}.

Lemma gate_unfold upd st :
  _is_authorized_and_not_rate_limited upd st =
  (Ok (gate_accepts upd st),
   if gate_accepts upd st then accepted_state st else st).
Proof.
  unfold _is_authorized_and_not_rate_limited, gate_accepts.
  destruct (effective_user upd) as [user_id|]; [|reflexivity].
  destruct (Z.eqb_spec user_id OWNER_ID) as [->|Hne]; cbn [negb andb]; [|reflexivity].
  unfold bind, gets, modify, ret, Qlt_bool, last_accepted.
  destruct (Qle_bool rate_limit_seconds _); reflexivity.
Qed.

Lemma gated_rejected upd body st :
  gate_accepts upd st = false -> gated upd body st = (Ok tt, st).
Proof.
  intros H. unfold gated, bind. rewrite gate_unfold, H. reflexivity.
Qed.

Lemma gated_accepted upd body st :
  gate_accepts upd st = true -> gated upd body st = body (accepted_state st).
Proof.
  intros H. unfold gated, bind. rewrite gate_unfold, H. reflexivity.
Qed.

Lemma dispatch_rejected upd st :
  gate_accepts upd st = false -> dispatch upd st = (Ok tt, st).
Proof.
  intros H. unfold dispatch.
  destruct (incoming upd) as [[] text args|doc|text];
    apply gated_rejected; exact H.
Qed.

(** C2. The gate accepts an event exactly when its sender is the owner and
    at least 2 seconds have passed since the owner's last accepted event
    (the time 0 standing for no such event).  An accepted event stores the
    current time for the owner and changes nothing else; a rejected event
    leaves the whole state as it was, and the handler that was called for
    it returns without a reply and without any other effect. *)
Theorem gate_accepts_owner_after_cooldown (upd : update) (st : state) :
  let now := time_time (world st) in
  let verdict := _is_authorized_and_not_rate_limited upd st in
  exists accepted : bool,
    fst verdict = Ok accepted /\
    (accepted = true <->
       effective_user upd = Some OWNER_ID /\
       (2 <= now - last_accepted st)%Q) /\
    (accepted = true ->
       snd verdict = accepted_state st /\
       last_message_time (snd verdict) !! OWNER_ID = Some now /\
       (forall user, user <> OWNER_ID ->
          last_message_time (snd verdict) !! user = last_message_time st !! user) /\
       trace (snd verdict) = trace st /\
       udata (snd verdict) = udata st /\
       upload_counter (snd verdict) = upload_counter st) /\
    (accepted = false ->
       snd verdict = st /\ dispatch upd st = (Ok tt, st)).
Proof.
  cbv zeta. rewrite gate_unfold. cbn [fst snd].
  exists (gate_accepts upd st). split; [reflexivity|]. split; [|split].
  - unfold gate_accepts. destruct (effective_user upd) as [user_id|].
    + rewrite andb_true_iff, Z.eqb_eq, Qle_bool_iff. unfold rate_limit_seconds.
      split.
      * intros [-> H]. auto.
      * intros [[= ->] H]. auto.
    + split; [discriminate|]. intros [H _]. discriminate.
  - intros ->. split; [reflexivity|]. unfold accepted_state. cbn.
    split; [apply lookup_insert_eq|]. split; [|auto].
    intros user Hne. apply lookup_insert_ne. congruence.
  - intros H. rewrite H. split; [reflexivity|]. now apply dispatch_rejected.
Qed.

End Gate.

(** ** The GitHub client *)

Section ClientFacts.
Context `{E : Env}.

Lemma same_bot_fields_refl st : same_bot_fields st st.
Proof. now repeat split. Qed.

Lemma same_bot_fields_trans st1 st2 st3 :
  same_bot_fields st1 st2 -> same_bot_fields st2 st3 -> same_bot_fields st1 st3.
Proof. unfold same_bot_fields. intuition congruence. Qed.

Lemma http_request_spec req st :
  exists r st',
    http_request req st = (Ok r, st') /\
    r = fst (http req (world st)) /\
    trace st' = (trace st ++ [EvHttp req r])%list /\
    gh_username st' = gh_username st /\
    same_bot_fields st st'.
Proof.
  unfold http_request. destruct (http req (world st)) as [r w'].
  exists r, (set_trace (trace st ++ [EvHttp req r])%list (set_world w' st)).
  repeat split.
Qed.

Lemma http_answered_spec r req st :
  exists st',
    http_answered r req st = (Ok r, st') /\
    trace st' = (trace st ++ [EvHttp req r])%list /\
    gh_username st' = gh_username st /\
    same_bot_fields st st'.
Proof.
  eexists. unfold http_answered, emit, bind, modify, ret. cbn.
  repeat split.
Qed.

Lemma get_username_cached st :
  truthy_opt (gh_username st) = true ->
  get_username st = (Ok (gh_username st), st).
Proof.
  intros H. unfold get_username, bind, gets. now rewrite H.
Qed.

(** [get_username] sends at most the request for the user; a login that it
    returns is the cached one afterwards. *)
Lemma get_username_spec st :
  exists u st' evs,
    get_username st = (Ok u, st') /\
    trace st' = (trace st ++ evs)%list /\
    (evs = [] \/ exists r, evs = [EvHttp user_request r]) /\
    (truthy_opt u = true -> gh_username st' = u) /\
    (truthy_opt (gh_username st) = true -> st' = st /\ u = gh_username st) /\
    same_bot_fields st st'.
Proof.
  destruct (truthy_opt (gh_username st)) eqn:Hc.
  - exists (gh_username st), st, []. rewrite get_username_cached by assumption.
    rewrite app_nil_r. repeat split; auto.
  - unfold get_username, bind, gets. rewrite Hc.
    destruct (http_request_spec user_request st)
      as (r & st' & Hreq & _ & Htr & Hu & Hsame).
    rewrite Hreq.
    assert (Hnone : exists evs, trace st' = (trace st ++ evs)%list /\
              (evs = [] \/ exists r, evs = [EvHttp user_request r])).
    { exists [EvHttp user_request r]. split; [assumption|]. right. now exists r. }
    destruct Hnone as (evs & Hevs & Hshape).
    destruct r as [resp|].
    + destruct (status resp =? 200).
      * destruct (json_body resp) as [|login| | | |].
        all: try (exists None, st', evs; unfold ret; repeat split;
                  solve [assumption | discriminate | apply Hsame]).
        exists (Some login), (set_gh_username (Some login) st'), evs.
        unfold modify, ret. cbn. repeat split;
          solve [assumption | discriminate | apply Hsame].
      * exists None, st', evs. unfold ret. repeat split;
          solve [assumption | discriminate | apply Hsame].
    + exists None, st', evs. unfold ret. repeat split;
        solve [assumption | discriminate | apply Hsame].
Qed.

End ClientFacts.

(** ** Clearing a repository *)

Section ClearRepository.
Context `{E : Env}.

Lemma sends_http_request : sends http_request.
Proof.
  intros req st. destruct (http_request_spec req st)
    as (r & st' & H1 & _ & H2 & H3 & H4).
  now exists r, st'.
Qed.

Lemma sends_http_answered r : sends (http_answered r).
Proof.
  intros req st. destruct (http_answered_spec r req st) as (st' & H).
  now exists r, st'.
Qed.

Lemma not_delete_user_events (evs : list event) :
  (evs = [] \/ exists r, evs = [EvHttp user_request r]) ->
  Forall not_delete evs.
Proof.
  intros [->|[r ->]]; [constructor|]. repeat constructor.
Qed.

(** A listing asks for the user at most and then for the contents; when it
    returns entries the login is cached. *)
Lemma get_repository_contents_via_spec send repo_name path st :
  sends send ->
  exists c st' evs,
    get_repository_contents_via send repo_name path st = (Ok c, st') /\
    trace st' = (trace st ++ evs)%list /\
    Forall not_delete evs /\
    (no_contents c = false -> truthy_opt (gh_username st') = true) /\
    (truthy_opt (gh_username st) = true -> gh_username st' = gh_username st) /\
    same_bot_fields st st'.
Proof.
  intros Hsend. unfold get_repository_contents_via.
  destruct (get_username_spec st)
    as (u & st1 & evs1 & Hrun & Htr1 & Hshape & Hcache & Hkeep & Hsame1).
  unfold bind at 1. rewrite Hrun.
  destruct (truthy_opt u) eqn:Hu.
  - destruct (Hsend (contents_request (default "" u) repo_name path) st1)
      as (r & st2 & Hrun2 & Htr2 & Hu2 & Hsame2).
    unfold bind. rewrite Hrun2. unfold ret.
    exists (contents_of_response r), st2, (evs1 ++ [EvHttp (contents_request (default "" u) repo_name path) r])%list.
    split; [reflexivity|]. split; [|split; [|split; [|split]]].
    + rewrite Htr2, Htr1. now rewrite app_assoc.
    + apply Forall_app. split; [now apply not_delete_user_events|].
      repeat constructor.
    + intros _. rewrite Hu2, Hcache; auto.
    + intros Hc. rewrite Hu2. destruct (Hkeep Hc) as [-> _]. reflexivity.
    + eapply same_bot_fields_trans; eassumption.
  - unfold ret. exists None, st1, evs1.
    split; [reflexivity|]. split; [assumption|].
    split; [now apply not_delete_user_events|].
    split; [discriminate|]. split; [|assumption].
    intros Hc. destruct (Hkeep Hc) as [-> _]. reflexivity.
Qed.

(** A listing that was answered beforehand, with the login in the cache:
    one request, and what the answer decodes to. *)
Lemma answered_contents_cached repo_name path answer st :
  truthy_opt (gh_username st) = true ->
  exists st',
    get_repository_contents_via (http_answered (listing_response answer))
                                repo_name path st
    = (Ok (contents_of_response (listing_response answer)), st') /\
    trace st' = (trace st ++
                 [EvHttp (contents_request (default "" (gh_username st))
                                           repo_name path)
                         (listing_response answer)])%list /\
    gh_username st' = gh_username st /\
    same_bot_fields st st'.
Proof.
  intros Hc. unfold get_repository_contents_via, bind at 1.
  rewrite get_username_cached by exact Hc. rewrite Hc.
  destruct (http_answered_spec (listing_response answer)
              (contents_request (default "" (gh_username st)) repo_name path) st)
    as (st' & Hrun & Htr & Hname & Hsame).
  exists st'. unfold bind. rewrite Hrun. unfold ret.
  split; [reflexivity|]. split; [exact Htr|]. split; [exact Hname | exact Hsame].
Qed.

(** Induction on the entries of a remote tree. *)
Section ItemInduction.
Variable P : item -> Prop.
Hypothesis Hfile : forall path sha, P (ItemFile path sha).
Hypothesis Hother : forall path, P (ItemOther path).
Hypothesis Hmalformed : P ItemMalformed.
Hypothesis Hnone : forall path, P (ItemDir path NoAnswer).
Hypothesis Hunlisted : forall path s truthy, P (ItemDir path (Unlisted s truthy)).
Hypothesis Hdir : forall path s items,
  Forall P items -> P (ItemDir path (Listing s items)).

Lemma item_induction (it : item) : P it.
Proof.
  revert it. fix IH 1. intros [path sha|path [s items|s truthy|]|path|].
  - apply Hfile.
  - apply Hdir. induction items as [|i rest IHrest].
    + constructor.
    + constructor; [apply IH | apply IHrest].
  - apply Hunlisted.
  - apply Hnone.
  - apply Hother.
  - apply Hmalformed.
Qed.
End ItemInduction.

Lemma visit_item_dir repo_name path s items acc st :
  visit_item repo_name (ItemDir path (Listing s items)) acc st =
  bind (get_repository_contents_via
          (http_answered (listing_response (Listing s items))) repo_name path)
       (fun contents =>
          if no_contents contents then ret acc
          else visit_items repo_name items acc) st.
Proof.
  cbn [visit_item]. unfold bind.
  destruct (get_repository_contents_via _ _ _ st) as [[c|e] st1]; [|reflexivity].
  destruct (no_contents c); [reflexivity|].
  clear. revert acc st1. induction items as [|i rest IH]; intros acc st1.
  - reflexivity.
  - cbn [visit_items]. unfold bind.
    destruct (visit_item repo_name i acc st1) as [[a|e] st2]; [|reflexivity].
    apply IH.
Qed.

Lemma files_of_item_dir path s items :
  files_of_item (ItemDir path (Listing s items))
  = if s =? 200 then files_of_items items else Some [].
Proof.
  cbn [files_of_item]. destruct (s =? 200); [|reflexivity].
  induction items as [|i rest IH]; [reflexivity|].
  cbn [files_of_items]. now rewrite <- IH.
Qed.

Lemma traverses_ret : traverses (Some []) ret.
Proof.
  intros acc st _. exists st, []. rewrite !app_nil_r.
  repeat split; auto.
Qed.

Lemma traverses_raise e : traverses None (fun _ => raise e).
Proof.
  intros acc st _. exists st, []. rewrite app_nil_r.
  split; [now exists e|]. repeat split; auto.
Qed.

Lemma traverses_seq e1 e2 run1 run2 :
  traverses e1 run1 -> traverses e2 run2 ->
  traverses (match e1, e2 with
             | Some found, Some more => Some (found ++ more)%list
             | _, _ => None
             end)
            (fun acc => bind (run1 acc) run2).
Proof.
  intros H1 H2 acc st Hc.
  destruct (H1 acc st Hc) as (st1 & evs1 & Hr1 & Ht1 & Hn1 & Hu1 & Hs1).
  destruct e1 as [f1|].
  - destruct (H2 (acc ++ f1)%list st1) as (st2 & evs2 & Hr2 & Ht2 & Hn2 & Hu2 & Hs2);
      [now rewrite Hu1|].
    exists st2, (evs1 ++ evs2)%list. unfold bind. rewrite Hr1.
    split; [|split; [|split; [|split]]].
    + destruct e2 as [f2|]; [now rewrite Hr2, app_assoc | exact Hr2].
    + now rewrite Ht2, Ht1, app_assoc.
    + now apply Forall_app.
    + congruence.
    + eapply same_bot_fields_trans; eassumption.
  - destruct Hr1 as (e & Hr1). exists st1, evs1. unfold bind. rewrite Hr1.
    split; [now exists e|]. auto.
Qed.

Lemma traverses_visit_items repo_name items :
  Forall (fun it => traverses (files_of_item it) (visit_item repo_name it)) items ->
  traverses (files_of_items items) (visit_items repo_name items).
Proof.
  induction 1 as [|i rest Hi _ IH].
  - apply traverses_ret.
  - cbn [visit_items files_of_items]. exact (traverses_seq _ _ _ _ Hi IH).
Qed.

(** A directory of the tree: the request for its listing, and then what
    [k] does with the contents. *)
Lemma traverses_listing repo_name path answer expected
    (k : list file_info -> prog (list file_info)) :
  traverses expected k ->
  traverses expected
    (fun acc => bind (get_repository_contents_via
                        (http_answered (listing_response answer)) repo_name path)
                     (fun c => k acc)).
Proof.
  intros Hk acc st Hc.
  destruct (answered_contents_cached repo_name path answer st Hc)
    as (st1 & Hr1 & Ht1 & Hu1 & Hs1).
  destruct (Hk acc st1) as (st2 & evs2 & Hr2 & Ht2 & Hn2 & Hu2 & Hs2);
    [now rewrite Hu1|].
  exists st2, ([EvHttp (contents_request (default "" (gh_username st))
                                         repo_name path)
                       (listing_response answer)] ++ evs2)%list.
  unfold bind. rewrite Hr1.
  split; [exact Hr2|]. split; [now rewrite Ht2, Ht1, app_assoc|].
  split; [constructor; [reflexivity | exact Hn2]|].
  split; [congruence|]. eapply same_bot_fields_trans; eassumption.
Qed.

(** The contents that a directory of the tree returns with the login in the
    cache. *)
Lemma visit_item_cached repo_name path answer acc st :
  truthy_opt (gh_username st) = true ->
  visit_item repo_name (ItemDir path answer) acc st
  = bind (get_repository_contents_via
            (http_answered (listing_response answer)) repo_name path)
         (fun _ =>
            if no_contents (contents_of_response (listing_response answer))
            then ret acc
            else match answer with
                 | Listing _ items => visit_items repo_name items acc
                 | _ => raise ShapeError
                 end) st.
Proof.
  intros Hc.
  destruct (answered_contents_cached repo_name path answer st Hc)
    as (st1 & Hr1 & _).
  destruct answer as [s items|s truthy|].
  - rewrite visit_item_dir. unfold bind. now rewrite Hr1.
  - cbn [visit_item]. unfold bind. now rewrite Hr1.
  - cbn [visit_item]. unfold bind. now rewrite Hr1.
Qed.

Lemma traverses_visit_item repo_name it :
  traverses (files_of_item it) (visit_item repo_name it).
Proof.
  induction it as [path sha|path| |path|path s truthy|path s items IH]
    using item_induction.
  - intros acc st _. exists st, [].
    rewrite app_nil_r. repeat split; auto.
  - apply traverses_ret.
  - apply traverses_raise.
  - intros acc st Hc. rewrite visit_item_cached by exact Hc.
    revert acc st Hc. apply (traverses_listing _ _ NoAnswer (Some []) ret).
    apply traverses_ret.
  - intros acc st Hc. rewrite visit_item_cached by exact Hc.
    revert acc st Hc. cbn [files_of_item listing_response contents_of_response
                           status json_body].
    destruct (s =? 200) eqn:Hs.
    + destruct truthy; cbn [andb decoded no_contents truthy_value truthy_payload negb].
      * apply (traverses_listing _ _ (Unlisted s true) None (fun _ => raise ShapeError)).
        apply traverses_raise.
      * apply (traverses_listing _ _ (Unlisted s false) (Some []) ret).
        apply traverses_ret.
    + cbn [andb].
      assert (Hno : no_contents (if s =? 404 then Some (PContents []) else None) = true)
        by now destruct (s =? 404).
      rewrite Hno.
      apply (traverses_listing _ _ (Unlisted s truthy) (Some []) ret).
      apply traverses_ret.
  - intros acc st Hc. rewrite visit_item_cached by exact Hc.
    revert acc st Hc. rewrite files_of_item_dir.
    cbn [listing_response contents_of_response status json_body].
    destruct (s =? 200) eqn:Hs.
    + destruct items as [|i rest].
      * cbn [decoded no_contents truthy_value truthy_payload negb files_of_items].
        apply (traverses_listing _ _ (Listing s []) (Some []) ret).
        apply traverses_ret.
      * cbn [decoded no_contents truthy_value truthy_payload negb].
        apply (traverses_listing _ _ (Listing s (i :: rest))
                 (files_of_items (i :: rest))
                 (visit_items repo_name (i :: rest))).
        now apply traverses_visit_items.
    + assert (Hno : no_contents (if s =? 404 then Some (PContents []) else None) = true)
        by now destruct (s =? 404).
      rewrite Hno.
      apply (traverses_listing _ _ (Listing s items) (Some []) ret).
      apply traverses_ret.
Qed.

Lemma traverses_visit_contents repo_name contents :
  no_contents contents = false ->
  traverses (listed_files contents) (visit_contents repo_name contents).
Proof.
  intros Hc. unfold listed_files, visit_contents. rewrite Hc.
  destruct contents as [[| | | |items|]|]; try apply traverses_raise.
  apply traverses_visit_items. apply Forall_forall.
  intros it _. apply traverses_visit_item.
Qed.

(** The traversal from the root: what the listing of the root returns
    decides the files; the requests are not deletions; the login is known
    afterwards when there were contents. *)
Lemma find_files_recursively_spec repo_name st :
  exists contents st0 st1 lookups,
    get_repository_contents repo_name "" st = (Ok contents, st0) /\
    match listed_files contents with
    | Some files => find_files_recursively repo_name [] st = (Ok files, st1)
    | None => exists e, find_files_recursively repo_name [] st = (Raise e, st1)
    end /\
    trace st1 = (trace st ++ lookups)%list /\
    Forall not_delete lookups /\
    (no_contents contents = false -> truthy_opt (gh_username st1) = true) /\
    same_bot_fields st st1.
Proof.
  unfold find_files_recursively, get_repository_contents.
  destruct (get_repository_contents_via_spec http_request repo_name "" st
              sends_http_request)
    as (c & st0 & evs0 & Hr0 & Ht0 & Hn0 & Hcached & _ & Hs0).
  exists c, st0. unfold bind. rewrite Hr0.
  destruct (no_contents c) eqn:Hc.
  - exists st0, evs0. unfold listed_files. rewrite Hc.
    split; [reflexivity|]. repeat split; try assumption; try apply Hs0.
  - destruct (traverses_visit_contents repo_name c Hc [] st0 (Hcached eq_refl))
      as (st1 & evs1 & Hr1 & Ht1 & Hn1 & Hu1 & Hs1).
    exists st1, (evs0 ++ evs1)%list.
    split; [reflexivity|]. split; [exact Hr1|].
    split; [now rewrite Ht1, Ht0, app_assoc|].
    split; [now apply Forall_app|]. split.
    + intros _. rewrite Hu1. now apply Hcached.
    + eapply same_bot_fields_trans; eassumption.
Qed.

Lemma listed_files_nonempty contents f rest :
  listed_files contents = Some (f :: rest) -> no_contents contents = false.
Proof.
  unfold listed_files. destruct (no_contents contents); [discriminate | auto].
Qed.

End ClearRepository.

Section ClearRepositoryOrder.
Context `{E : Env}.

Lemma delete_file_cached repo_name f st u :
  gh_username st = Some u -> Py.truthy u = true ->
  exists r st',
    delete_file repo_name f st = (Ok (deleted_ok r), st') /\
    trace st' = (trace st ++ [EvHttp (delete_request u repo_name f) r])%list /\
    gh_username st' = gh_username st /\
    same_bot_fields st st'.
Proof.
  intros Hu Ht. unfold delete_file, bind at 1.
  rewrite get_username_cached by (rewrite Hu; exact Ht).
  rewrite Hu. cbn [truthy_opt]. rewrite Ht. cbn [default from_option id].
  destruct (http_request_spec (delete_request u repo_name f) st)
    as (r & st' & Hrun & _ & Htr & Hname & Hsame).
  exists r, st'. unfold bind. rewrite Hrun. unfold ret.
  split; [reflexivity|]. split; [exact Htr|]. split; [congruence | exact Hsame].
Qed.

(** The deletion loop with the login in the cache: one request per file,
    in order, up to and including the first that fails. *)
Lemma delete_loop_spec repo_name u files : forall st,
  gh_username st = Some u -> Py.truthy u = true ->
  exists answers ok st',
    delete_loop repo_name files st = (Ok ok, st') /\
    trace st' = (trace st ++ deletions u repo_name files answers)%list /\
    (length answers <= length files)%nat /\
    (forall i a, (i + 1 < length answers)%nat -> answers !! i = Some a ->
                 deleted_ok a = true) /\
    (ok = true <-> Forall (fun a => deleted_ok a = true) answers) /\
    (ok = true -> length answers = length files) /\
    (ok = false -> exists a, last answers = Some a /\ deleted_ok a = false) /\
    same_bot_fields st st'.
Proof.
  induction files as [|f rest IH]; intros st Hu Ht.
  - exists [], true, st. cbn. rewrite app_nil_r.
    repeat split; auto using same_bot_fields_refl; try discriminate;
      try (intros i a Hi; cbn in Hi; lia).
  - destruct (delete_file_cached repo_name f st u Hu Ht)
      as (r & st1 & Hrun & Htr & Hname & Hsame).
    cbn [delete_loop]. unfold bind. rewrite Hrun.
    destruct (deleted_ok r) eqn:Hr; cbn [negb].
    + destruct (IH st1) as (answers & ok & st2 & Hrun2 & Htr2 & Hlen & Hfirst
                            & Hiff & Hall & Hlast & Hsame2).
      { now rewrite Hname. } { exact Ht. }
      exists (r :: answers), ok, st2. rewrite Hrun2.
      split; [reflexivity|]. split; [|split; [|split; [|split; [|split; [|split]]]]].
      * rewrite Htr2, Htr. cbn. now rewrite <- app_assoc.
      * cbn. lia.
      * intros [|i] a Hi Ha; cbn in Hi, Ha.
        -- now injection Ha as <-.
        -- apply (Hfirst i a); [lia | exact Ha].
      * rewrite Hiff. split.
        -- intros H. now constructor.
        -- intros H. now inversion H.
      * intros Hok. cbn. now rewrite Hall.
      * intros Hok. destruct (Hlast Hok) as (a & Ha & Hbad).
        exists a. split; [|exact Hbad].
        destruct answers as [|a0 l]; [discriminate|]. exact Ha.
      * eapply same_bot_fields_trans; eassumption.
    + exists [r], false, st1. unfold ret.
      split; [reflexivity|]. split; [|split; [|split; [|split; [|split; [|split]]]]].
      * rewrite Htr. unfold deletions. cbn. now destruct rest.
      * cbn. lia.
      * intros i a Hi. cbn in Hi. lia.
      * split; [discriminate|]. intros H. inversion H; subst. congruence.
      * discriminate.
      * intros _. exists r. split; [reflexivity | exact Hr].
      * exact Hsame.
Qed.

(** C1, as amended.  [clear_repository_contents] first completes the
    traversal, which sends no deletion and collects the files of the remote
    tree: those that the listing of the root and the listings below it hold,
    in the order of the listings.  Only then it sends the deletions, one
    per collected file in the collected order, and stops after the first
    that fails.  So when it has sent k deletions the first k-1 succeeded,
    the files after the k-th were not tried, and the result is [False]
    exactly when the k-th failed; the result is [True] exactly when every
    deletion sent succeeded, and then every file was tried.  When no file
    was collected no deletion is sent and the result is [True].  When the
    traversal raises (a listing that is answered 200 with something else
    than an array of entries) no deletion is sent and the result is
    [False].  The function never raises. *)
Theorem clear_repository_contents_deletes_after_traversal
    (repo_name : string) (st : state) :
  exists (listing : option payload) (st0 st1 : state) (lookups : list event),
    get_repository_contents repo_name "" st = (Ok listing, st0) /\
    snd (find_files_recursively repo_name [] st) = st1 /\
    trace st1 = (trace st ++ lookups)%list /\
    Forall not_delete lookups /\
    match listed_files listing with
    | Some files =>
        find_files_recursively repo_name [] st = (Ok files, st1) /\
        exists (username : string) (answers : list (option response))
               (ok : bool) (st2 : state),
          clear_repository_contents repo_name st = (Ok ok, st2) /\
          trace st2 = (trace st1 ++ deletions username repo_name files answers)%list /\
          (length answers <= length files)%nat /\
          (forall i a, (i + 1 < length answers)%nat -> answers !! i = Some a ->
                       deleted_ok a = true) /\
          (ok = true <-> Forall (fun a => deleted_ok a = true) answers) /\
          (ok = true -> length answers = length files) /\
          (ok = false -> exists a, last answers = Some a /\ deleted_ok a = false) /\
          (files = [] -> answers = [] /\ ok = true)
    | None =>
        (exists e, find_files_recursively repo_name [] st = (Raise e, st1)) /\
        clear_repository_contents repo_name st = (Ok false, st1)
    end.
Proof.
  destruct (find_files_recursively_spec repo_name st)
    as (contents & st0 & st1 & lookups & Hroot & Hfind & Htr & Hnd & Hcached & Hsame).
  exists contents, st0, st1, lookups.
  split; [exact Hroot|].
  destruct (listed_files contents) as [files|] eqn:Hlisted.
  - rewrite Hfind. cbn [snd]. repeat (split; [assumption || reflexivity|]).
    unfold clear_repository_contents, try_except, bind. rewrite Hfind.
    destruct files as [|f rest].
    + exists "", [], true, st1. unfold ret. cbn. rewrite app_nil_r.
      repeat split; auto; try discriminate;
        try (intros i a Hi; cbn in Hi; lia).
    + specialize (Hcached (listed_files_nonempty _ _ _ Hlisted)).
      destruct (gh_username st1) as [u|] eqn:Hu; [|discriminate].
      cbn [truthy_opt] in Hcached.
      destruct (delete_loop_spec repo_name u (f :: rest) st1 Hu Hcached)
        as (answers & ok & st2 & Hrun & Htr2 & Hlen & Hfirst & Hiff & Hall
            & Hlast & _).
      exists u, answers, ok, st2. rewrite Hrun.
      assert (Hres : (if ok then ret true else ret false) st2 = (Ok ok, st2)).
      { now destruct ok. }
      rewrite Hres.
      repeat split; auto; try apply Hiff; try discriminate.
  - destruct Hfind as (e & Hfind). rewrite Hfind. cbn [snd].
    repeat (split; [assumption || reflexivity|]).
    split; [now exists e|].
    unfold clear_repository_contents, try_except, bind. now rewrite Hfind.
Qed.

End ClearRepositoryOrder.

Section ClearRepositoryCounterexample.

(** C1, the claim as it was stated fails.  In [object_env] the listing
    of the root is answered 200 with an object: the traversal raises, the
    function returns [False], and it has sent no deletion.  So the result
    is not [True] although every deletion that was sent (there is none)
    succeeded. *)
Lemma clear_repository_contents_fails_without_failed_deletion :
  let out := @clear_repository_contents object_env "demo" object_state in
  fst out = Ok false /\
  List.filter is_delete (@trace object_env (snd out)) = [] /\
  ~ (fst out = Ok true <->
     Forall (fun ev => deletion_ok ev = true)
            (List.filter is_delete (@trace object_env (snd out)))).
Proof.
  cbv zeta.
  assert (Hout : fst (@clear_repository_contents object_env "demo" object_state)
                 = Ok false) by (vm_compute; reflexivity).
  assert (Hnone : List.filter is_delete
                    (@trace object_env
                       (snd (@clear_repository_contents object_env "demo"
                               object_state))) = [])
    by (vm_compute; reflexivity).
  split; [exact Hout|]. split; [exact Hnone|].
  rewrite Hout, Hnone. intros [_ H].
  assert (Hyes : @Ok bool false = Ok true) by (apply H; constructor).
  discriminate.
Qed.

(** A tree with a malformed entry below the root: the files met before it
    are collected, the traversal raises, and nothing is deleted. *)
Example malformed_entry_scenario :
  files_of_items [ItemFile "a.txt" "1f";
                  ItemDir "src" (Listing 200 [ItemFile "src/b.py" "2e";
                                              ItemMalformed])]
  = None.
Proof. reflexivity. Qed.

End ClearRepositoryCounterexample.

(** ** The layout of the extracted archive *)

Section ZipStructureFacts.
Import FS.

Lemma assoc_not_in name (entries : list (string * node)) :
  name ∉ map fst entries -> assoc name entries = None.
Proof.
  induction entries as [|[n x] rest IH]; [reflexivity|].
  cbn. intros Hnot. apply not_elem_of_cons in Hnot as [Hne Hrest].
  destruct (String.eqb_spec n name) as [->|_]; [contradiction|]. auto.
Qed.

Lemma remove_entry_not_in name (entries : list (string * node)) :
  name ∉ map fst entries -> remove_entry name entries = entries.
Proof.
  induction entries as [|[n x] rest IH]; [reflexivity|].
  cbn. intros Hnot. apply not_elem_of_cons in Hnot as [Hne Hrest].
  destruct (String.eqb_spec n name) as [->|_]; [contradiction|].
  cbn. unfold remove_entry in IH. now rewrite IH.
Qed.

Lemma set_entry_not_in name x (entries : list (string * node)) :
  name ∉ map fst entries -> set_entry name x entries = (entries ++ [(name, x)])%list.
Proof.
  induction entries as [|[n y] rest IH]; [reflexivity|].
  cbn. intros Hnot. apply not_elem_of_cons in Hnot as [Hne Hrest].
  destruct (String.eqb_spec n name) as [->|_]; [contradiction|].
  now rewrite IH.
Qed.

Lemma alter_other_entries w f (entries : list (string * node)) :
  w ∉ map fst entries ->
  map (fun e => if String.eqb (fst e) w then (fst e, f (snd e)) else e) entries
  = entries.
Proof.
  induction entries as [|[n y] rest IH]; [reflexivity|].
  cbn. intros Hnot. apply not_elem_of_cons in Hnot as [Hne Hrest].
  destruct (String.eqb_spec n w) as [->|_]; [contradiction|].
  now rewrite IH.
Qed.

(** One step of the loop of [_fix_zip_structure]: the first entry of the
    wrapper moves to the end of the root. *)
Lemma shutil_move_hoists w item x rem moved :
  item <> w ->
  item ∉ map fst rem -> item ∉ map fst moved -> w ∉ map fst moved ->
  shutil_move [w; item] [item]
    (Some (Dir ((w, Dir ((item, x) :: rem)) :: moved)))
  = (Ok tt, Some (Dir ((w, Dir rem) :: moved ++ [(item, x)]))).
Proof.
  intros Hne Hrem Hmoved Hw.
  set (root := Dir ((w, Dir ((item, x) :: rem)) :: moved)).
  assert (Hsrc : stat [w; item] (Some root) = Some x).
  { cbn. rewrite String.eqb_refl. cbn. now rewrite String.eqb_refl. }
  assert (Hdst : stat [item] (Some root) = None).
  { cbn. destruct (String.eqb_spec w item) as [Heq|_]; [congruence|].
    now rewrite assoc_not_in. }
  assert (Hup : stat (parent [item]) (Some root) = Some root) by reflexivity.
  unfold shutil_move, bind.
  replace (os_path_isdir [item] (Some root)) with (@Ok bool false, Some root)
    by (unfold os_path_isdir, gets; now rewrite Hdst).
  cbv beta iota. unfold os_rename, bind, gets, modify, ret.
  rewrite Hsrc, Hdst, Hup.
  rewrite bool_decide_eq_false_2 by congruence.
  cbn [is_prefix length Nat.leb andb].
  unfold root at 1. cbv beta iota.
  unfold detach, attach, root.
  cbn [parent name_of List.removelast List.last alter_dir map fst snd
       fmap option_fmap option_map].
  rewrite String.eqb_refl.
  rewrite (alter_other_entries w
             (fun n => match n with
                       | File c => File c
                       | Dir entries => Dir (remove_entry item entries)
                       end) moved Hw).
  cbn [remove_entry List.filter fst negb]. rewrite String.eqb_refl. cbn [negb].
  fold (remove_entry item rem). rewrite (remove_entry_not_in item rem Hrem).
  cbn [set_entry].
  destruct (String.eqb_spec w item) as [Heq|_]; [congruence|].
  now rewrite (set_entry_not_in item x moved Hmoved).
Qed.

Lemma move_items_hoists w : forall rem moved,
  NoDup (map fst rem) ->
  w ∉ map fst rem -> w ∉ map fst moved ->
  (forall n, n ∈ map fst rem -> n ∉ map fst moved) ->
  move_items [w] (map fst rem) (Some (Dir ((w, Dir rem) :: moved)))
  = (Ok tt, Some (Dir ((w, Dir []) :: moved ++ rem))).
Proof.
  induction rem as [|[item x] rem IH]; intros moved Hnd Hw Hwm Hdisj.
  - cbn. now rewrite app_nil_r.
  - cbn [map fst move_items app]. cbn [map fst] in Hnd, Hw, Hdisj.
    apply NoDup_cons in Hnd as [Hitem Hnd].
    apply not_elem_of_cons in Hw as [Hne Hw].
    unfold bind.
    rewrite (shutil_move_hoists w item x rem moved); auto.
    + rewrite IH; auto.
      * now rewrite <- app_assoc.
      * rewrite map_app. cbn. intros H. apply elem_of_app in H as [H|H]; [contradiction|].
        apply list_elem_of_singleton in H. congruence.
      * intros n Hn. rewrite map_app. cbn. intros H.
        apply elem_of_app in H as [H|H].
        -- apply (Hdisj n); [now right | exact H].
        -- apply list_elem_of_singleton in H. subst. contradiction.
    + apply Hdisj. now left.
Qed.

Lemma os_listdir_dir p d entries :
  stat p d = Some (Dir entries) -> os_listdir p d = (Ok (map fst entries), d).
Proof. intros H. unfold os_listdir, bind, gets. now rewrite H. Qed.

Lemma os_path_isdir_eq p d :
  os_path_isdir p d
  = (Ok (match stat p d with Some (Dir _) => true | _ => false end), d).
Proof. reflexivity. Qed.

Lemma stat_head w x rest : stat [w] (Some (Dir ((w, x) :: rest))) = Some x.
Proof. cbn. now rewrite String.eqb_refl. Qed.

(** The claim of C3 on the archives without a clash of names: when the
    only entry of the root is a directory [w] whose distinct entries are
    not called [w], they become the entries of the root and [w] is gone. *)
Lemma fix_zip_structure_hoists w (items : list (string * node)) :
  NoDup (map fst items) -> w ∉ map fst items ->
  check_and_fix_zip_structure (Some (Dir [(w, Dir items)]))
  = (Ok tt, Some (Dir items)).
Proof.
  intros Hnd Hw.
  set (root := Some (Dir [(w, Dir items)])).
  assert (Hst : stat [w] root = Some (Dir items)) by apply stat_head.
  assert (Hroot : stat [] root = Some (Dir [(w, Dir items)])) by reflexivity.
  assert (Hcheck : _check_zip_structure root = (Ok false, root)).
  { unfold _check_zip_structure, bind.
    rewrite (os_listdir_dir [] root _ Hroot). cbn [map fst].
    now rewrite os_path_isdir_eq, Hst. }
  unfold check_and_fix_zip_structure, bind. rewrite Hcheck. cbn [negb].
  unfold _fix_zip_structure, bind.
  rewrite (os_listdir_dir [] root _ Hroot). cbn [map fst].
  rewrite os_path_isdir_eq, Hst.
  rewrite (os_listdir_dir [w] root _ Hst).
  unfold root. rewrite (move_items_hoists w items []); auto.
  - cbn [app]. unfold os_rmdir, bind, gets, modify.
    rewrite stat_head.
    unfold detach. cbn [parent name_of List.removelast List.last alter_dir
                        fmap option_fmap option_map remove_entry List.filter fst].
    rewrite String.eqb_refl. cbn [negb].
    fold (remove_entry w items). now rewrite remove_entry_not_in.
  - apply not_elem_of_nil.
  - intros n _. apply not_elem_of_nil.
Qed.

(** A root that is not a single directory is left as it is. *)
Lemma fix_zip_structure_flat (entries : list (string * node)) :
  (forall w sub, entries <> [(w, Dir sub)]) ->
  check_and_fix_zip_structure (Some (Dir entries)) = (Ok tt, Some (Dir entries)).
Proof.
  intros Hflat.
  assert (Hcheck : _check_zip_structure (Some (Dir entries))
                   = (Ok true, Some (Dir entries))).
  { unfold _check_zip_structure, bind.
    rewrite (os_listdir_dir [] (Some (Dir entries)) entries) by reflexivity.
    destruct entries as [|[w x] [|e rest]]; try reflexivity.
    cbn [map fst]. rewrite os_path_isdir_eq, stat_head.
    destruct x as [c|sub]; [reflexivity|].
    exfalso. now apply (Hflat w sub). }
  unfold check_and_fix_zip_structure, bind. now rewrite Hcheck.
Qed.

(** Exactly one pass: a single directory inside the single directory stays
    one level deep. *)
Example fix_zip_structure_one_pass :
  check_and_fix_zip_structure
    (Some (Dir [("demo-v2", Dir [("src", Dir [("main.py", File "print(1)")])])]))
  = (Ok tt, Some (Dir [("src", Dir [("main.py", File "print(1)")])])).
Proof. reflexivity. Qed.

(** C3, the failing input.  An archive whose only top-level entry is the
    directory [demo] that itself has an entry [demo]: [shutil.move] finds
    that the destination [extract_dir/demo] is a directory, wants to move
    the source inside it, finds the path taken (by the source itself) and
    raises.  The entries before the clash have moved, the others and the
    wrapper stay. *)
Theorem fix_zip_structure_name_clash :
  check_and_fix_zip_structure
    (Some (Dir [("demo", Dir [("setup.py", File "s");
                              ("demo", Dir [("__init__.py", File "")]);
                              ("README.md", File "r")])]))
  = (Raise DestinationExists,
     Some (Dir [("demo", Dir [("demo", Dir [("__init__.py", File "")]);
                              ("README.md", File "r")]);
                ("setup.py", File "s")])).
Proof. reflexivity. Qed.

End ZipStructureFacts.

(** ** Uploading the files *)

Section UploadFacts.
Context `{E : Env}.


(** The loop sends one request per file, whatever the answers. *)
Lemma upload_loop_spec username repo_name files : forall st n,
  exists answers st',
    upload_loop username repo_name files n st
      = (Ok (n + uploaded_count answers), st') /\
    length answers = length files /\
    trace st' = (trace st ++ uploads username repo_name files answers)%list /\
    gh_username st' = gh_username st /\
    same_bot_fields st st'.
Proof.
  induction files as [|[rel content] rest IH]; intros st n.
  - exists [], st. cbn. rewrite app_nil_r, Z.add_0_r.
    repeat split; reflexivity.
  - cbn [upload_loop].
    destruct (http_request_spec (put_request username repo_name rel content) st)
      as (r & st1 & Hrun & _ & Htr & Hname & Hsame).
    unfold bind. rewrite Hrun.
    destruct (IH st1 (if uploaded_ok r then n + 1 else n))
      as (answers & st2 & Hrun2 & Hlen & Htr2 & Hname2 & Hsame2).
    exists (r :: answers), st2. rewrite Hrun2.
    split; [|split; [|split; [|split]]].
    + f_equal. f_equal. unfold uploaded_count. cbn [List.filter].
      destruct (uploaded_ok r); cbn [length]; lia.
    + cbn. now rewrite Hlen.
    + rewrite Htr2, Htr. cbn. now rewrite <- app_assoc.
    + congruence.
    + eapply same_bot_fields_trans; eassumption.
Qed.

Lemma upload_files_spec repo_name source_dir st :
  exists (ok : bool) (st' : state) (lookup : list event)
         (answers : list (option response)) (username : string),
    upload_files repo_name source_dir st = (Ok ok, st') /\
    trace st' = (trace st ++ lookup ++
                 uploads username repo_name (os_walk_files source_dir) answers)%list /\
    (lookup = [] \/ exists r, lookup = [EvHttp user_request r]) /\
    ok = (0 <? uploaded_count answers) /\
    ((gh_username st' = Some username /\ Py.truthy username = true /\
      length answers = length (os_walk_files source_dir)) \/
     (answers = [] /\ truthy_opt (gh_username st') = false)) /\
    same_bot_fields st st'.
Proof.
  unfold upload_files.
  destruct (get_username_spec st)
    as (u & st1 & evs1 & Hrun & Htr1 & Hshape & Hcache & Hkeep & Hsame1).
  unfold bind at 1. rewrite Hrun.
  assert (Hfail : truthy_opt u = false ->
            truthy_opt (gh_username st1) = false).
  { intros Hu. destruct (truthy_opt (gh_username st)) eqn:Hc.
    - destruct (Hkeep eq_refl) as [-> ->]. congruence.
    - clear Hkeep Hcache. revert Hrun. unfold get_username, bind, gets.
      rewrite Hc. unfold http_request.
      destruct (http user_request (world st)) as [[resp|] w'].
      + destruct (status resp =? 200).
        * destruct (json_body resp); unfold ret, modify; cbn;
            intros [= <- <-]; cbn; try exact Hc. exact Hu.
        * unfold ret. intros [= <- <-]. exact Hc.
      + unfold ret. intros [= <- <-]. exact Hc. }
  destruct u as [u|].
  - destruct (Py.truthy u) eqn:Hu.
    + destruct (upload_loop_spec u repo_name (os_walk_files source_dir) st1 0)
        as (answers & st2 & Hrun2 & Hlen & Htr2 & Hname2 & Hsame2).
      unfold bind. rewrite Hrun2. unfold ret.
      exists (0 <? 0 + uploaded_count answers), st2, evs1, answers, u.
      split; [reflexivity|]. split; [now rewrite Htr2, Htr1, app_assoc|].
      split; [exact Hshape|]. split; [reflexivity|]. split.
      * left. rewrite Hname2. split; [|split]; auto.
      * eapply same_bot_fields_trans; eassumption.
    + unfold ret. exists false, st1, evs1, [], "".
      split; [reflexivity|]. split.
      { unfold uploads. rewrite zip_with_nil_r, app_nil_r. exact Htr1. }
      split; [exact Hshape|]. split; [reflexivity|].
      split; [right; split; [reflexivity|]; apply Hfail; exact Hu | exact Hsame1].
  - unfold ret. exists false, st1, evs1, [], "".
    split; [reflexivity|]. split.
    { unfold uploads. rewrite zip_with_nil_r, app_nil_r. exact Htr1. }
    split; [exact Hshape|]. split; [reflexivity|].
    split; [right; split; [reflexivity|]; now apply Hfail | exact Hsame1].
Qed.

End UploadFacts.

Section UploadStage.
Context `{E : Env}.

Lemma on_disk_ok {A} (c : stateful FS.fs A) d a d' st :
  c d = (Ok a, d') -> on_disk c d st = (Ok (a, d'), st).
Proof. intros H. unfold on_disk. now rewrite H. Qed.

Lemma staged_with_readme_run use_template project_name basic d d' :
  staged_with_readme use_template project_name basic d = Some d' ->
  readme_step use_template project_name basic d = (Ok tt, d').
Proof.
  unfold staged_with_readme.
  destruct (readme_step _ _ _ d) as [[[]|e] d'']; [|discriminate].
  now intros [= ->].
Qed.

(** The end of the create workflow once the description step is done. *)
Lemma upload_stage_run project_name use_template d d' st :
  staged_with_readme use_template project_name
                     (basic_readme_uploaded project_name) d = Some d' ->
  exists ok st1 st',
    upload_files project_name d' st = (Ok ok, st1) /\
    upload_stage project_name use_template d st = (Ok tt, st') /\
    (ok = true ->
       upload_counter st' = upload_counter st + 1 /\
       exists u, gh_username st1 = Some u /\ Py.truthy u = true /\
         trace st' = (trace st1 ++
           [EvEdit (upload_success_text project_name (Some u) use_template
                                        (upload_counter st + 1))])%list) /\
    (ok = false ->
       upload_counter st' = upload_counter st /\
       trace st' = (trace st1 ++ [EvEdit upload_failure_text])%list).
Proof.
  intros Hstaged. apply staged_with_readme_run in Hstaged.
  destruct (upload_files_spec project_name d' st)
    as (ok & st1 & lookup & answers & u & Hrun & Htr & _ & Hok & Hlogin & Hsame).
  destruct Hsame as (_ & Hcount & _).
  assert (Hstage : upload_stage project_name use_template d st =
            bind (ret ok) (fun success =>
              if success then
                bind (modify (fun st => set_upload_counter (upload_counter st + 1) st))
                  (fun _ => bind get_username (fun username =>
                     bind (gets upload_counter) (fun counter =>
                       edit_text (upload_success_text project_name username
                                                      use_template counter))))
              else edit_text upload_failure_text) st1).
  { unfold upload_stage, bind at 1.
    rewrite (on_disk_ok _ d tt d' st Hstaged). cbn [snd].
    unfold bind at 1. rewrite Hrun. reflexivity. }
  exists ok, st1. destruct ok.
  - destruct Hlogin as [(Hu & Htruthy & _)|[-> _]]; [|discriminate].
    exists (set_trace (trace st1 ++
              [EvEdit (upload_success_text project_name (Some u) use_template
                                           (upload_counter st + 1))])%list
              (set_upload_counter (upload_counter st1 + 1) st1)).
    split; [exact Hrun|]. split.
    + rewrite Hstage. unfold bind at 1. unfold ret at 1. cbv beta iota.
      unfold bind at 1. unfold modify at 1. cbv beta iota.
      unfold bind at 1.
      rewrite get_username_cached by (cbn; rewrite Hu; exact Htruthy).
      unfold bind, gets, edit_text, emit, modify. cbn. now rewrite Hu, Hcount.
    + split; [|discriminate]. intros _. cbn. split; [now rewrite Hcount|].
      exists u. auto.
  - exists (set_trace (trace st1 ++ [EvEdit upload_failure_text])%list st1).
    split; [exact Hrun|]. split; [now rewrite Hstage|].
    split; [discriminate|]. intros _. cbn. now rewrite Hcount.
Qed.

End UploadStage.

Section UploadClaims.
Context `{E : Env}.

Lemma append_assoc (a b c : string) : (a +:+ b) +:+ c = a +:+ (b +:+ c).
Proof.
  induction a as [|ch a IH]; [reflexivity|].
  change (String ch ((a +:+ b) +:+ c) = String ch (a +:+ (b +:+ c))).
  now rewrite IH.
Qed.

Lemma occurs_in_here needle after : occurs_in needle (needle +:+ after).
Proof. now exists "", after. Qed.

Lemma occurs_in_append needle before text :
  occurs_in needle text -> occurs_in needle (before +:+ text).
Proof.
  intros (b & a & ->). exists (before +:+ b), a. now rewrite append_assoc.
Qed.

Lemma upload_success_text_has_url project_name username use_template counter :
  occurs_in (github_url username project_name)
            (upload_success_text project_name username use_template counter).
Proof.
  unfold upload_success_text.
  do 7 apply occurs_in_append. apply occurs_in_here.
Qed.


Lemma set_entry_absent name x (entries : list (string * node)) :
  FS.assoc name entries = None ->
  FS.set_entry name x entries = (entries ++ [(name, x)])%list.
Proof.
  induction entries as [|[n y] rest IH]; [reflexivity|].
  cbn. destruct (String.eqb n name); [discriminate|].
  intros H. now rewrite IH.
Qed.

Lemma staged_basic_readme project_name basic entries :
  FS.assoc "README.md" entries = None ->
  staged_with_readme false project_name basic (Some (Dir entries))
  = Some (Some (Dir (entries ++ [("README.md", File basic)]))).
Proof.
  intros Habsent.
  unfold staged_with_readme, readme_step, FS.os_path_exists, FS.write_file,
    bind, gets, modify.
  cbn [FS.stat FS.lookup FS.parent List.removelast]. rewrite Habsent.
  cbn [negb FS.stat FS.lookup]. rewrite Habsent.
  unfold FS.attach.
  cbn [FS.parent FS.name_of List.removelast List.last FS.alter_dir
       fmap option_fmap option_map].
  now rewrite set_entry_absent.
Qed.

Lemma walk_files_has_root_file name content entries :
  In (name, content) (os_walk_files (Some (Dir (entries ++ [(name, File content)])))).
Proof.
  cbn [os_walk_files walk_files]. apply in_or_app. left.
  apply in_flat_map. exists (name, File content).
  split; [apply in_or_app; right; now left|].
  cbn. left. reflexivity.
Qed.

End UploadClaims.

(** ** Validation of the uploaded document *)

Section DocumentValidation.
Context `{E : Env}.

(** The create workflow validates: a name that does not end in [.zip] or
    a size over 20 MiB gives one reply and nothing else: no download, no
    request, and the mode stays armed. *)
Lemma create_workflow_rejects_invalid (doc : document) (name : string)
    (size : Z) (st : state) :
  file_name doc = Some name ->
  Py.endswith name ".zip" = false \/
  (file_size doc = Some size /\ Config.MAX_FILE_SIZE < size) ->
  exists text,
    (text = not_zip_text \/ text = too_large_text) /\
    create_workflow doc st
    = (Ok tt, set_trace (trace st ++ [EvReply text])%list st).
Proof.
  intros Hname Hbad. unfold create_workflow. rewrite Hname.
  destruct (Py.endswith name ".zip") eqn:Hzip; cbn [negb].
  - destruct Hbad as [Hbad|[Hsize Hbad]]; [discriminate|].
    rewrite Hsize. apply Z.ltb_lt in Hbad. rewrite Hbad.
    exists too_large_text. split; [now right | reflexivity].
  - exists not_zip_text. split; [now left | reflexivity].
Qed.

Lemma handle_document_create_rejects_invalid (upd : update) (doc : document)
    (name : string) (size : Z) (st : state) :
  gate_accepts upd st = true ->
  ud_mode (udata st) = Some "upload" ->
  file_name doc = Some name ->
  Py.endswith name ".zip" = false \/
  (file_size doc = Some size /\ Config.MAX_FILE_SIZE < size) ->
  exists text,
    (text = not_zip_text \/ text = too_large_text) /\
    handle_document upd doc st
    = (Ok tt, set_trace (trace st ++ [EvReply text])%list (accepted_state st)).
Proof.
  intros Hgate Hmode Hname Hbad. unfold handle_document.
  rewrite gated_accepted by exact Hgate.
  unfold bind at 1, gets at 1. unfold mode_is. cbn [accepted_state udata set_last_message_time].
  rewrite Hmode. cbn [String.eqb Ascii.eqb Bool.eqb negb].
  destruct (create_workflow_rejects_invalid doc name size (accepted_state st)
              Hname Hbad)
    as (text & Htext & Hrun).
  exists text. split; [exact Htext|]. exact Hrun.
Qed.

End DocumentValidation.

(** C4, the failing inputs.  While the refresh of [demo] is armed the
    owner sends a document whose name does not end in [.zip], or one of
    30 MiB.  The create workflow rejects both before the download
    ([handle_document_create_rejects_invalid]); the update workflow has no
    such test: its first reply announces the download, the download
    follows, and then the files of the repository are deleted. *)
Theorem update_workflow_skips_validation :
  (exists name, file_name jar_document = Some name /\
                Py.endswith name ".zip" = false) /\
  (exists size, file_size large_document = Some size /\
                Config.MAX_FILE_SIZE < size) /\
  (refresh_trace jar_document !! 0%nat
     = Some (EvReply (update_header "demo" +:+ "📥 Mengunduh file ZIP...")) /\
   refresh_trace jar_document !! 1%nat = Some (EvDownload "file-7") /\
   List.filter is_delete (refresh_trace jar_document)
     = deletions "octocat" "demo"
         [FileInfo "old.txt" "3b18e5"; FileInfo "docs/guide.md" "9f2c41"]
         [Some (Response 200 PNone); Some (Response 200 PNone)]) /\
  (refresh_trace large_document !! 0%nat
     = Some (EvReply (update_header "demo" +:+ "📥 Mengunduh file ZIP...")) /\
   refresh_trace large_document !! 1%nat = Some (EvDownload "file-8") /\
   List.filter is_delete (refresh_trace large_document)
     = deletions "octocat" "demo"
         [FileInfo "old.txt" "3b18e5"; FileInfo "docs/guide.md" "9f2c41"]
         [Some (Response 200 PNone); Some (Response 200 PNone)]).
Proof.
  split; [now exists "demo.jar"|].
  split; [now exists (30 * 1024 * 1024)|].
  split; (split; [vm_compute; reflexivity|]);
    (split; vm_compute; reflexivity).
Qed.

(** ** Substrings *)

Section Substrings.

Lemma prefix_append (needle rest : string) :
  String.prefix needle (needle +:+ rest) = true.
Proof.
  induction needle as [|c needle IH].
  - now destruct rest.
  - change (String c needle +:+ rest) with (String c (needle +:+ rest)).
    cbn [String.prefix].
    destruct (ascii_dec c c); [exact IH | contradiction].
Qed.

Lemma prefix_inv (needle text : string) :
  String.prefix needle text = true -> exists rest, text = needle +:+ rest.
Proof.
  revert text. induction needle as [|c needle IH]; intros text H.
  - now exists text.
  - destruct text as [|d text]; cbn in H; [discriminate|].
    destruct (ascii_dec c d) as [->|]; [|discriminate].
    destruct (IH text H) as (rest & ->). now exists rest.
Qed.

Lemma str_in_complete (needle text : string) :
  occurs_in needle text -> Py.str_in needle text = true.
Proof.
  intros (before & after & ->).
  induction before as [|c before IH].
  - change ("" +:+ needle +:+ after) with (needle +:+ after).
    destruct (needle +:+ after) eqn:Heq; cbn [Py.str_in];
      rewrite <- Heq, prefix_append; reflexivity.
  - change (String c before +:+ needle +:+ after)
      with (String c (before +:+ needle +:+ after)).
    cbn [Py.str_in]. rewrite IH. apply orb_true_r.
Qed.

Lemma str_in_sound (needle text : string) :
  Py.str_in needle text = true -> occurs_in needle text.
Proof.
  induction text as [|c text IH]; cbn [Py.str_in]; intros H.
  - rewrite orb_false_r in H. destruct (prefix_inv _ _ H) as (rest & ->).
    apply occurs_in_here.
  - apply orb_true_iff in H as [H|H].
    + destruct (prefix_inv _ _ H) as (rest & ->). apply occurs_in_here.
    + change (String c text) with (String c "" +:+ text).
      apply occurs_in_append. now apply IH.
Qed.

Lemma occurs_in_trans (a b c : string) :
  occurs_in a b -> occurs_in b c -> occurs_in a c.
Proof.
  intros (p & q & ->) (r & s & ->).
  exists (r +:+ p), (q +:+ s). now rewrite !append_assoc.
Qed.

Lemma lower_append (a b : string) :
  Py.lower (a +:+ b) = Py.lower a +:+ Py.lower b.
Proof.
  induction a as [|c a IH]; [reflexivity|].
  change (String (Py.lower_ascii c) (Py.lower (a +:+ b))
          = String (Py.lower_ascii c) (Py.lower a +:+ Py.lower b)).
  now rewrite IH.
Qed.

Lemma occurs_in_lower (needle text : string) :
  occurs_in needle text -> occurs_in (Py.lower needle) (Py.lower text).
Proof.
  intros (p & q & ->). exists (Py.lower p), (Py.lower q).
  now rewrite !lower_append.
Qed.

Lemma rev_app_append (s acc : string) :
  String.rev_app s acc = String.rev s +:+ acc.
Proof.
  unfold String.rev. revert acc. induction s as [|c s IH]; intros acc.
  - reflexivity.
  - cbn [String.rev_app]. rewrite IH, (IH (String c "")).
    now rewrite append_assoc.
Qed.

Lemma rev_cons_append (c : ascii) (cur rest : string) :
  String.rev (String c cur) +:+ rest = String.rev cur +:+ String c rest.
Proof.
  unfold String.rev at 1. cbn [String.rev_app].
  now rewrite rev_app_append, append_assoc.
Qed.

(** Every word of [s.split()] occurs in [s]. *)
Lemma split_go_occurs (s : string) : forall cur skip word,
  In word (PyWs.split_go cur skip s) -> occurs_in word (String.rev cur +:+ s).
Proof.
  induction s as [|c rest IH]; intros cur skip word Hin.
  - destruct cur as [|d cur]; cbn in Hin; [contradiction|].
    destruct Hin as [<-|[]]. apply occurs_in_here.
  - assert (Hrest : forall k, In word (PyWs.split_go "" k rest) ->
                      occurs_in word (String.rev cur +:+ String c rest)).
    { intros k H. apply occurs_in_append.
      change (String c rest) with (String c "" +:+ rest).
      apply occurs_in_append. exact (IH "" k word H). }
    cbn [PyWs.split_go] in Hin. destruct skip as [|k]; [|eauto].
    destruct (PyWs.space_len (String c rest)) as [|k].
    + rewrite <- rev_cons_append. now apply (IH _ 0%nat).
    + destruct cur as [|d cur]; [eauto|].
      destruct Hin as [<-|Hin]; [apply occurs_in_here | eauto].
Qed.

Lemma command_args_occur (text word : string) :
  In word (PyWs.command_args text) -> occurs_in word text.
Proof.
  unfold PyWs.command_args, PyWs.split. intros H.
  apply (split_go_occurs text "" 0%nat word).
  destruct (PyWs.split_go "" 0 text); [contradiction | now right].
Qed.

(** A name that contains [template] puts it into the lowered text. *)
Lemma template_in_name_in_text (text name : string) (rest : list string) :
  PyWs.command_args text = name :: rest ->
  Py.str_in "template" name = true ->
  Py.str_in "template" (Py.lower text) = true.
Proof.
  intros Hargs Hname. apply str_in_complete.
  change "template" with (Py.lower "template"). apply occurs_in_lower.
  apply (occurs_in_trans _ name).
  - now apply str_in_sound.
  - apply command_args_occur. rewrite Hargs. now left.
Qed.

Lemma command_args_template (name : string) :
  PyWs.command_args ("/upd_repo template " +:+ name)
  = "template" :: PyWs.split name.
Proof. reflexivity. Qed.

End Substrings.

(** ** The command [/upd_repo] *)

Section UpdateRepoCommand.
Context `{E : Env}.

Lemma get_username_unresolved st u st' :
  get_username st = (Ok u, st') -> truthy_opt u = false ->
  truthy_opt (gh_username st') = false.
Proof.
  intros Hrun Hu. destruct (truthy_opt (gh_username st)) eqn:Hc.
  - rewrite get_username_cached in Hrun by exact Hc.
    injection Hrun as <- <-. congruence.
  - revert Hrun. unfold get_username, bind, gets.
    rewrite Hc. unfold http_request.
    destruct (http user_request (world st)) as [[resp|] w'].
    + destruct (status resp =? 200).
      * destruct (json_body resp); unfold ret, modify; cbn;
          intros [= <- <-]; cbn; try exact Hc. exact Hu.
      * unfold ret. intros [= <- <-]. exact Hc.
    + unfold ret. intros [= <- <-]. exact Hc.
Qed.

(** The existence check: it never raises, writes no field of the bot, and
    when the login is known its last request is the one for the
    repository of that name. *)
Lemma get_repository_info_spec repo_name st :
  exists info st1,
    get_repository_info repo_name st = (Ok info, st1) /\
    same_bot_fields st st1 /\
    (forall login, gh_username st1 = Some login -> Py.truthy login = true ->
       exists answer,
         last (trace st1)
         = Some (EvHttp (Request GET (repo_url login repo_name) NoBody) answer)).
Proof.
  unfold get_repository_info.
  destruct (get_username_spec st)
    as (u & st0 & evs & Hrun & Htr & _ & Hcache & _ & Hsame0).
  unfold bind at 1. rewrite Hrun.
  destruct (truthy_opt u) eqn:Hu.
  - destruct (http_request_spec (Request GET (repo_url (default "" u) repo_name) NoBody) st0)
      as (r & st1 & Hrun1 & _ & Htr1 & Hname1 & Hsame1).
    unfold bind. rewrite Hrun1.
    assert (Hlast : forall login, gh_username st1 = Some login ->
              Py.truthy login = true ->
              exists answer, last (trace st1)
                = Some (EvHttp (Request GET (repo_url login repo_name) NoBody) answer)).
    { intros login Hlogin _. exists r. rewrite Htr1, last_snoc.
      rewrite Hname1, (Hcache eq_refl) in Hlogin. now subst u. }
    assert (Hsame : same_bot_fields st st1)
      by (eapply same_bot_fields_trans; eassumption).
    destruct r as [resp|]; [|now exists None, st1].
    destruct (status resp =? 200); [|now exists None, st1].
    now exists (decoded (json_body resp)), st1.
  - exists None, st0. unfold ret. split; [reflexivity|]. split; [exact Hsame0|].
    intros login Hlogin Htruthy.
    pose proof (get_username_unresolved st u st0 Hrun Hu) as Hno.
    rewrite Hlogin in Hno. cbn in Hno. congruence.
Qed.

(** C10. An accepted [/upd_repo] with at least one argument checks the
    existence of the repository named by the first argument, whatever it
    is.  When that repository exists the refresh is armed for it, and the
    template mode with it exactly when [template] occurs in the lowered
    text of the message; when it does not exist nothing is armed.  So
    [/upd_repo template <name>] asks for a repository called [template],
    and a repository whose name contains [template] arms the template
    mode. *)
Theorem update_repo_command_takes_first_argument
    (upd : update) (text name : string) (rest : list string) (st : state) :
  gate_accepts upd st = true ->
  let checking :=
    set_trace (trace st ++ [EvReply ("Mengecek repository '" +:+ name +:+ "'...")])%list
      (set_udata (pop_update_repo_name (pop_mode (udata st))) (accepted_state st)) in
  let use_template := Py.str_in "template" (Py.lower text) in
  exists (info : option payload) (st1 st' : state),
    get_repository_info name checking = (Ok info, st1) /\
    update_repo_command upd text (name :: rest) st = (Ok tt, st') /\
    (forall login, gh_username st1 = Some login -> Py.truthy login = true ->
       exists answer,
         last (trace st1)
         = Some (EvHttp (Request GET (repo_url login name) NoBody) answer)) /\
    (truthy_value info = true ->
       udata st' = UserData (Some "update") (Some name) (Some use_template) /\
       (ud_use_template (udata st') = Some true <->
        occurs_in "template" (Py.lower text))) /\
    (truthy_value info = false ->
       ud_mode (udata st') = None /\
       ud_update_repo_name (udata st') = None /\
       ud_use_template (udata st') = ud_use_template (udata st)) /\
    (PyWs.command_args text = name :: rest ->
       Py.str_in "template" name = true -> use_template = true) /\
    (forall n, PyWs.command_args ("/upd_repo template " +:+ n)
               = "template" :: PyWs.split n).
Proof.
  intros Hgate checking use_template.
  destruct (get_repository_info_spec name checking)
    as (info & st1 & Hrun & (_ & _ & Hdata) & Hlast).
  assert (Hcmd : update_repo_command upd text (name :: rest) st =
            if negb (truthy_value info) then
                edit_text ("❌ Repository '" +:+ name +:+
                           "' tidak ditemukan di akun GitHub kamu.") st1
            else
                bind (update_user_data (put_mode "update")) (fun _ =>
                bind (update_user_data (put_update_repo_name name)) (fun _ =>
                bind (update_user_data (put_use_template use_template)) (fun _ =>
                edit_text
                  ("✅ **Mode Update Aktif** untuk repository **'" +:+ name +:+
                   "'**" +:+ Py.nl +:+
                   "📄 Mode README: " +:+ readme_mode use_template +:+ Py.nl +:+ Py.nl +:+
                   "Silakan kirim file ZIP yang berisi konten baru untuk project ini.")))) st1).
  { unfold update_repo_command. rewrite gated_accepted by exact Hgate.
    unfold bind at 1. unfold update_user_data at 1, modify at 1. cbv beta iota.
    unfold bind at 1. unfold update_user_data at 1, modify at 1. cbv beta iota.
    unfold bind at 1. unfold reply_text at 1, emit at 1, modify at 1. cbv beta iota.
    unfold bind at 1.
    change (get_repository_info name _) with (get_repository_info name checking).
    rewrite Hrun. now destruct (truthy_value info). }
  exists info, st1.
  destruct (truthy_value info) eqn:Htruthy; cbn [negb] in Hcmd.
  - eexists. split; [exact Hrun|]. split; [rewrite Hcmd; reflexivity|].
    split; [exact Hlast|]. split; [|split; [|split]].
    + intros _. cbn. split; [reflexivity|].
      split.
      * intros [= H]. now apply str_in_sound.
      * intros H. f_equal. now apply str_in_complete.
    + discriminate.
    + intros Hargs Hname. eapply template_in_name_in_text; eassumption.
    + apply command_args_template.
  - eexists. split; [exact Hrun|]. split; [rewrite Hcmd; reflexivity|].
    split; [exact Hlast|]. split; [|split; [|split]].
    + discriminate.
    + intros _. cbn. rewrite Hdata. cbn. auto.
    + intros Hargs Hname. eapply template_in_name_in_text; eassumption.
    + apply command_args_template.
Qed.

End UpdateRepoCommand.

Section UpdateRepoScenario.
#[local] Existing Instance refresh_env.

(** The owner sends [/upd_repo demo template]: the repository [demo]
    exists and the template mode is armed. *)
Lemma update_repo_command_takes_first_argument_witness :
  let upd := Update (Some 42)
               (Command CmdUpdRepo "/upd_repo demo template" ["demo"; "template"]) in
  let text := "/upd_repo demo template" in
  let name := "demo" in
  let rest := ["template"] in
  let st := refresh_idle in
  gate_accepts upd st = true /\
  let checking :=
    set_trace (trace st ++ [EvReply ("Mengecek repository '" +:+ name +:+ "'...")])%list
      (set_udata (pop_update_repo_name (pop_mode (udata st))) (accepted_state st)) in
  let use_template := Py.str_in "template" (Py.lower text) in
  exists (info : option payload) (st1 st' : state),
    get_repository_info name checking = (Ok info, st1) /\
    update_repo_command upd text (name :: rest) st = (Ok tt, st') /\
    (forall login, gh_username st1 = Some login -> Py.truthy login = true ->
       exists answer,
         last (trace st1)
         = Some (EvHttp (Request GET (repo_url login name) NoBody) answer)) /\
    (truthy_value info = true ->
       udata st' = UserData (Some "update") (Some name) (Some use_template) /\
       (ud_use_template (udata st') = Some true <->
        occurs_in "template" (Py.lower text))) /\
    (truthy_value info = false ->
       ud_mode (udata st') = None /\
       ud_update_repo_name (udata st') = None /\
       ud_use_template (udata st') = ud_use_template (udata st)) /\
    (PyWs.command_args text = name :: rest ->
       Py.str_in "template" name = true -> use_template = true) /\
    (forall n, PyWs.command_args ("/upd_repo template " +:+ n)
               = "template" :: PyWs.split n).
Proof.
  cbv zeta. split; [vm_compute; reflexivity|].
  apply (update_repo_command_takes_first_argument
           (Update (Some 42)
              (Command CmdUpdRepo "/upd_repo demo template" ["demo"; "template"]))
           "/upd_repo demo template" "demo" ["template"] refresh_idle).
  vm_compute. reflexivity.
Defined.

(** [/upd_repo template demo] asks for a repository called [template];
    there is none, and nothing is armed. *)
Example upd_repo_template_first :
  let text := "/upd_repo template demo" in
  let st' := snd (dispatch (Update (Some 42)
                              (Command CmdUpdRepo text (PyWs.command_args text)))
                           refresh_idle) in
  List.last (trace st') (EvReply "")
    = EvEdit "❌ Repository 'template' tidak ditemukan di akun GitHub kamu." /\
  udata st' = UserData None None None.
Proof. split; vm_compute; reflexivity. Qed.

(** [/upd_repo demo] : the refresh of [demo] is armed without the
    template. *)
Example upd_repo_plain :
  let text := "/upd_repo demo" in
  udata (snd (dispatch (Update (Some 42)
                          (Command CmdUpdRepo text (PyWs.command_args text)))
                       refresh_idle))
  = UserData (Some "update") (Some "demo") (Some false).
Proof. vm_compute. reflexivity. Qed.

End UpdateRepoScenario.

(** ** The description generator *)

Section ReadmeFacts.
Context `{E : Env}.
Import FS.

Lemma total_ret {A} (a : A) : total (ret a).
Proof. intros d. now exists a. Qed.

Lemma total_bind {A B} (c : stateful fs A) (k : A -> stateful fs B) :
  total c -> (forall a, total (k a)) -> total (bind c k).
Proof.
  intros Hc Hk d. destruct (Hc d) as (a & Ha). destruct (Hk a d) as (b & Hb).
  exists b. unfold bind. now rewrite Ha.
Qed.

Lemma total_gets {A} (f : fs -> A) : total (gets f).
Proof. intros d. now exists (f d). Qed.

Lemma reads_ret {A} (a : A) : reads (ret (S:=fs) a).
Proof. intros d. reflexivity. Qed.

Lemma reads_raise {A} e : reads (raise (S:=fs) (A:=A) e).
Proof. intros d. reflexivity. Qed.

Lemma reads_gets {A} (f : fs -> A) : reads (gets f).
Proof. intros d. reflexivity. Qed.

Lemma reads_bind {A B} (c : stateful fs A) (k : A -> stateful fs B) :
  reads c -> (forall a, reads (k a)) -> reads (bind c k).
Proof.
  intros Hc Hk d. unfold bind. specialize (Hc d).
  destruct (c d) as [[a|e] d']; cbn in Hc; subst d'; [apply Hk | reflexivity].
Qed.

(** A [try] whose body only reads and whose handler returns never raises. *)
Lemma total_try_except {A} (c : stateful fs A) (h : exn -> stateful fs A) :
  reads c -> (forall e, total (h e)) -> total (try_except c h).
Proof.
  intros Hc Hh d. unfold try_except. specialize (Hc d).
  destruct (c d) as [[a|e] d']; cbn in Hc; subst d'.
  - now exists a.
  - apply Hh.
Qed.

(** The test [k in d] guards the subscript [d[k]]. *)
Lemma getitem_guarded {V} (k : string) (dict : list (string * V)) :
  Dict.contains k dict = true -> total (Dict.getitem k dict).
Proof.
  unfold Dict.contains, Dict.getitem. intros H d.
  destruct (Dict.get k dict) as [v|]; [now exists v | discriminate].
Qed.

Lemma total_count_files walked : forall acc, total (count_files walked acc).
Proof.
  induction walked as [|[rel content] rest IH]; intros acc; cbn [count_files].
  - apply total_ret.
  - destruct (Dict.contains _ language_extensions) eqn:Hin; [|apply IH].
    apply total_bind; [now apply getitem_guarded|]. intros language. apply IH.
Qed.

Lemma total_indicator_frameworks files : forall frameworks,
  total (indicator_frameworks files frameworks).
Proof.
  induction files as [|file rest IH]; intros frameworks;
    cbn [indicator_frameworks].
  - apply total_ret.
  - destruct (Dict.contains _ framework_indicators) eqn:Hin; [|apply IH].
    apply total_bind; [now apply getitem_guarded|]. intros found. apply IH.
Qed.

Lemma reads_package_frameworks : reads package_frameworks.
Proof.
  unfold package_frameworks.
  apply reads_bind.
  { unfold read_file. apply reads_bind; [apply reads_gets|].
    intros [[c|entries]|]; first [apply reads_ret | apply reads_raise]. }
  intros text. apply reads_bind.
  { destruct (json_load text); [apply reads_ret | apply reads_raise]. }
  intros package_data. apply reads_bind.
  { unfold json_get. destruct package_data;
      first [apply reads_ret | apply reads_raise]. }
  intros deps. apply reads_bind.
  { unfold json_get. destruct package_data;
      first [apply reads_ret | apply reads_raise]. }
  intros dev. apply reads_bind.
  { unfold merged_keys. destruct deps, dev;
      first [apply reads_ret | apply reads_raise]. }
  intros dependencies. apply reads_ret.
Qed.

Lemma total_detect_frameworks files : total (_detect_frameworks files).
Proof.
  unfold _detect_frameworks.
  apply total_bind; [apply total_indicator_frameworks|]. intros frameworks.
  apply total_bind; [apply total_gets|]. intros has_package_json.
  apply total_bind; [|intros more; apply total_ret].
  destruct has_package_json; [|apply total_ret].
  apply total_try_except; [apply reads_package_frameworks|].
  intros e. apply total_ret.
Qed.

Lemma total_analyze_project : total analyze_project.
Proof.
  unfold analyze_project.
  apply total_bind; [apply total_gets|]. intros walked.
  apply total_bind; [apply total_count_files|]. intros counted.
  apply total_bind.
  - destruct (snd counted) as [|[k v] rest]; [apply total_ret|].
    apply total_bind; [|intros key; apply total_ret].
    intros d. now exists (max_from k v rest).
  - intros main. apply total_bind; [apply total_detect_frameworks|].
    intros frameworks. apply total_ret.
Qed.

Lemma total_generate_readme project_name : total (generate_readme project_name).
Proof.
  unfold generate_readme. apply total_bind; [apply total_analyze_project|].
  intros a. apply total_ret.
Qed.

Lemma list_of_set_nil : list_of_set [] = [].
Proof. unfold list_of_set. exact (elements_empty (C:=gset string)). Qed.

(** Without files there is no file [package.json] at the root. *)
Lemma no_files_no_root_file name d c :
  os_walk_files d = [] -> stat [name] d <> Some (File c).
Proof.
  destruct d as [[content|entries]|]; cbn; try discriminate.
  intros Hwalk Hstat. apply app_eq_nil in Hwalk as [Hfiles _].
  induction entries as [|[n x] rest IH]; cbn in Hstat; [discriminate|].
  cbn in Hfiles. destruct x as [c'|sub]; [discriminate|].
  cbn in Hfiles. destruct (String.eqb n name); [discriminate|]. auto.
Qed.

Lemma detect_frameworks_no_files d :
  os_walk_files d = [] -> _detect_frameworks [] d = (Ok [], d).
Proof.
  intros Hwalk. unfold _detect_frameworks, bind.
  cbn [indicator_frameworks ret]. unfold os_path_exists, gets.
  pose proof list_of_set_nil as Hempty.
  destruct (stat ["package.json"] d) as [x|] eqn:Hstat.
  - assert (Hraise : exists e, package_frameworks d = (Raise e, d)).
    { unfold package_frameworks, read_file, bind, gets. rewrite Hstat.
      destruct x as [c|entries].
      - exfalso. now apply (no_files_no_root_file "package.json" d c).
      - now eexists. }
    destruct Hraise as (e & Hraise).
    unfold try_except. rewrite Hraise. unfold ret. cbn [app]. now rewrite Hempty.
  - unfold ret. cbn [app]. now rewrite Hempty.
Qed.

Lemma analyze_project_no_files d :
  os_walk_files d = [] -> analyze_project d = (Ok empty_analysis, d).
Proof.
  intros Hwalk. unfold analyze_project, bind, gets. rewrite Hwalk.
  cbn [count_files ret fst snd]. now rewrite detect_frameworks_no_files.
Qed.

(** C7. [generate_readme] returns a document for every staged tree: it
    never raises and leaves the tree as it is.  For a tree without files
    the document is the fallback document: the project name as title, the
    generic description and instructions, and no section on
    technologies. *)
Theorem generate_readme_never_raises (project_name : string) (d : fs) :
  (exists doc, generate_readme project_name d = (Ok doc, d)) /\
  (os_walk_files d = [] ->
     generate_readme project_name d = (Ok (fallback_readme project_name), d) /\
     analyze_project d = (Ok empty_analysis, d) /\
     technologies_section empty_analysis = "" /\
     fallback_readme project_name
     = title_section project_name +:+
       description_section empty_analysis +:+
       structure_section project_name empty_analysis +:+
       getting_started_section project_name empty_analysis +:+
       closing_sections).
Proof.
  split; [apply total_generate_readme|].
  intros Hwalk.
  assert (Hdoc : render_readme project_name empty_analysis
                 = fallback_readme project_name).
  { unfold render_readme, fallback_readme, title_section, description_section,
      technologies_section, structure_section, getting_started_section,
      closing_sections, clone_lines, line, empty_analysis.
    cbn [languages frameworks files project_type main_language nonempty orb
         map List.filter]. rewrite list_of_set_nil.
    cbn. repeat (rewrite ?append_assoc; cbn). reflexivity. }
  split; [|split; [|split]].
  - unfold generate_readme, bind. rewrite analyze_project_no_files by exact Hwalk.
    unfold ret. now rewrite Hdoc.
  - now apply analyze_project_no_files.
  - reflexivity.
  - rewrite <- Hdoc. reflexivity.
Qed.

End ReadmeFacts.

Section ReadmeScenario.
#[local] Existing Instance demo_env.

(** A tree without files: an empty directory in the root. *)
Lemma generate_readme_never_raises_witness :
  os_walk_files (Some (Dir [("docs", Dir [])])) = [] /\
  generate_readme "demo" (Some (Dir [("docs", Dir [])]))
  = (Ok (fallback_readme "demo"), Some (Dir [("docs", Dir [])])).
Proof.
  split; [reflexivity|].
  apply (generate_readme_never_raises "demo" (Some (Dir [("docs", Dir [])]))).
  reflexivity.
Defined.

(** The words [## Technologies Used] are not in the fallback document. *)
Example fallback_readme_has_no_technologies :
  Py.str_in "## Technologies Used" (fallback_readme "demo") = false.
Proof. vm_compute. reflexivity. Qed.

End ReadmeScenario.

(** ** The language tally *)

Section LanguageTally.
Context `{E : Env}.

Lemma three_names (l : list (string * node)) (a b c : string) :
  map fst l ≡ₚ [a; b; c] ->
  exists x1 x2 x3 n1 n2 n3,
    l = [(n1, x1); (n2, x2); (n3, x3)] /\
    ([n1; n2; n3] = [a; b; c] \/ [n1; n2; n3] = [a; c; b] \/
     [n1; n2; n3] = [b; a; c] \/ [n1; n2; n3] = [b; c; a] \/
     [n1; n2; n3] = [c; a; b] \/ [n1; n2; n3] = [c; b; a]).
Proof.
  intros Hperm.
  pose proof (Permutation_length Hperm) as Hlen.
  destruct l as [|[n1 x1] [|[n2 x2] [|[n3 x3] [|? ?]]]]; try discriminate.
  exists x1, x2, x3, n1, n2, n3. split; [reflexivity|].
  cbn [map fst] in Hperm.
  assert (Hin : In n1 [a; b; c]).
  { eapply Permutation_in; [exact Hperm | now left]. }
  assert (Htwo : forall p q, [n2; n3] ≡ₚ [p; q] ->
                 [n2; n3] = [p; q] \/ [n2; n3] = [q; p]).
  { intros p q H. symmetry in H. now apply Permutation_length_2_inv in H. }
  destruct Hin as [<-|[<-|[<-|[]]]].
  - apply Permutation_cons_inv in Hperm.
    destruct (Htwo _ _ Hperm) as [H|H]; injection H as -> ->; tauto.
  - assert (H : [n2; n3] ≡ₚ [a; c]).
    { apply (Permutation_cons_inv (a:=b)). rewrite Hperm. apply perm_swap. }
    destruct (Htwo _ _ H) as [H'|H']; injection H' as -> ->; tauto.
  - assert (H : [n2; n3] ≡ₚ [a; b]).
    { apply (Permutation_cons_inv (a:=c)). rewrite Hperm.
      change [a; b; c] with ([a; b] ++ [c])%list.
      symmetry. apply Permutation_cons_append. }
    destruct (Htwo _ _ H) as [H'|H']; injection H' as -> ->; tauto.
Qed.

(** C8. For the files [a.py], [b.py] and [c.js], in whatever order the
    directory lists them and whatever they contain, the tally gives Python
    2 and JavaScript 1 and the main language is Python: the same on every
    run. *)
Theorem language_tally_python_main (entries : list (string * node)) :
  map fst entries ≡ₚ ["a.py"; "b.py"; "c.js"] ->
  Forall (fun e => exists content, snd e = File content) entries ->
  exists a : analysis,
    analyze_project (Some (Dir entries)) = (Ok a, Some (Dir entries)) /\
    Dict.get "Python" (languages a) = Some 2 /\
    Dict.get "JavaScript" (languages a) = Some 1 /\
    languages a ≡ₚ [("Python", 2); ("JavaScript", 1)] /\
    main_language a = Some "Python".
Proof.
  intros Hperm Hfiles.
  destruct (three_names entries _ _ _ Hperm)
    as (x1 & x2 & x3 & n1 & n2 & n3 & -> & Horder).
  apply Forall_cons in Hfiles as [[c1 Hc1] Hfiles].
  apply Forall_cons in Hfiles as [[c2 Hc2] Hfiles].
  apply Forall_cons in Hfiles as [[c3 Hc3] _].
  cbn [snd] in Hc1, Hc2, Hc3. subst x1 x2 x3.
  assert (Hsets : list_of_set [] = []) by apply list_of_set_nil.
  destruct Horder as [H|[H|[H|[H|[H|H]]]]]; injection H as -> -> ->;
    (eexists; split;
     [ unfold analyze_project, bind, gets, _detect_frameworks, FS.os_path_exists;
       cbn; rewrite Hsets; reflexivity
     | cbn; repeat split; try reflexivity;
       first [ apply Permutation_refl | apply perm_swap ] ]).
Qed.

End LanguageTally.

Section LanguageTallyScenario.
#[local] Existing Instance demo_env.

(** The directory lists [c.js] first. *)
Lemma language_tally_python_main_witness :
  let entries := [("c.js", File "let x = 1"); ("a.py", File "x = 1");
                  ("b.py", File "y = 2")] in
  map fst entries ≡ₚ ["a.py"; "b.py"; "c.js"] /\
  Forall (fun e => exists content, snd e = File content) entries /\
  exists a : analysis,
    analyze_project (Some (Dir entries)) = (Ok a, Some (Dir entries)) /\
    Dict.get "Python" (languages a) = Some 2 /\
    Dict.get "JavaScript" (languages a) = Some 1 /\
    languages a ≡ₚ [("Python", 2); ("JavaScript", 1)] /\
    main_language a = Some "Python".
Proof.
  cbv zeta.
  assert (Hperm : map fst [("c.js", File "let x = 1"); ("a.py", File "x = 1");
                           ("b.py", File "y = 2")] ≡ₚ ["a.py"; "b.py"; "c.js"]).
  { cbn [map fst].
    change ["a.py"; "b.py"; "c.js"] with (["a.py"; "b.py"] ++ ["c.js"])%list.
    apply Permutation_cons_append. }
  assert (Hfiles : Forall (fun e : string * node => exists content, snd e = File content)
                     [("c.js", File "let x = 1"); ("a.py", File "x = 1");
                      ("b.py", File "y = 2")]).
  { repeat constructor; eexists; reflexivity. }
  split; [exact Hperm|]. split; [exact Hfiles|].
  exact (language_tally_python_main _ Hperm Hfiles).
Defined.

End LanguageTallyScenario.

(** ** The scenarios of the specification *)

Section CreateScenario.
#[local] Existing Instance demo_env.

(** The owner sends [/upload] and, three seconds later, [demo.zip] with
    the single file [main.py]: the repository is created, both files are
    uploaded, the counter is 1 and the last reply has the URL. *)
Example create_scenario :
  let armed := snd (dispatch owner_upload_command demo_state) in
  let done := snd (dispatch owner_demo_zip (later 3 armed)) in
  udata armed = UserData (Some "upload") None (Some false) /\
  upload_counter done = 1 /\
  put_summary (trace done)
  = [("https://api.github.com/repos/octocat/demo/contents/main.py", Some 201);
     ("https://api.github.com/repos/octocat/demo/contents/README.md", Some 201)] /\
  List.last (trace done) (EvReply "")
  = EvEdit (upload_success_text "demo" (Some "octocat") false 1) /\
  udata done = UserData None None None.
Proof. repeat split; vm_compute; reflexivity. Qed.

(** The same document one second after the command is inside the
    cooldown and is dropped; so is the document of another sender. *)
Example cooldown_scenario :
  let armed := snd (dispatch owner_upload_command demo_state) in
  dispatch owner_demo_zip (later 1 armed) = (Ok tt, later 1 armed) /\
  dispatch stranger_demo_zip (later 3 armed) = (Ok tt, later 3 armed).
Proof. split; vm_compute; reflexivity. Qed.

End CreateScenario.

Section PartialFailureScenario.
#[local] Existing Instance flaky_env.

(** The upload of [main.py] fails and that of [README.md] succeeds: the
    result is [True], the counter grows and the reply is the success
    reply. *)
Example partial_failure_scenario :
  let armed := set_udata (UserData (Some "upload") None (Some false))
                         (initial_state (1700000000%Q, 0%nat)) in
  let done := snd (dispatch owner_demo_zip armed) in
  put_summary (trace done)
  = [("https://api.github.com/repos/octocat/demo/contents/main.py", Some 500);
     ("https://api.github.com/repos/octocat/demo/contents/README.md", Some 201)] /\
  upload_counter done = 1 /\
  List.last (trace done) (EvReply "")
  = EvEdit (upload_success_text "demo" (Some "octocat") false 1).
Proof. repeat split; vm_compute; reflexivity. Qed.

End PartialFailureScenario.

Section RefreshScenario.
#[local] Existing Instance refresh_env.

(** The refresh of [demo]: the traversal, then the deletions in the
    collected order, then the uploads. *)
Example refresh_scenario :
  let done := snd (dispatch owner_demo_zip refresh_armed) in
  List.filter is_delete (trace done)
  = deletions "octocat" "demo"
      [FileInfo "old.txt" "3b18e5"; FileInfo "docs/guide.md" "9f2c41"]
      [Some (Response 200 PNone); Some (Response 200 PNone)] /\
  put_summary (trace done)
  = [("https://api.github.com/repos/octocat/demo/contents/main.py", Some 201);
     ("https://api.github.com/repos/octocat/demo/contents/README.md", Some 201)] /\
  upload_counter done = 0.
Proof. repeat split; vm_compute; reflexivity. Qed.

End RefreshScenario.

(** * Further properties *)

(** ** What the client and the workflows leave alone *)

Section Frames.
Context `{E : Env}.
Context {X : Type} (f : state -> X) (Hblind : client_blind f).

Lemma steady_preserves {A} (c : prog A) : steady f c -> preserves f c.
Proof. intros H st. destruct (H st) as (a & st' & -> & Hf). exact Hf. Qed.

Lemma steady_never_raises {A} (c : prog A) : steady f c -> never_raises c.
Proof. intros H st. destruct (H st) as (a & st' & Hrun & _). eauto. Qed.

Lemma steady_ret {A} (a : A) : steady f (ret a).
Proof. intros st. now exists a, st. Qed.

Lemma steady_gets {A} (g : state -> A) : steady f (gets g).
Proof. intros st. now exists (g st), st. Qed.

Lemma steady_bind {A B} (c : prog A) (k : A -> prog B) :
  steady f c -> (forall a, steady f (k a)) -> steady f (bind c k).
Proof.
  intros Hc Hk st. destruct (Hc st) as (a & st1 & Hrun & Hf1).
  destruct (Hk a st1) as (b & st2 & Hrun2 & Hf2).
  exists b, st2. unfold bind. rewrite Hrun, Hrun2. split; [reflexivity|congruence].
Qed.

Lemma steady_modify (g : state -> state) :
  (forall st, f (g st) = f st) -> steady f (modify g).
Proof. intros Hg st. exists tt, (g st). split; [reflexivity | apply Hg]. Qed.

Lemma steady_try_except {A} (c : prog A) (h : exn -> prog A) :
  preserves f c -> (forall e, steady f (h e)) -> steady f (try_except c h).
Proof.
  intros Hc Hh st. unfold try_except. specialize (Hc st).
  destruct (c st) as [[a|e] st1]; cbn in Hc.
  - now exists a, st1.
  - destruct (Hh e st1) as (b & st2 & Hrun & Hf). exists b, st2.
    split; [exact Hrun | congruence].
Qed.

Lemma preserves_ret {A} (a : A) : preserves f (ret a).
Proof. intros st. reflexivity. Qed.

Lemma preserves_raise {A} e : preserves f (raise (A:=A) e).
Proof. intros st. reflexivity. Qed.

Lemma preserves_bind {A B} (c : prog A) (k : A -> prog B) :
  preserves f c -> (forall a, preserves f (k a)) -> preserves f (bind c k).
Proof.
  intros Hc Hk st. unfold bind. specialize (Hc st).
  destruct (c st) as [[a|e] st1]; cbn in Hc; [|exact Hc].
  rewrite Hk. exact Hc.
Qed.

Lemma steady_emit ev : steady f (emit ev).
Proof. apply steady_modify. intros st. apply Hblind. Qed.

Lemma steady_reply_text text : steady f (reply_text text).
Proof. apply steady_emit. Qed.

Lemma steady_edit_text text : steady f (edit_text text).
Proof. apply steady_emit. Qed.

Lemma steady_http_request req : steady f (http_request req).
Proof.
  intros st. unfold http_request. destruct (http req (world st)) as [r w'].
  eexists _, _. split; [reflexivity|].
  destruct Hblind as (Hw & Ht & _). now rewrite Ht, Hw.
Qed.

Lemma steady_http_answered r req : steady f (http_answered r req).
Proof.
  unfold http_answered. apply steady_bind; [apply steady_emit|].
  intros _. apply steady_ret.
Qed.

Lemma steady_get_username : steady f get_username.
Proof.
  unfold get_username. apply steady_bind; [apply steady_gets|]. intros cached.
  destruct (truthy_opt cached); [apply steady_ret|].
  apply steady_bind; [apply steady_http_request|]. intros [resp|]; [|apply steady_ret].
  destruct (status resp =? 200); [|apply steady_ret].
  destruct (json_body resp); try apply steady_ret.
  apply steady_bind; [|intros _; apply steady_ret].
  apply steady_modify. intros st. apply Hblind.
Qed.

Lemma steady_create_repository name description :
  steady f (create_repository name description).
Proof.
  unfold create_repository. apply steady_bind; [apply steady_http_request|].
  intros [resp|]; [|apply steady_ret].
  destruct (status resp =? 201); [apply steady_ret|].
  destruct (status resp =? 422); apply steady_ret.
Qed.

Lemma steady_upload_loop username repo_name files : forall n,
  steady f (upload_loop username repo_name files n).
Proof.
  induction files as [|[rel content] rest IH]; intros n; cbn [upload_loop].
  - apply steady_ret.
  - apply steady_bind; [apply steady_http_request|]. intros r. apply IH.
Qed.

Lemma steady_upload_files repo_name source_dir :
  steady f (upload_files repo_name source_dir).
Proof.
  unfold upload_files. apply steady_bind; [apply steady_get_username|].
  intros [u|]; [|apply steady_ret].
  destruct (Py.truthy u); [|apply steady_ret].
  apply steady_bind; [apply steady_upload_loop|]. intros n. apply steady_ret.
Qed.

Lemma steady_get_repositories : steady f get_repositories.
Proof.
  unfold get_repositories. apply steady_bind; [apply steady_http_request|].
  intros [resp|]; [|apply steady_ret].
  destruct (status resp =? 200); apply steady_ret.
Qed.

Lemma steady_delete_repository repo_name : steady f (delete_repository repo_name).
Proof.
  unfold delete_repository. apply steady_bind; [apply steady_get_username|].
  intros u. destruct (truthy_opt u); [|apply steady_ret].
  apply steady_bind; [apply steady_http_request|].
  intros [resp|]; apply steady_ret.
Qed.

Lemma steady_get_repository_info repo_name :
  steady f (get_repository_info repo_name).
Proof.
  unfold get_repository_info. apply steady_bind; [apply steady_get_username|].
  intros u. destruct (truthy_opt u); [|apply steady_ret].
  apply steady_bind; [apply steady_http_request|].
  intros [resp|]; [|apply steady_ret].
  destruct (status resp =? 200); apply steady_ret.
Qed.

Lemma steady_get_repository_contents_via send repo_name path :
  (forall req, steady f (send req)) ->
  steady f (get_repository_contents_via send repo_name path).
Proof.
  intros Hsend. unfold get_repository_contents_via.
  apply steady_bind; [apply steady_get_username|].
  intros u. destruct (truthy_opt u); [|apply steady_ret].
  apply steady_bind; [apply Hsend|]. intros r. apply steady_ret.
Qed.

Lemma steady_delete_file repo_name file : steady f (delete_file repo_name file).
Proof.
  unfold delete_file. apply steady_bind; [apply steady_get_username|].
  intros u. destruct (truthy_opt u); [|apply steady_ret].
  apply steady_bind; [apply steady_http_request|]. intros r. apply steady_ret.
Qed.

Lemma steady_set_repository_visibility repo_name private :
  steady f (set_repository_visibility repo_name private).
Proof.
  unfold set_repository_visibility. apply steady_bind; [apply steady_get_username|].
  intros u. destruct (truthy_opt u); [|apply steady_ret].
  apply steady_bind; [apply steady_http_request|].
  intros [resp|]; apply steady_ret.
Qed.

Lemma preserves_visit_items repo_name items :
  Forall (fun it => forall acc, preserves f (visit_item repo_name it acc)) items ->
  forall acc, preserves f (visit_items repo_name items acc).
Proof.
  induction 1 as [|i rest Hi _ IH]; intros acc; cbn [visit_items].
  - apply preserves_ret.
  - apply preserves_bind; [apply Hi|]. intros acc'. apply IH.
Qed.

Lemma preserves_answered_listing {A} repo_name path answer
    (k : option payload -> prog A) :
  (forall c, preserves f (k c)) ->
  preserves f (bind (get_repository_contents_via
                       (http_answered (listing_response answer)) repo_name path)
                    k).
Proof.
  intros Hk. apply preserves_bind; [|exact Hk].
  apply steady_preserves, steady_get_repository_contents_via.
  intros req. apply steady_http_answered.
Qed.

(** The traversal may raise, and leaves [f] as it was all the same. *)
Lemma preserves_visit_item repo_name it : forall acc,
  preserves f (visit_item repo_name it acc).
Proof.
  induction it as [path sha|path| |path|path s truthy|path s items IH]
    using item_induction; intros acc.
  - apply preserves_ret.
  - apply preserves_ret.
  - apply preserves_raise.
  - cbn [visit_item]. apply preserves_answered_listing.
    intros c. destruct (no_contents c); [apply preserves_ret | apply preserves_raise].
  - cbn [visit_item]. apply preserves_answered_listing.
    intros c. destruct (no_contents c); [apply preserves_ret | apply preserves_raise].
  - intros st. rewrite visit_item_dir. revert st.
    apply preserves_answered_listing.
    intros c. destruct (no_contents c); [apply preserves_ret|].
    now apply preserves_visit_items.
Qed.

Lemma preserves_find_files_recursively repo_name acc :
  preserves f (find_files_recursively repo_name acc).
Proof.
  unfold find_files_recursively, get_repository_contents.
  apply preserves_bind.
  - apply steady_preserves, steady_get_repository_contents_via.
    intros req. apply steady_http_request.
  - intros c. destruct (no_contents c); [apply preserves_ret|].
    unfold visit_contents.
    destruct c as [[| | | |items|]|]; try apply preserves_raise.
    apply preserves_visit_items. apply Forall_forall. intros it _.
    apply preserves_visit_item.
Qed.

Lemma steady_delete_loop repo_name files : steady f (delete_loop repo_name files).
Proof.
  induction files as [|file rest IH]; cbn [delete_loop].
  - apply steady_ret.
  - apply steady_bind; [apply steady_delete_file|].
    intros success. destruct success; cbn [negb]; [apply IH | apply steady_ret].
Qed.

Lemma steady_clear_repository_contents repo_name :
  steady f (clear_repository_contents repo_name).
Proof.
  unfold clear_repository_contents. apply steady_try_except.
  - apply preserves_bind; [apply preserves_find_files_recursively|].
    intros [|file rest]; [apply preserves_ret|].
    apply steady_preserves.
    apply steady_bind; [apply steady_delete_loop|].
    intros all; destruct all; apply steady_ret.
  - intros e. apply steady_ret.
Qed.

Lemma preserves_download file_id : preserves f (download file_id).
Proof.
  intros st. unfold download. destruct (download_to_drive file_id (world st)) as [r w'].
  cbn. destruct Hblind as (Hw & Ht & _). now rewrite Ht, Hw.
Qed.

Lemma preserves_extractall zip_bytes : preserves f (extractall zip_bytes).
Proof. intros st. unfold extractall. now destruct (zip_extractall zip_bytes). Qed.

Lemma preserves_on_disk {A} (c : stateful FS.fs A) d : preserves f (on_disk c d).
Proof. intros st. unfold on_disk. now destruct (c d) as [[a|e] d']. Qed.

End Frames.

Section WorkflowFrames.
Context `{E : Env}.
Context {X : Type} (f : state -> X) (Hblind : client_blind f).

Ltac steady_client :=
  first
    [ apply steady_ret
    | apply steady_gets
    | apply steady_reply_text; exact Hblind
    | apply steady_edit_text; exact Hblind
    | apply steady_get_username; exact Hblind
    | apply steady_get_repositories; exact Hblind
    | apply steady_get_repository_info; exact Hblind
    | apply steady_delete_repository; exact Hblind
    | apply steady_set_repository_visibility; exact Hblind
    | apply steady_clear_repository_contents; exact Hblind
    | apply steady_upload_files; exact Hblind
    | apply steady_create_repository; exact Hblind ].

Ltac steady_body :=
  repeat first
    [ steady_client
    | apply steady_bind; [|intros ?]
    | match goal with
      | |- steady _ (match ?x with _ => _ end) => destruct x
      | |- steady _ (if ?x then _ else _) => destruct x
      end ].

Ltac preserves_body :=
  repeat first
    [ apply preserves_ret
    | apply preserves_raise
    | apply preserves_download; exact Hblind
    | apply preserves_extractall
    | apply preserves_on_disk
    | apply steady_preserves; steady_client
    | apply preserves_bind; [|intros ?]
    | match goal with
      | |- preserves _ (match ?x with _ => _ end) => destruct x
      | |- preserves _ (if ?x then _ else _) => destruct x
      end ].

Lemma preserves_update_steps doc repo_name use_template :
  preserves f (update_steps doc repo_name use_template).
Proof. unfold update_steps, zip_path. preserves_body. Qed.

Lemma steady_run_update_workflow doc repo_name use_template :
  steady f (run_update_workflow doc repo_name use_template).
Proof.
  unfold run_update_workflow. apply steady_bind; [steady_client|]. intros _.
  apply steady_try_except; [apply preserves_update_steps|].
  intros e. steady_client.
Qed.

Lemma steady_toggle_repo_visibility args private :
  steady f (_toggle_repo_visibility args private).
Proof. unfold _toggle_repo_visibility. steady_body. Qed.

Section WithCounter.
Hypothesis Hcounter : forall n st, f (set_upload_counter n st) = f st.

Lemma preserves_upload_stage project_name use_template d :
  preserves f (upload_stage project_name use_template d).
Proof.
  unfold upload_stage.
  apply preserves_bind; [apply preserves_on_disk|]. intros written.
  apply preserves_bind; [apply steady_preserves; steady_client|]. intros success.
  destruct success; [|apply steady_preserves; steady_client].
  apply preserves_bind.
  { apply steady_preserves, steady_modify. intros st. apply Hcounter. }
  intros _. preserves_body.
Qed.

Lemma preserves_create_steps doc project_name use_template :
  preserves f (create_steps doc project_name use_template).
Proof.
  unfold create_steps.
  apply preserves_bind; [apply preserves_download; exact Hblind|]. intros zip_bytes.
  apply preserves_bind; [apply steady_preserves; steady_client|]. intros _.
  apply preserves_bind; [apply preserves_extractall|]. intros extract_dir.
  apply preserves_bind; [apply preserves_on_disk|]. intros fixed.
  apply preserves_bind; [apply steady_preserves; steady_client|]. intros _.
  apply preserves_bind; [apply steady_preserves; steady_client|]. intros now.
  apply preserves_bind; [apply steady_preserves; steady_client|]. intros created.
  destruct created; cbn [negb]; [|apply steady_preserves; steady_client].
  apply preserves_bind; [apply steady_preserves; steady_client|]. intros _.
  apply preserves_upload_stage.
Qed.

Section WithUserData.
Hypothesis Hudata : forall d st, f (set_udata d st) = f st.

Lemma steady_update_user_data g : steady f (update_user_data g).
Proof. apply steady_modify. intros st. apply Hudata. Qed.

(** The create workflow may raise on a document without a name or a
    size, before it has done anything. *)
Lemma preserves_create_workflow doc : preserves f (create_workflow doc).
Proof.
  unfold create_workflow.
  destruct (file_name doc) as [name|]; [|apply preserves_raise].
  destruct (Py.endswith name ".zip"); cbn [negb];
    [|apply steady_preserves; steady_client].
  destruct (file_size doc) as [size|]; [|apply preserves_raise].
  destruct (Config.MAX_FILE_SIZE <? size); [apply steady_preserves; steady_client|].
  apply steady_preserves.
  apply steady_bind; [steady_client|]. intros use_template.
  apply steady_bind; [apply steady_update_user_data|]. intros _.
  apply steady_bind; [apply steady_update_user_data|]. intros _.
  apply steady_bind; [steady_client|]. intros _.
  apply steady_try_except; [apply preserves_create_steps|].
  intros e. steady_client.
Qed.

(** The handler of a command other than [/info] and [/inp], and that of a
    text message, is its body behind the gate; the body returns and
    leaves [f] as it was. *)
Lemma command_gated_returns (upd : update) :
  (forall doc, incoming upd <> DocumentUpload doc) ->
  (forall text args, incoming upd <> Command CmdInfo text args) ->
  (forall text args, incoming upd <> Command CmdInp text args) ->
  exists body, dispatch upd = gated upd body /\ steady f body.
Proof.
  intros Hnodoc Hnoinfo Hnoinp. unfold dispatch.
  destruct (incoming upd) as [[] text args|doc|text].
  - eexists. split; [reflexivity|]. steady_client.
  - eexists. split; [reflexivity|]. steady_client.
  - eexists. split; [reflexivity|].
    apply steady_bind; [apply steady_update_user_data|]. intros _.
    apply steady_bind; [apply steady_update_user_data|]. intros _.
    apply steady_bind; [apply steady_update_user_data|]. intros _.
    apply steady_bind; [apply steady_update_user_data|]. intros _.
    steady_client.
  - eexists. split; [reflexivity|].
    apply steady_bind; [apply steady_update_user_data|]. intros _.
    apply steady_bind; [apply steady_update_user_data|]. intros _.
    destruct args as [|repo_name rest]; [steady_client|].
    apply steady_bind; [steady_client|]. intros _.
    apply steady_bind; [steady_client|]. intros info.
    destruct (truthy_value info); cbn [negb]; [|steady_client].
    apply steady_bind; [apply steady_update_user_data|]. intros _.
    apply steady_bind; [apply steady_update_user_data|]. intros _.
    apply steady_bind; [apply steady_update_user_data|]. intros _.
    steady_client.
  - exfalso. now apply (Hnoinfo text args).
  - eexists. split; [reflexivity|]. steady_body.
  - eexists. split; [reflexivity|]. apply steady_toggle_repo_visibility.
  - eexists. split; [reflexivity|]. apply steady_toggle_repo_visibility.
  - exfalso. now apply (Hnoinp text args).
  - exfalso. now apply (Hnodoc doc).
  - eexists. split; [reflexivity|]. cbv zeta. steady_body.
Qed.

(** Every handler of a command or of a text message is its body behind the
    gate, and the body leaves [f] as it was, also when it raises. *)
Lemma command_gated_body (upd : update) :
  (forall doc, incoming upd <> DocumentUpload doc) ->
  exists body, dispatch upd = gated upd body /\ preserves f body.
Proof.
  intros Hnodoc.
  destruct (incoming upd) as [c text args|doc|text] eqn:Hin.
  - destruct c.
    5: { unfold dispatch. rewrite Hin. eexists. split; [reflexivity|].
         preserves_body. }
    8: { unfold dispatch. rewrite Hin. eexists. split; [reflexivity|].
         preserves_body. }
    all: destruct (command_gated_returns upd) as (body & Hd & Hbody);
      try (intros; rewrite Hin; discriminate);
      exists body; split; [exact Hd | now apply steady_preserves].
  - exfalso. now apply (Hnodoc doc).
  - destruct (command_gated_returns upd) as (body & Hd & Hbody);
      try (intros; rewrite Hin; discriminate).
    exists body. split; [exact Hd | now apply steady_preserves].
Qed.

(** The branch of [handle_document] for an armed refresh. *)
Lemma steady_update_branch doc (d : user_data) :
  steady f (bind (update_user_data pop_mode) (fun _ =>
            bind (update_user_data pop_update_repo_name) (fun _ =>
            bind (update_user_data pop_use_template) (fun _ =>
              if negb (truthy_opt (ud_update_repo_name d)) then
                reply_text "Terjadi kesalahan: nama repository untuk di-update tidak ditemukan."
              else run_update_workflow doc (default "" (ud_update_repo_name d))
                     (default false (ud_use_template d)))))).
Proof.
  apply steady_bind; [apply steady_update_user_data|]. intros _.
  apply steady_bind; [apply steady_update_user_data|]. intros _.
  apply steady_bind; [apply steady_update_user_data|]. intros _.
  destruct (truthy_opt (ud_update_repo_name d)); cbn [negb];
    [apply steady_run_update_workflow | steady_client].
Qed.

(** Every handler is its body behind the gate, and the body leaves [f] as
    it was, also when it raises. *)
Lemma dispatch_gated_body (upd : update) :
  exists body, dispatch upd = gated upd body /\ preserves f body.
Proof.
  destruct (incoming upd) as [c text args|doc|text] eqn:Hin.
  - apply command_gated_body. intros doc. rewrite Hin. discriminate.
  - unfold dispatch. rewrite Hin. eexists. split; [reflexivity|].
    apply preserves_bind; [apply steady_preserves; steady_client|]. intros d.
    destruct (mode_is "update" d);
      [apply steady_preserves, steady_update_branch|].
    destruct (mode_is "upload" d); cbn [negb];
      [apply preserves_create_workflow | apply steady_preserves; steady_client].
  - apply command_gated_body. intros doc. rewrite Hin. discriminate.
Qed.

End WithUserData.
End WithCounter.
End WorkflowFrames.

(** ** What a handler does to the state of the bot *)

Section HandlerInvariants.
Context `{E : Env}.

Lemma run_bind_gets {A B} (g : state -> A) (k : A -> prog B) st :
  bind (gets g) k st = k (g st) st.
Proof. reflexivity. Qed.

Lemma blind_unit : client_blind (fun _ : state => tt).
Proof. now repeat split. Qed.

Lemma blind_last_message_time : client_blind last_message_time.
Proof. now repeat split. Qed.

Lemma blind_upload_counter : client_blind upload_counter.
Proof. now repeat split. Qed.

Lemma blind_udata : client_blind udata.
Proof. now repeat split. Qed.

(** X5. The rate-limiter map is written by the gate only, and only at the
    key of the owner: after any handler the map is the one before, or
    the one before with the current time stored for the owner. *)
Theorem dispatch_writes_limiter_for_owner_only (upd : update) (st : state) :
  let st' := snd (dispatch upd st) in
  (last_message_time st' = last_message_time st \/
   last_message_time st'
   = <[OWNER_ID := time_time (world st)]> (last_message_time st)) /\
  (forall user, user <> OWNER_ID ->
     last_message_time st' !! user = last_message_time st !! user).
Proof.
  cbv zeta.
  destruct (dispatch_gated_body last_message_time blind_last_message_time
              (fun _ _ => eq_refl) (fun _ _ => eq_refl) upd)
    as (body & -> & Hbody).
  destruct (gate_accepts upd st) eqn:Hgate.
  - rewrite gated_accepted by exact Hgate.
    rewrite (Hbody (accepted_state st)). cbn. split; [now right|].
    intros user Hne. apply lookup_insert_ne. congruence.
  - rewrite gated_rejected by exact Hgate. cbn. split; [now left | reflexivity].
Qed.

Lemma adds_of_preserves {A} (c : prog A) :
  preserves upload_counter c -> adds_at_most_one c.
Proof. intros H st. left. apply H. Qed.

Lemma adds_bind {A B} (c : prog A) (k : A -> prog B) :
  preserves upload_counter c -> (forall a, adds_at_most_one (k a)) ->
  adds_at_most_one (bind c k).
Proof.
  intros Hc Hk st. unfold bind. specialize (Hc st).
  destruct (c st) as [[a|e] st1]; cbn in Hc; [|now left].
  rewrite <- Hc. apply Hk.
Qed.

Lemma adds_try_except {A} (c : prog A) (h : exn -> prog A) :
  adds_at_most_one c -> (forall e, preserves upload_counter (h e)) ->
  adds_at_most_one (try_except c h).
Proof.
  intros Hc Hh st. unfold try_except. specialize (Hc st).
  destruct (c st) as [[a|e] st1]; cbn in Hc; [exact Hc|].
  rewrite Hh. exact Hc.
Qed.

Ltac keep_counter :=
  apply steady_preserves;
  first [ apply steady_ret | apply steady_gets
        | apply steady_reply_text | apply steady_edit_text
        | apply steady_get_username | apply steady_upload_files
        | apply steady_create_repository ];
  exact blind_upload_counter.

Lemma adds_upload_stage project_name use_template d :
  adds_at_most_one (upload_stage project_name use_template d).
Proof.
  unfold upload_stage.
  apply adds_bind; [apply preserves_on_disk|]. intros written.
  apply adds_bind; [keep_counter|]. intros success.
  destruct success; [|apply adds_of_preserves; keep_counter].
  intros st. right. unfold bind at 1, modify at 1. cbv beta iota.
  assert (Hrest : preserves upload_counter
            (bind get_username (fun username =>
             bind (gets upload_counter) (fun counter =>
               edit_text (upload_success_text project_name username
                                              use_template counter))))).
  { apply preserves_bind; [keep_counter|]. intros username.
    apply preserves_bind; [keep_counter|]. intros counter. keep_counter. }
  now rewrite Hrest.
Qed.

Lemma adds_create_steps doc project_name use_template :
  adds_at_most_one (create_steps doc project_name use_template).
Proof.
  unfold create_steps.
  apply adds_bind; [apply preserves_download, blind_upload_counter|]. intros zip_bytes.
  apply adds_bind; [keep_counter|]. intros _.
  apply adds_bind; [apply preserves_extractall|]. intros extract_dir.
  apply adds_bind; [apply preserves_on_disk|]. intros fixed.
  apply adds_bind; [keep_counter|]. intros _.
  apply adds_bind; [keep_counter|]. intros now.
  apply adds_bind; [keep_counter|]. intros created.
  destruct created; cbn [negb]; [|apply adds_of_preserves; keep_counter].
  apply adds_bind; [keep_counter|]. intros _. apply adds_upload_stage.
Qed.

Lemma adds_create_workflow doc : adds_at_most_one (create_workflow doc).
Proof.
  unfold create_workflow.
  destruct (file_name doc) as [name|];
    [|apply adds_of_preserves, preserves_raise].
  destruct (Py.endswith name ".zip"); cbn [negb];
    [|apply adds_of_preserves; keep_counter].
  destruct (file_size doc) as [size|];
    [|apply adds_of_preserves, preserves_raise].
  destruct (Config.MAX_FILE_SIZE <? size);
    [apply adds_of_preserves; keep_counter|].
  apply adds_bind; [keep_counter|]. intros use_template.
  apply adds_bind.
  { apply steady_preserves, steady_update_user_data. reflexivity. }
  intros _. apply adds_bind.
  { apply steady_preserves, steady_update_user_data. reflexivity. }
  intros _. apply adds_bind; [keep_counter|]. intros _.
  apply adds_try_except; [apply adds_create_steps|]. intros e. keep_counter.
Qed.

(** X6. A handler leaves the upload counter as it was or adds exactly
    one; it adds one only for a document that passes the tests of the
    create workflow, sent while the create mode is armed. *)
Theorem dispatch_counts_uploads_only (upd : update) (st : state) :
  let st' := snd (dispatch upd st) in
  upload_counter st' = upload_counter st \/
  (upload_counter st' = upload_counter st + 1 /\
   gate_accepts upd st = true /\
   exists doc, incoming upd = DocumentUpload doc /\
               mode_is "upload" (udata st) = true /\
               valid_archive doc = true).
Proof.
  cbv zeta.
  destruct (gate_accepts upd st) eqn:Hgate;
    [|rewrite dispatch_rejected by exact Hgate; now left].
  destruct (incoming upd) as [c text args|doc|text] eqn:Hin.
  1, 3: left;
    destruct (command_gated_body upload_counter blind_upload_counter
                (fun _ _ => eq_refl) upd) as (body & -> & Hbody);
      [intros doc; rewrite Hin; discriminate|];
    rewrite gated_accepted by exact Hgate;
    exact (Hbody (accepted_state st)).
  unfold dispatch. rewrite Hin. unfold handle_document.
  rewrite gated_accepted by exact Hgate.
  rewrite run_bind_gets.
  change (udata (accepted_state st)) with (udata st).
  destruct (mode_is "update" (udata st)) eqn:Hupdate.
  - left.
    destruct (steady_update_branch upload_counter blind_upload_counter
                (fun _ _ => eq_refl) doc (udata st) (accepted_state st))
      as ([] & st' & -> & Hkeep). exact Hkeep.
  - destruct (mode_is "upload" (udata st)) eqn:Hupload; cbn [negb];
      [|now left].
    destruct (valid_archive doc) eqn:Hvalid.
    + destruct (adds_create_workflow doc (accepted_state st)) as [H|H].
      * left. exact H.
      * right. split; [exact H|]. split; [reflexivity|]. now exists doc.
    + left. unfold create_workflow. unfold valid_archive in Hvalid.
      destruct (file_name doc) as [name|]; [|reflexivity].
      destruct (Py.endswith name ".zip"); cbn [negb andb] in *; [|reflexivity].
      destruct (file_size doc) as [size|]; [|reflexivity].
      destruct (Config.MAX_FILE_SIZE <? size); [reflexivity|discriminate].
Qed.

End HandlerInvariants.

(** ** The armed mode and the document *)

Section ArmedMode.
Context `{E : Env}.

Lemma run_bind_modify {B} (g : state -> state) (k : unit -> prog B) st :
  bind (modify g) k st = k tt (g st).
Proof. reflexivity. Qed.

Lemma handle_document_accepted upd doc st :
  gate_accepts upd st = true ->
  handle_document upd doc st =
  (if mode_is "update" (udata st) then
     bind (update_user_data pop_mode) (fun _ =>
     bind (update_user_data pop_update_repo_name) (fun _ =>
     bind (update_user_data pop_use_template) (fun _ =>
       if negb (truthy_opt (ud_update_repo_name (udata st))) then
         reply_text "Terjadi kesalahan: nama repository untuk di-update tidak ditemukan."
       else run_update_workflow doc (default "" (ud_update_repo_name (udata st)))
              (default false (ud_use_template (udata st))))))
   else if negb (mode_is "upload" (udata st)) then
     reply_text "Untuk mengunggah atau memperbarui, silakan gunakan perintah /upload atau /upd_repo terlebih dahulu."
   else create_workflow doc) (accepted_state st).
Proof.
  intros Hgate. unfold handle_document.
  rewrite gated_accepted by exact Hgate. now rewrite run_bind_gets.
Qed.

(** X8. The armed mode is used once.  An accepted document sent while the
    refresh is armed clears the whole pending state, whatever happens in
    the workflow; one that passes the tests while the create mode is
    armed clears the mode and the template flag.  Any other accepted
    document leaves the pending state as it was: without a mode nothing is
    armed afterwards either, and a document that fails the tests of the
    create workflow leaves the create mode armed. *)
Theorem handle_document_uses_mode_once (upd : update) (doc : document)
    (st : state) :
  gate_accepts upd st = true ->
  let st' := snd (handle_document upd doc st) in
  (mode_is "update" (udata st) = true -> udata st' = UserData None None None) /\
  (mode_is "update" (udata st) = false ->
   mode_is "upload" (udata st) = true -> valid_archive doc = true ->
   udata st' = UserData None (ud_update_repo_name (udata st)) None) /\
  (mode_is "update" (udata st) = false ->
   mode_is "upload" (udata st) = false \/ valid_archive doc = false ->
   udata st' = udata st).
Proof.
  intros Hgate st'. subst st'. rewrite handle_document_accepted by exact Hgate.
  split; [|split].
  - intros ->. unfold update_user_data. rewrite !run_bind_modify.
    match goal with
    | |- udata (snd (?c ?s)) = _ =>
        assert (Hc : steady udata c);
        [| destruct (Hc s) as ([] & st' & -> & Hkeep); exact Hkeep]
    end.
    destruct (truthy_opt (ud_update_repo_name (udata st))); cbn [negb].
    + apply steady_run_update_workflow, blind_udata.
    + apply steady_reply_text, blind_udata.
  - intros -> -> Hvalid. cbn [negb]. unfold create_workflow.
    unfold valid_archive in Hvalid.
    destruct (file_name doc) as [name|]; [|discriminate].
    destruct (file_size doc) as [size|]; [|discriminate].
    apply andb_true_iff in Hvalid as [Hzip Hsize].
    rewrite Hzip. cbn [negb]. apply negb_true_iff in Hsize. rewrite Hsize.
    rewrite run_bind_gets. unfold update_user_data. rewrite !run_bind_modify.
    match goal with
    | |- udata (snd (bind (reply_text ?t) ?k ?s)) = _ =>
        assert (Hc : steady udata (bind (reply_text t) k));
        [| destruct (Hc s) as ([] & st' & -> & Hkeep); exact Hkeep]
    end.
    apply steady_bind; [apply steady_reply_text, blind_udata|]. intros _.
    apply steady_try_except.
    + apply preserves_create_steps; [apply blind_udata | reflexivity].
    + intros e. apply steady_edit_text, blind_udata.
  - intros -> Hother.
    destruct (mode_is "upload" (udata st)) eqn:Hupload; cbn [negb];
      [|reflexivity].
    destruct Hother as [Hno|Hinvalid]; [discriminate|].
    unfold create_workflow. unfold valid_archive in Hinvalid.
    destruct (file_name doc) as [name|]; [|reflexivity].
    destruct (Py.endswith name ".zip"); cbn [negb andb] in *; [|reflexivity].
    destruct (file_size doc) as [size|]; [|reflexivity].
    apply negb_false_iff in Hinvalid. now rewrite Hinvalid.
Qed.

(** X9. While the create mode is armed, a document whose name does not
    end in [.zip], or whose name does and whose size is over 20 MiB, gets
    one reply that names the defect.  Nothing is downloaded, no request is
    sent, and the mode stays armed: besides the reply only the time of the
    gate changes.  (The size of a document whose name fails the test is
    not looked at, and may be missing.) *)
Theorem create_mode_rejects_invalid_document (upd : update) (doc : document)
    (name : string) (size : Z) (st : state) :
  gate_accepts upd st = true ->
  ud_mode (udata st) = Some "upload" ->
  file_name doc = Some name ->
  Py.endswith name ".zip" = false \/
  (file_size doc = Some size /\ Config.MAX_FILE_SIZE < size) ->
  let text := if Py.endswith name ".zip"
              then too_large_text else not_zip_text in
  handle_document upd doc st
  = (Ok tt, set_trace (trace st ++ [EvReply text])%list (accepted_state st)) /\
  udata (snd (handle_document upd doc st)) = udata st.
Proof.
  intros Hgate Hmode Hname Hbad text. subst text.
  rewrite handle_document_accepted by exact Hgate.
  unfold mode_is. rewrite Hmode. cbn [String.eqb Ascii.eqb Bool.eqb negb].
  unfold create_workflow. rewrite Hname.
  destruct (Py.endswith name ".zip") eqn:Hzip; cbn [negb].
  - destruct Hbad as [Hbad|[Hsize Hbad]]; [discriminate|].
    rewrite Hsize. apply Z.ltb_lt in Hbad. rewrite Hbad. split; reflexivity.
  - split; reflexivity.
Qed.

End ArmedMode.

Section ArmedModeScenario.
#[local] Existing Instance demo_env.

Lemma handle_document_uses_mode_once_witness :
  let st := set_udata (UserData (Some "upload") None (Some false)) demo_state in
  let doc := Document (Some "demo.zip") (Some 51200) "file-1" in
  gate_accepts owner_demo_zip st = true /\
  let st' := snd (handle_document owner_demo_zip doc st) in
  (mode_is "update" (udata st) = true -> udata st' = UserData None None None) /\
  (mode_is "update" (udata st) = false ->
   mode_is "upload" (udata st) = true -> valid_archive doc = true ->
   udata st' = UserData None (ud_update_repo_name (udata st)) None) /\
  (mode_is "update" (udata st) = false ->
   mode_is "upload" (udata st) = false \/ valid_archive doc = false ->
   udata st' = udata st).
Proof.
  cbv zeta.
  assert (Hgate : gate_accepts owner_demo_zip
            (set_udata (UserData (Some "upload") None (Some false)) demo_state)
          = true) by (vm_compute; reflexivity).
  split; [exact Hgate|].
  exact (handle_document_uses_mode_once owner_demo_zip
           (Document (Some "demo.zip") (Some 51200) "file-1") _ Hgate).
Defined.

Lemma create_mode_rejects_invalid_document_witness :
  let st := set_udata (UserData (Some "upload") None (Some false)) demo_state in
  let doc := Document (Some "notes.txt") None "file-2" in
  let upd := Update (Some 42) (DocumentUpload doc) in
  gate_accepts upd st = true /\
  ud_mode (udata st) = Some "upload" /\
  file_name doc = Some "notes.txt" /\
  (Py.endswith "notes.txt" ".zip" = false \/
   (file_size doc = Some 0 /\ Config.MAX_FILE_SIZE < 0)) /\
  handle_document upd doc st
  = (Ok tt, set_trace (trace st ++ [EvReply not_zip_text])%list (accepted_state st)) /\
  udata (snd (handle_document upd doc st)) = udata st.
Proof.
  cbv zeta.
  assert (Hgate : gate_accepts
            (Update (Some 42)
               (DocumentUpload (Document (Some "notes.txt") None "file-2")))
            (set_udata (UserData (Some "upload") None (Some false)) demo_state)
          = true) by (vm_compute; reflexivity).
  split; [exact Hgate|]. split; [reflexivity|]. split; [reflexivity|].
  split; [left; reflexivity|].
  exact (create_mode_rejects_invalid_document _
           (Document (Some "notes.txt") None "file-2") "notes.txt" 0 _
           Hgate eq_refl eq_refl (or_introl eq_refl)).
Defined.

End ArmedModeScenario.

(** ** The client without a login, and with a failing listing *)

Section ClientEdges.
Context `{E : Env}.

(** X1. [get_username] sends at most one request.  With a login in the
    cache it sends none and returns the cached login.  Without one it
    sends the request for the user, and returns a login exactly when the
    answer has status 200 and a body with that login.  A login that it
    returns is cached: the next call returns it without a request.  A
    failed resolution is not cached, so the next call asks again. *)
Theorem get_username_resolves_once (st : state) :
  exists (u : option string) (st1 : state) (evs : list event),
    get_username st = (Ok u, st1) /\
    trace st1 = (trace st ++ evs)%list /\
    (evs = [] \/ exists r, evs = [EvHttp user_request r]) /\
    (truthy_opt (gh_username st) = true ->
       evs = [] /\ u = gh_username st /\ st1 = st) /\
    (truthy_opt (gh_username st) = false ->
       let answer := fst (http user_request (world st)) in
       evs = [EvHttp user_request answer] /\
       forall login,
         u = Some login <->
         exists resp, answer = Some resp /\ status resp = 200 /\
                      json_body resp = PUser login) /\
    (truthy_opt u = true -> get_username st1 = (Ok u, st1)) /\
    (truthy_opt u = false -> truthy_opt (gh_username st1) = false).
Proof.
  destruct (get_username_spec st)
    as (u & st1 & evs & Hrun & Htr & Hshape & Hcache & Hkeep & _).
  exists u, st1, evs. split; [exact Hrun|]. split; [exact Htr|].
  split; [exact Hshape|]. split; [|split; [|split]].
  - intros Hc. destruct (Hkeep Hc) as [-> ->].
    rewrite <- (app_nil_r (trace st)) in Htr at 1.
    apply app_inv_head in Htr. auto.
  - intros Hc answer. subst answer. revert Hrun Htr.
    unfold get_username, bind, gets. rewrite Hc. unfold http_request.
    destruct (http user_request (world st)) as [r w']. cbn [fst].
    clear Hcache Hkeep.
    destruct r as [resp|].
    + destruct (Z.eqb_spec (status resp) 200) as [Hs|Hs].
      * destruct (json_body resp) as [|login0| | | |] eqn:Hb;
          unfold ret, modify; cbn; intros [= <- <-] Htr; cbn in Htr;
          apply app_inv_head in Htr; (split; [now symmetry|]);
          intros login; split;
          try discriminate;
          try (intros (resp' & [= <-] & _ & Hb'); congruence).
        intros [= <-]. now exists resp.
      * unfold ret. intros [= <- <-] Htr. cbn in Htr.
        apply app_inv_head in Htr.
        split; [now symmetry|]. intros login.
        split; [discriminate|]. intros (resp' & [= <-] & Hs' & _). contradiction.
    + unfold ret. intros [= <- <-] Htr. cbn in Htr.
      apply app_inv_head in Htr.
      split; [now symmetry|]. intros login.
      split; [discriminate|]. intros (resp' & Hno & _). discriminate.
  - intros Hu. pose proof (Hcache Hu) as Hc.
    rewrite get_username_cached by (rewrite Hc; exact Hu). now rewrite Hc.
  - intros Hu. exact (get_username_unresolved st u st1 Hrun Hu).
Qed.

(** X3. Without a login nothing is asked of a repository: when the login
    cannot be resolved, every operation that needs it returns its failure
    value, and the only request it has sent is the one for the user. *)
Theorem no_login_no_repository_request (st : state) (u : option string)
    (st1 : state) :
  get_username st = (Ok u, st1) -> truthy_opt u = false ->
  (forall repo_name file, delete_file repo_name file st = (Ok false, st1)) /\
  (forall repo_name, delete_repository repo_name st = (Ok false, st1)) /\
  (forall repo_name, get_repository_info repo_name st = (Ok None, st1)) /\
  (forall repo_name path,
     get_repository_contents repo_name path st = (Ok None, st1)) /\
  (forall repo_name private,
     set_repository_visibility repo_name private st = (Ok false, st1)) /\
  (forall repo_name source_dir,
     upload_files repo_name source_dir st = (Ok false, st1)) /\
  (forall repo_name, clear_repository_contents repo_name st = (Ok true, st1)).
Proof.
  intros Hrun Hu.
  assert (Hcontents : forall repo_name path,
            get_repository_contents repo_name path st = (Ok None, st1)).
  { intros. unfold get_repository_contents, get_repository_contents_via, bind.
    now rewrite Hrun, Hu. }
  repeat split; intros.
  - unfold delete_file, bind. now rewrite Hrun, Hu.
  - unfold delete_repository, bind. now rewrite Hrun, Hu.
  - unfold get_repository_info, bind. now rewrite Hrun, Hu.
  - apply Hcontents.
  - unfold set_repository_visibility, bind. now rewrite Hrun, Hu.
  - unfold upload_files, bind. rewrite Hrun.
    destruct u as [u|]; [|reflexivity]. cbn in Hu. now rewrite Hu.
  - unfold clear_repository_contents, try_except, find_files_recursively, bind.
    now rewrite Hcontents.
Qed.

Lemma get_repository_contents_cached repo_name path st login :
  gh_username st = Some login -> Py.truthy login = true ->
  get_repository_contents repo_name path st
  = (Ok (contents_of_response
           (fst (http (contents_request login repo_name path) (world st)))),
     snd (http_request (contents_request login repo_name path) st)).
Proof.
  intros Hu Ht. unfold get_repository_contents, get_repository_contents_via.
  unfold bind at 1. rewrite get_username_cached by (rewrite Hu; exact Ht).
  rewrite Hu. cbn [truthy_opt]. rewrite Ht. cbn [default from_option id].
  unfold bind, http_request.
  now destruct (http (contents_request login repo_name path) (world st)).
Qed.

(** X2. A listing of the root that fails is taken for an empty
    repository: when its answer has a status other than 200 (404, but also
    401 or 500) or the request raises, [clear_repository_contents] returns
    [True]; the listing is the only request it has sent and nothing was
    deleted. *)
Theorem clear_repository_contents_true_when_listing_fails
    (repo_name login : string) (st : state) :
  gh_username st = Some login -> Py.truthy login = true ->
  let req := contents_request login repo_name "" in
  let answer := fst (http req (world st)) in
  (forall resp, answer = Some resp -> status resp <> 200) ->
  exists st',
    clear_repository_contents repo_name st = (Ok true, st') /\
    trace st' = (trace st ++ [EvHttp req answer])%list.
Proof.
  intros Hu Ht req answer Hfail.
  exists (snd (http_request req st)).
  unfold clear_repository_contents, try_except, find_files_recursively, bind.
  rewrite (get_repository_contents_cached _ _ _ login Hu Ht).
  fold req. fold answer.
  assert (Hnone : no_contents (contents_of_response answer) = true).
  { unfold contents_of_response. destruct answer as [resp|] eqn:Ha; [|reflexivity].
    specialize (Hfail resp eq_refl).
    destruct (Z.eqb_spec (status resp) 200) as [H|_]; [contradiction|].
    now destruct (status resp =? 404). }
  split.
  - now rewrite Hnone.
  - unfold http_request, answer. now destruct (http req (world st)).
Qed.

(** X10. A directory without files, or a directory that does not exist,
    is a failed upload: [upload_files] sends no upload request and
    returns [False]. *)
Theorem upload_files_nothing_to_upload (repo_name : string)
    (source_dir : FS.fs) (st : state) :
  os_walk_files source_dir = [] ->
  exists st' lookup,
    upload_files repo_name source_dir st = (Ok false, st') /\
    trace st' = (trace st ++ lookup)%list /\
    (lookup = [] \/ exists r, lookup = [EvHttp user_request r]).
Proof.
  intros Hempty.
  destruct (upload_files_spec repo_name source_dir st)
    as (ok & st' & lookup & answers & u & Hrun & Htr & Hshape & Hok & Hlogin & _).
  assert (Hnone : answers = []).
  { destruct Hlogin as [(_ & _ & Hlen)|[Hno _]]; [|exact Hno].
    rewrite Hempty in Hlen. now destruct answers. }
  subst answers. exists st', lookup. rewrite Hrun, Hok.
  split; [reflexivity|]. split; [|exact Hshape].
  rewrite Htr. unfold uploads. now rewrite zip_with_nil_r, app_nil_r.
Qed.

(** X4. The cooldown between two events of the owner: after an accepted
    event, an event of the owner that finds the rate-limiter map as the
    first left it is accepted exactly when at least 2 seconds have passed
    between the two. *)
Theorem cooldown_between_two_events (upd1 upd2 : update) (st st2 : state) :
  fst (_is_authorized_and_not_rate_limited upd1 st) = Ok true ->
  effective_user upd2 = Some OWNER_ID ->
  last_message_time st2
  = last_message_time (snd (_is_authorized_and_not_rate_limited upd1 st)) ->
  (fst (_is_authorized_and_not_rate_limited upd2 st2) = Ok true <->
   (2 <= time_time (world st2) - time_time (world st))%Q).
Proof.
  rewrite !gate_unfold. cbn [fst snd]. intros [= Hfirst] Howner Hmap.
  rewrite Hfirst in Hmap.
  unfold gate_accepts. rewrite Howner, Z.eqb_refl. cbn [andb].
  unfold last_accepted. rewrite Hmap. cbn. rewrite lookup_insert_eq. cbn.
  rewrite <- Qle_bool_iff. unfold rate_limit_seconds.
  split; [intros [= H]; exact H | intros H; now rewrite H].
Qed.

End ClientEdges.

Section ClientEdgeScenarios.

Lemma no_login_no_repository_request_witness :
  let st1 := snd (@get_username failing_env failing_state) in
  @get_username failing_env failing_state = (Ok None, st1) /\
  truthy_opt None = false /\
  (forall repo_name source_dir,
     @upload_files failing_env repo_name source_dir failing_state = (Ok false, st1)) /\
  (forall repo_name,
     @clear_repository_contents failing_env repo_name failing_state = (Ok true, st1)).
Proof.
  cbv zeta. split; [reflexivity|]. split; [reflexivity|].
  pose proof (@no_login_no_repository_request failing_env failing_state None
                (snd (@get_username failing_env failing_state)) eq_refl eq_refl)
    as H.
  split; apply H.
Defined.

Lemma clear_repository_contents_true_when_listing_fails_witness :
  let st := @set_gh_username failing_env (Some "octocat") failing_state in
  let req := contents_request "octocat" "demo" "" in
  @gh_username failing_env st = Some "octocat" /\
  Py.truthy "octocat" = true /\
  (forall resp, fst (@http failing_env req (@world failing_env st)) = Some resp ->
                status resp <> 200) /\
  exists st',
    @clear_repository_contents failing_env "demo" st = (Ok true, st') /\
    @trace failing_env st'
    = (@trace failing_env st ++ [EvHttp req (Some (Response 500 PNone))])%list.
Proof.
  cbv zeta.
  assert (Hfail : forall resp,
            fst (@http failing_env (contents_request "octocat" "demo" "")
                   (@world failing_env
                      (@set_gh_username failing_env (Some "octocat") failing_state)))
            = Some resp -> status resp <> 200).
  { intros resp [= <-]. discriminate. }
  split; [reflexivity|]. split; [reflexivity|]. split; [exact Hfail|].
  exact (@clear_repository_contents_true_when_listing_fails failing_env
           "demo" "octocat"
           (@set_gh_username failing_env (Some "octocat") failing_state)
           eq_refl eq_refl Hfail).
Defined.

Lemma upload_files_nothing_to_upload_witness :
  os_walk_files (Some (Dir [("docs", Dir [])])) = [] /\
  exists st' lookup,
    @upload_files demo_env "demo" (Some (Dir [("docs", Dir [])])) demo_state
    = (Ok false, st') /\
    @trace demo_env st' = (@trace demo_env demo_state ++ lookup)%list /\
    (lookup = [] \/ exists r, lookup = [EvHttp user_request r]).
Proof.
  split; [reflexivity|].
  exact (@upload_files_nothing_to_upload demo_env "demo"
           (Some (Dir [("docs", Dir [])])) demo_state eq_refl).
Defined.

Lemma cooldown_between_two_events_witness :
  let st := demo_state in
  let st2 := later 1 (snd (@_is_authorized_and_not_rate_limited demo_env
                             owner_upload_command st)) in
  fst (@_is_authorized_and_not_rate_limited demo_env owner_upload_command st)
  = Ok true /\
  effective_user owner_demo_zip = Some (@OWNER_ID demo_env) /\
  @last_message_time demo_env st2
  = @last_message_time demo_env
      (snd (@_is_authorized_and_not_rate_limited demo_env owner_upload_command st)) /\
  (fst (@_is_authorized_and_not_rate_limited demo_env owner_demo_zip st2) = Ok true <->
   (2 <= @time_time demo_env (@world demo_env st2)
         - @time_time demo_env (@world demo_env st))%Q).
Proof.
  cbv zeta.
  assert (H1 : fst (@_is_authorized_and_not_rate_limited demo_env
                      owner_upload_command demo_state) = Ok true)
    by (vm_compute; reflexivity).
  split; [exact H1|]. split; [reflexivity|]. split; [reflexivity|].
  exact (@cooldown_between_two_events demo_env owner_upload_command
           owner_demo_zip demo_state
           (later 1 (snd (@_is_authorized_and_not_rate_limited demo_env
                            owner_upload_command demo_state)))
           H1 eq_refl eq_refl).
Defined.

End ClientEdgeScenarios.

(** ** Where the workflows stop *)

Section WorkflowAborts.
Context `{E : Env}.

(** X11. The refresh stops at a failed clearing.  For a document with a
    name, when the download, the extraction and the layout fix succeed and
    [clear_repository_contents] returns [False], the workflow ends with
    the reply that the clearing failed: after the clearing it sends
    nothing else, so no file is uploaded. *)
Theorem update_workflow_stops_when_clearing_fails (doc : document)
    (name repo_name : string) (use_template : bool) (st : state)
    (zip_bytes : string) (w1 : W) (d d' : FS.fs) :
  file_name doc = Some name ->
  download_to_drive (file_id doc) (world st) = (Ok zip_bytes, w1) ->
  zip_extractall zip_bytes = Ok d ->
  check_and_fix_zip_structure d = (Ok tt, d') ->
  let st1 := with_events (update_progress doc repo_name) (set_world w1 st) in
  let cleared := clear_repository_contents repo_name st1 in
  fst cleared = Ok false ->
  run_update_workflow doc repo_name use_template st
  = (Ok tt, with_events [EvEdit (clearing_failed_text repo_name)] (snd cleared)).
Proof.
  intros Hname Hdl Hzip Hfix st1 cleared Hfalse.
  unfold run_update_workflow.
  unfold bind at 1. unfold reply_text at 1, emit at 1, modify at 1. cbv beta iota.
  unfold try_except, update_steps.
  unfold bind at 1. unfold zip_path at 1. rewrite Hname. unfold ret at 1.
  cbv beta iota.
  unfold bind at 1. unfold download at 1. cbn [world set_trace]. rewrite Hdl.
  unfold bind at 1. unfold edit_text at 1, emit at 1, modify at 1. cbv beta iota.
  unfold bind at 1. unfold extractall at 1. rewrite Hzip. unfold ret at 1.
  cbv beta iota.
  unfold bind at 1. rewrite (on_disk_ok _ d tt d' _ Hfix). cbn [snd].
  unfold bind at 1. unfold edit_text at 1, emit at 1, modify at 1. cbv beta iota.
  unfold bind at 1.
  match goal with
  | |- context [clear_repository_contents repo_name ?s] =>
      replace s with st1
        by (unfold st1, with_events, update_progress, set_trace, set_world; cbn;
            now rewrite <- !app_assoc)
  end.
  fold cleared. destruct cleared as [r st2]. cbn [fst snd] in *. subst r.
  reflexivity.
Qed.

(** X13. The create workflow stops at a failed creation.  For a document
    that passes the tests, when the download, the extraction and the
    layout fix succeed and [create_repository] returns [False], the
    workflow ends with the reply that the creation failed: nothing is
    uploaded and the upload counter is as before. *)
Theorem create_workflow_stops_when_creation_fails (doc : document)
    (name : string) (st : state) (zip_bytes : string) (w1 : W) (d d' : FS.fs) :
  file_name doc = Some name ->
  valid_archive doc = true ->
  download_to_drive (file_id doc) (world st) = (Ok zip_bytes, w1) ->
  zip_extractall zip_bytes = Ok d ->
  check_and_fix_zip_structure d = (Ok tt, d') ->
  let project_name := Py.replace name ".zip" "" in
  let use_template := default false (ud_use_template (udata st)) in
  let st1 := with_events (create_progress doc project_name use_template)
               (set_world w1
                  (set_udata (pop_use_template (pop_mode (udata st))) st)) in
  let created := create_repository project_name
                   ("Project uploaded via Telegram Bot on " +:+
                    strftime_now (world st1)) st1 in
  fst created = Ok false ->
  create_workflow doc st
  = (Ok tt, with_events [EvEdit (creation_failed_text project_name)] (snd created)) /\
  upload_counter (snd (create_workflow doc st)) = upload_counter st.
Proof.
  intros Hdoc Hvalid Hdl Hzip Hfix project_name use_template st1 created Hfalse.
  unfold valid_archive in Hvalid. rewrite Hdoc in Hvalid.
  destruct (file_size doc) as [size|] eqn:Hdocsize; [|discriminate].
  apply andb_true_iff in Hvalid as [Hname Hsize].
  apply negb_true_iff in Hsize.
  assert (Hrun : create_workflow doc st
            = (Ok tt, with_events [EvEdit (creation_failed_text project_name)]
                                  (snd created))).
  { unfold create_workflow. rewrite Hdoc, Hname, Hdocsize, Hsize. cbn [negb].
    fold project_name.
    rewrite run_bind_gets. unfold update_user_data. rewrite !run_bind_modify.
    unfold bind at 1. unfold reply_text at 1, emit at 1, modify at 1. cbv beta iota.
    unfold try_except, create_steps.
    unfold bind at 1. unfold download at 1. cbn [world set_trace set_udata]. rewrite Hdl.
    unfold bind at 1. unfold edit_text at 1, emit at 1, modify at 1. cbv beta iota.
    unfold bind at 1. unfold extractall at 1. rewrite Hzip. unfold ret at 1.
    cbv beta iota.
    unfold bind at 1. rewrite (on_disk_ok _ d tt d' _ Hfix). cbn [snd].
    unfold bind at 1. unfold edit_text at 1, emit at 1, modify at 1. cbv beta iota.
    rewrite run_bind_gets.
    unfold bind at 1.
    match goal with
    | |- context [create_repository project_name _ ?s] =>
        replace s with st1
          by (unfold st1, with_events, create_progress, use_template,
                set_trace, set_world, set_udata; cbn;
              now rewrite <- !app_assoc)
    end.
    fold created. destruct created as [r st2]. cbn [fst snd] in *. subst r.
    reflexivity. }
  split; [exact Hrun|]. rewrite Hrun. cbn [snd].
  destruct (steady_create_repository upload_counter blind_upload_counter
              project_name
              ("Project uploaded via Telegram Bot on " +:+ strftime_now (world st1))
              st1) as (b & st2 & Hc & Hkeep).
  unfold created. rewrite Hc. cbn. exact Hkeep.
Qed.

End WorkflowAborts.

Section WorkflowAbortScenarios.

Lemma update_workflow_stops_when_clearing_fails_witness :
  let st := protected_state in
  let doc := Document (Some "demo.zip") (Some 51200) "file-1" in
  file_name doc = Some "demo.zip" /\
  @download_to_drive protected_env (file_id doc) (@world protected_env st)
  = (Ok "PK", @world protected_env st) /\
  @zip_extractall protected_env "PK" = Ok (Some (Dir demo_entries)) /\
  check_and_fix_zip_structure (Some (Dir demo_entries))
  = (Ok tt, Some (Dir demo_entries)) /\
  let st1 := @with_events protected_env (update_progress doc "demo")
               (@set_world protected_env (@world protected_env st) st) in
  let cleared := @clear_repository_contents protected_env "demo" st1 in
  fst cleared = Ok false /\
  @run_update_workflow protected_env doc "demo" false st
  = (Ok tt, @with_events protected_env [EvEdit (clearing_failed_text "demo")]
              (snd cleared)).
Proof.
  cbv zeta.
  assert (Hfalse : fst (@clear_repository_contents protected_env "demo"
                          (@with_events protected_env
                             (update_progress (Document (Some "demo.zip") (Some 51200) "file-1") "demo")
                             (@set_world protected_env
                                (@world protected_env protected_state)
                                protected_state))) = Ok false)
    by (vm_compute; reflexivity).
  split; [reflexivity|].
  split; [reflexivity|]. split; [reflexivity|]. split; [reflexivity|].
  split; [exact Hfalse|].
  exact (@update_workflow_stops_when_clearing_fails protected_env
           (Document (Some "demo.zip") (Some 51200) "file-1") "demo.zip" "demo"
           false protected_state
           "PK" (@world protected_env protected_state)
           (Some (Dir demo_entries)) (Some (Dir demo_entries))
           eq_refl eq_refl eq_refl eq_refl Hfalse).
Defined.

(** In [protected_env] the clearing does fail, after one refused
    deletion, and nothing is uploaded. *)
Example refused_deletion_scenario :
  let done := snd (@run_update_workflow protected_env
                     (Document (Some "demo.zip") (Some 51200) "file-1") "demo" false
                     protected_state) in
  List.filter is_delete (@trace protected_env done)
  = deletions "octocat" "demo" [FileInfo "old.txt" "3b18e5"]
              [Some (Response 403 PNone)] /\
  put_summary (@trace protected_env done) = [] /\
  List.last (@trace protected_env done) (EvReply "")
  = EvEdit (clearing_failed_text "demo").
Proof. repeat split; vm_compute; reflexivity. Qed.

Lemma create_workflow_stops_when_creation_fails_witness :
  let st := failing_state in
  let doc := Document (Some "demo.zip") (Some 51200) "file-1" in
  file_name doc = Some "demo.zip" /\
  valid_archive doc = true /\
  @download_to_drive failing_env (file_id doc) (@world failing_env st)
  = (Ok "PK", @world failing_env st) /\
  @zip_extractall failing_env "PK" = Ok (Some (Dir demo_entries)) /\
  check_and_fix_zip_structure (Some (Dir demo_entries))
  = (Ok tt, Some (Dir demo_entries)) /\
  let st1 := @with_events failing_env (create_progress doc "demo" false)
               (@set_world failing_env (@world failing_env st)
                  (@set_udata failing_env
                     (pop_use_template (pop_mode (@udata failing_env st))) st)) in
  let created := @create_repository failing_env "demo"
                   ("Project uploaded via Telegram Bot on " +:+
                    @strftime_now failing_env (@world failing_env st1)) st1 in
  fst created = Ok false /\
  @create_workflow failing_env doc st
  = (Ok tt, @with_events failing_env [EvEdit (creation_failed_text "demo")]
              (snd created)) /\
  @upload_counter failing_env (snd (@create_workflow failing_env doc st))
  = @upload_counter failing_env st.
Proof.
  cbv zeta.
  split; [reflexivity|].
  split; [reflexivity|]. split; [reflexivity|].
  split; [reflexivity|]. split; [reflexivity|].
  split; [vm_compute; reflexivity|].
  exact (@create_workflow_stops_when_creation_fails failing_env
           (Document (Some "demo.zip") (Some 51200) "file-1") "demo.zip"
           failing_state
           "PK" (@world failing_env failing_state)
           (Some (Dir demo_entries)) (Some (Dir demo_entries))
           eq_refl eq_refl eq_refl eq_refl eq_refl eq_refl).
Defined.

End WorkflowAbortScenarios.

(** ** The README of the create workflow *)

Section CreateWorkflowReadme.
Context `{E : Env}.

(** C6. The handler of a document, for an accepted archive that passes
    the tests while the create mode is armed without the template.  When
    the download, the extraction and the layout fix succeed, the root
    has no [README.md] and the repository is created, the file
    [README.md] with the content [# <project-name>], an empty line,
    [Project uploaded via Telegram Bot] and a newline is in the directory
    that [upload_files] walks, so that it is among the files for which
    upload requests are sent.  When the upload succeeds the counter has
    grown by exactly 1 and the last reply contains the URL of the
    repository; when it fails the counter is unchanged. *)
Theorem create_workflow_adds_basic_readme
    (upd : update) (doc : document) (name : string) (st0 : state)
    (zip_bytes : string) (w1 : W) (d : FS.fs)
    (entries : list (string * node)) (st2 : state) :
  gate_accepts upd st0 = true ->
  mode_is "update" (udata st0) = false ->
  mode_is "upload" (udata st0) = true ->
  default false (ud_use_template (udata st0)) = false ->
  file_name doc = Some name ->
  valid_archive doc = true ->
  download_to_drive (file_id doc) (world st0) = (Ok zip_bytes, w1) ->
  zip_extractall zip_bytes = Ok d ->
  check_and_fix_zip_structure d = (Ok tt, Some (Dir entries)) ->
  FS.assoc "README.md" entries = None ->
  let project_name := Py.replace name ".zip" "" in
  let content := "# " +:+ project_name +:+ Py.nl +:+ Py.nl +:+
                 "Project uploaded via Telegram Bot" +:+ Py.nl in
  let staged := Some (Dir (entries ++ [("README.md", File content)])) in
  let st1 := with_events (create_progress doc project_name false)
               (set_world w1
                  (set_udata (pop_use_template (pop_mode (udata st0)))
                             (accepted_state st0))) in
  create_repository project_name
    ("Project uploaded via Telegram Bot on " +:+ strftime_now (world st1)) st1
  = (Ok true, st2) ->
  let st3 := with_events [EvEdit (uploading_text project_name)] st2 in
  In ("README.md", content) (os_walk_files staged) /\
  exists (ok : bool) (st4 st' : state) (lookup : list event)
         (answers : list (option response)) (username : string),
    upload_files project_name staged st3 = (Ok ok, st4) /\
    trace st4 = (trace st3 ++ lookup ++
                 uploads username project_name (os_walk_files staged) answers)%list /\
    (ok = true -> length answers = length (os_walk_files staged)) /\
    handle_document upd doc st0 = (Ok tt, st') /\
    (ok = true ->
       upload_counter st' = upload_counter st0 + 1 /\
       exists login text,
         gh_username st4 = Some login /\
         trace st' = (trace st4 ++ [EvEdit text])%list /\
         occurs_in ("https://github.com/" +:+ login +:+ "/" +:+ project_name) text) /\
    (ok = false ->
       upload_counter st' = upload_counter st0 /\
       trace st' = (trace st4 ++ [EvEdit upload_failure_text])%list).
Proof.
  intros Hgate Hupdate Hupload Htemplate Hdoc Hvalid Hdl Hzip Hfix Habsent
         project_name content staged st1 Hcreate st3.
  split; [apply walk_files_has_root_file|].
  assert (Hstaged : staged_with_readme false project_name
            (basic_readme_uploaded project_name) (Some (Dir entries)) = Some staged).
  { now apply staged_basic_readme. }
  destruct (upload_stage_run project_name false (Some (Dir entries)) staged st3 Hstaged)
    as (ok & st4 & st' & Hrun & Hstage & Htrue & Hfalse).
  destruct (upload_files_spec project_name staged st3)
    as (ok' & st4' & lookup & answers & u & Hrun' & Htr & _ & Hok & Hlogin & _).
  rewrite Hrun in Hrun'. injection Hrun' as <- <-.
  assert (Hcount : upload_counter st3 = upload_counter st0).
  { destruct (steady_create_repository upload_counter blind_upload_counter
                project_name
                ("Project uploaded via Telegram Bot on " +:+ strftime_now (world st1))
                st1) as (b & st2' & Hc & Hkeep).
    rewrite Hcreate in Hc. injection Hc as <- <-.
    unfold st3. cbn. rewrite Hkeep. reflexivity. }
  assert (Hhandler : handle_document upd doc st0 = (Ok tt, st')).
  { rewrite handle_document_accepted by exact Hgate.
    rewrite Hupdate, Hupload. cbn [negb].
    unfold valid_archive in Hvalid. rewrite Hdoc in Hvalid.
    destruct (file_size doc) as [size|] eqn:Hdocsize; [|discriminate].
    apply andb_true_iff in Hvalid as [Hname Hsize].
    apply negb_true_iff in Hsize.
    unfold create_workflow. rewrite Hdoc, Hname, Hdocsize, Hsize. cbn [negb].
    fold project_name.
    rewrite run_bind_gets. unfold update_user_data. rewrite !run_bind_modify.
    cbn [udata accepted_state set_last_message_time]. rewrite Htemplate.
    unfold bind at 1. unfold reply_text at 1, emit at 1, modify at 1. cbv beta iota.
    unfold try_except, create_steps.
    unfold bind at 1. unfold download at 1. cbn [world set_trace set_udata accepted_state
                                                        set_last_message_time].
    rewrite Hdl.
    unfold bind at 1. unfold edit_text at 1, emit at 1, modify at 1. cbv beta iota.
    unfold bind at 1. unfold extractall at 1. rewrite Hzip. unfold ret at 1.
    cbv beta iota.
    unfold bind at 1. rewrite (on_disk_ok _ d tt (Some (Dir entries)) _ Hfix).
    cbn [snd].
    unfold bind at 1. unfold edit_text at 1, emit at 1, modify at 1. cbv beta iota.
    rewrite run_bind_gets.
    unfold bind at 1.
    match goal with
    | |- context [create_repository project_name _ ?s] =>
        replace s with st1
          by (unfold st1, with_events, create_progress, accepted_state,
                set_trace, set_world, set_udata, set_last_message_time; cbn;
              now rewrite <- !app_assoc)
    end.
    rewrite Hcreate. cbn [negb].
    unfold bind at 1. unfold edit_text at 1, emit at 1, modify at 1. cbv beta iota.
    change (set_trace (trace st2 ++ [EvEdit _]) st2) with st3.
    now rewrite Hstage. }
  exists ok, st4, st', lookup, answers, u.
  split; [exact Hrun|]. split; [exact Htr|]. split; [|split; [exact Hhandler|split]].
  - intros Hyes. destruct Hlogin as [(_ & _ & Hlen)|[-> _]]; [exact Hlen|].
    subst ok. discriminate.
  - intros Hyes. destruct (Htrue Hyes) as (Hc & login & Hu & _ & Htr').
    split; [now rewrite Hc, Hcount|].
    exists login, (upload_success_text project_name (Some login) false
                                       (upload_counter st3 + 1)).
    split; [exact Hu|]. split; [exact Htr'|].
    apply (upload_success_text_has_url project_name (Some login)).
  - intros Hno. destruct (Hfalse Hno) as (Hc & Htr').
    split; [now rewrite Hc, Hcount | exact Htr'].
Qed.

End CreateWorkflowReadme.

Section CreateWorkflowReadmeScenario.
#[local] Existing Instance demo_env.

(** The scenario of the specification: the owner has sent [/upload] and
    sends the archive [demo.zip] with the single file [main.py]. *)
Lemma create_workflow_adds_basic_readme_witness :
  let st0 := set_udata (UserData (Some "upload") None (Some false)) demo_state in
  let doc := Document (Some "demo.zip") (Some 51200) "file-1" in
  let content := "# " +:+ "demo" +:+ Py.nl +:+ Py.nl +:+
                 "Project uploaded via Telegram Bot" +:+ Py.nl in
  let staged := Some (Dir (demo_entries ++ [("README.md", File content)])) in
  let st1 := with_events (create_progress doc "demo" false)
               (set_world (world st0)
                  (set_udata (pop_use_template (pop_mode (udata st0)))
                             (accepted_state st0))) in
  let created := create_repository "demo"
                   ("Project uploaded via Telegram Bot on " +:+
                    strftime_now (world st1)) st1 in
  let st3 := with_events [EvEdit (uploading_text "demo")] (snd created) in
  gate_accepts owner_demo_zip st0 = true /\
  mode_is "update" (udata st0) = false /\
  mode_is "upload" (udata st0) = true /\
  default false (ud_use_template (udata st0)) = false /\
  file_name doc = Some "demo.zip" /\
  valid_archive doc = true /\
  download_to_drive (file_id doc) (world st0) = (Ok "PK", world st0) /\
  zip_extractall "PK" = Ok (Some (Dir demo_entries)) /\
  check_and_fix_zip_structure (Some (Dir demo_entries))
  = (Ok tt, Some (Dir demo_entries)) /\
  FS.assoc "README.md" demo_entries = None /\
  created = (Ok true, snd created) /\
  In ("README.md", content) (os_walk_files staged) /\
  exists (ok : bool) (st4 st' : state) (lookup : list event)
         (answers : list (option response)) (username : string),
    upload_files "demo" staged st3 = (Ok ok, st4) /\
    trace st4 = (trace st3 ++ lookup ++
                 uploads username "demo" (os_walk_files staged) answers)%list /\
    (ok = true -> length answers = length (os_walk_files staged)) /\
    handle_document owner_demo_zip doc st0 = (Ok tt, st') /\
    (ok = true ->
       upload_counter st' = upload_counter st0 + 1 /\
       exists login text,
         gh_username st4 = Some login /\
         trace st' = (trace st4 ++ [EvEdit text])%list /\
         occurs_in ("https://github.com/" +:+ login +:+ "/" +:+ "demo") text) /\
    (ok = false ->
       upload_counter st' = upload_counter st0 /\
       trace st' = (trace st4 ++ [EvEdit upload_failure_text])%list).
Proof.
  cbv zeta.
  set (st0 := set_udata (UserData (Some "upload") None (Some false)) demo_state).
  set (doc := Document (Some "demo.zip") (Some 51200) "file-1").
  set (st1 := with_events (create_progress doc "demo" false)
                (set_world (world st0)
                   (set_udata (pop_use_template (pop_mode (udata st0)))
                              (accepted_state st0)))).
  set (created := create_repository "demo"
                    ("Project uploaded via Telegram Bot on " +:+
                     strftime_now (world st1)) st1).
  assert (Hgate : gate_accepts owner_demo_zip st0 = true)
    by (vm_compute; reflexivity).
  assert (Hcreated : created = (Ok true, snd created))
    by (vm_compute; reflexivity).
  split; [exact Hgate|]. split; [reflexivity|]. split; [reflexivity|].
  split; [reflexivity|]. split; [reflexivity|]. split; [reflexivity|].
  split; [reflexivity|]. split; [reflexivity|]. split; [reflexivity|].
  split; [reflexivity|]. split; [exact Hcreated|].
  exact (create_workflow_adds_basic_readme owner_demo_zip doc "demo.zip" st0
           "PK" (world st0) (Some (Dir demo_entries)) demo_entries (snd created)
           Hgate eq_refl eq_refl eq_refl eq_refl eq_refl eq_refl eq_refl eq_refl
           eq_refl Hcreated).
Defined.

End CreateWorkflowReadmeScenario.

(** ** The tally of the languages *)

Section Tally.
Context `{E : Env}.
Import FS.

Lemma dict_get_set_same {V} k (v : V) d : Dict.get k (Dict.set k v d) = Some v.
Proof.
  induction d as [|[k' v'] rest IH]; cbn.
  - now rewrite String.eqb_refl.
  - destruct (String.eqb k' k) eqn:Hk; cbn; rewrite Hk; [reflexivity | exact IH].
Qed.

Lemma dict_set_keys {V} k (v : V) d :
  map fst (Dict.set k v d)
  = if Dict.contains k d then map fst d else (map fst d ++ [k])%list.
Proof.
  unfold Dict.contains. induction d as [|[k' v'] rest IH]; cbn; [reflexivity|].
  destruct (String.eqb k' k) eqn:Hk; cbn; [reflexivity|].
  rewrite IH. now destruct (Dict.get k rest).
Qed.

Lemma dict_get_none_not_in {V} k (d : list (string * V)) :
  Dict.get k d = None -> k ∉ map fst d.
Proof.
  induction d as [|[k' v'] rest IH]; cbn; intros H.
  - apply not_elem_of_nil.
  - destruct (String.eqb_spec k' k) as [->|Hne]; [discriminate|].
    apply not_elem_of_cons. split; [congruence | auto].
Qed.

Lemma dict_set_nodup {V} k (v : V) d :
  NoDup (map fst d) -> NoDup (map fst (Dict.set k v d)).
Proof.
  intros Hnd. rewrite dict_set_keys. unfold Dict.contains.
  destruct (Dict.get k d) eqn:Hget; [exact Hnd|].
  apply NoDup_app. split; [exact Hnd|]. split.
  - intros x Hx Hin. apply list_elem_of_singleton in Hin. subst x.
    now apply (dict_get_none_not_in k d).
  - apply NoDup_singleton.
Qed.

Lemma dict_set_total k v d :
  total_count (Dict.set k v d) = total_count d - default 0 (Dict.get k d) + v.
Proof.
  induction d as [|[k' v'] rest IH]; cbn; [lia|].
  unfold total_count in IH.
  destruct (String.eqb k' k); cbn; [lia|]. rewrite IH. lia.
Qed.

Lemma dict_set_positive k v d :
  1 <= v -> Forall (fun kv => 1 <= snd kv) d ->
  Forall (fun kv => 1 <= snd kv) (Dict.set k v d).
Proof.
  intros Hv. induction d as [|[k' v'] rest IH]; intros Hall; cbn.
  - constructor; [exact Hv | constructor].
  - apply Forall_cons in Hall as [Hhd Htl].
    destruct (String.eqb k' k); constructor; auto.
Qed.

Lemma dict_get_positive k (d : list (string * Z)) :
  Forall (fun kv => 1 <= snd kv) d -> 0 <= default 0 (Dict.get k d).
Proof.
  induction 1 as [|[k' v'] rest Hhd _ IH]; cbn; [lia|].
  destruct (String.eqb k' k); cbn in *; [lia | exact IH].
Qed.

(** The loop of [analyze_project]: every file is recorded, the keys of
    the tally stay distinct, every count is at least 1, and the counts
    grow by the number of files with a known extension. *)
Lemma count_files_spec walked : forall acc d,
  NoDup (map fst (snd acc)) ->
  Forall (fun kv => 1 <= snd kv) (snd acc) ->
  exists r,
    count_files walked acc d = (Ok r, d) /\
    fst r = (fst acc ++ map fst walked)%list /\
    NoDup (map fst (snd r)) /\
    Forall (fun kv => 1 <= snd kv) (snd r) /\
    total_count (snd r)
    = total_count (snd acc)
      + Z.of_nat (length (List.filter recognised (map fst walked))).
Proof.
  induction walked as [|[rel content] rest IH]; intros acc d Hnd Hpos.
  - exists acc. cbn. rewrite app_nil_r, Z.add_0_r. auto.
  - cbn [count_files map fst List.filter]. unfold recognised at 1.
    destruct (Dict.contains _ language_extensions) eqn:Hin.
    + destruct (getitem_guarded _ _ Hin d) as (language & Hget).
      unfold bind. rewrite Hget.
      set (n := default 0 (Dict.get language (snd acc)) + 1).
      destruct (IH ((fst acc ++ [rel])%list, Dict.set language n (snd acc)) d)
        as (r & Hrun & Hfiles & Hnd' & Hpos' & Hsum).
      { cbn. now apply dict_set_nodup. }
      { cbn. apply dict_set_positive; [|exact Hpos].
        pose proof (dict_get_positive language _ Hpos). unfold n. lia. }
      exists r. split; [exact Hrun|]. split.
      { rewrite Hfiles. cbn. now rewrite <- app_assoc. }
      split; [exact Hnd'|]. split; [exact Hpos'|].
      rewrite Hsum. cbn [snd]. rewrite dict_set_total. unfold n.
      cbn [length]. lia.
    + destruct (IH ((fst acc ++ [rel])%list, snd acc) d Hnd Hpos)
        as (r & Hrun & Hfiles & Hnd' & Hpos' & Hsum).
      exists r. split; [exact Hrun|]. split.
      { rewrite Hfiles. cbn. now rewrite <- app_assoc. }
      auto.
Qed.

Lemma max_from_spec rest : forall best best_count,
  exists v,
    In (max_from best best_count rest, v) ((best, best_count) :: rest) /\
    best_count <= v /\
    (forall k' v', In (k', v') rest -> v' <= v).
Proof.
  induction rest as [|[k v] rest IH]; intros best best_count; cbn [max_from].
  - exists best_count. split; [now left|]. split; [lia|]. intros k' v' [].
  - destruct (Z.ltb_spec best_count v) as [Hlt|Hge].
    + destruct (IH k v) as (m & Hin & Hle & Hall).
      exists m. split; [now right|]. split; [lia|].
      intros k' v' [[= <- <-]|Hin']; [exact Hle | eauto].
    + destruct (IH best best_count) as (m & Hin & Hle & Hall).
      exists m. split.
      * destruct Hin as [Heq|Hin]; [now left | now right; right].
      * split; [exact Hle|].
        intros k' v' [[= <- <-]|Hin']; [lia | eauto].
Qed.

Lemma dict_get_in_nodup {V} k (v : V) d :
  NoDup (map fst d) -> In (k, v) d -> Dict.get k d = Some v.
Proof.
  induction d as [|[k' v'] rest IH]; cbn; intros Hnd Hin; [contradiction|].
  apply NoDup_cons in Hnd as [Hk' Hnd].
  destruct Hin as [[= -> ->]|Hin]; [now rewrite String.eqb_refl|].
  destruct (String.eqb_spec k' k) as [->|_]; [|auto].
  exfalso. apply Hk'. apply list_elem_of_In. apply in_map_iff.
  now exists (k, v).
Qed.

(** The analysis in terms of the loop. *)
Lemma analyze_project_shape d :
  exists counted frameworks main,
    count_files (os_walk_files d) ([], []) d = (Ok counted, d) /\
    analyze_project d
    = (Ok (Analysis (snd counted) frameworks (fst counted) [] main
                    (_detect_project_type (fst counted))), d) /\
    _detect_frameworks (fst counted) d = (Ok frameworks, d) /\
    main = match snd counted with
           | [] => None
           | (k, v) :: rest => Some (max_from k v rest)
           end.
Proof.
  destruct (total_count_files (os_walk_files d) ([], []) d) as (counted & Hcount).
  destruct (total_detect_frameworks (fst counted) d) as (fw & Hfw).
  exists counted, fw,
    (match snd counted with
     | [] => None
     | (k, v) :: rest => Some (max_from k v rest)
     end).
  split; [exact Hcount|].
  unfold analyze_project. unfold bind at 1. unfold gets at 1. cbv beta iota.
  unfold bind at 1. rewrite Hcount. cbv beta iota zeta.
  destruct (snd counted) as [|[k v] rest]; unfold bind; cbn [ret max_key];
    rewrite Hfw; repeat split; reflexivity.
Qed.

(** X15. The tally of [analyze_project]: every file of the tree is
    recorded in the order of the walk; a language occurs once in the
    tally, with a count of at least 1; and the counts add up to the number
    of files whose extension is in the table. *)
Theorem languages_tally_counts_recognised_files (d : fs) :
  exists a : analysis,
    analyze_project d = (Ok a, d) /\
    files a = map fst (os_walk_files d) /\
    NoDup (map fst (languages a)) /\
    Forall (fun kv => 1 <= snd kv) (languages a) /\
    total_count (languages a)
    = Z.of_nat (length (List.filter recognised (files a))).
Proof.
  destruct (analyze_project_shape d) as (counted & fw & main & Hcount & Hrun & _).
  destruct (count_files_spec (os_walk_files d) ([], []) d)
    as (r & Hrun' & Hfiles & Hnd & Hpos & Hsum);
    [apply NoDup_nil_2 | constructor |].
  rewrite Hcount in Hrun'. injection Hrun' as <-.
  eexists. split; [exact Hrun|]. cbn [files languages].
  cbn in Hfiles, Hsum. rewrite Hfiles. auto.
Qed.

(** X16. The main language is a language of the tally with the largest
    count, and there is none exactly when the tally is empty. *)
Theorem main_language_has_largest_count (d : fs) :
  exists a : analysis,
    analyze_project d = (Ok a, d) /\
    match main_language a with
    | None => languages a = []
    | Some k =>
        exists v, Dict.get k (languages a) = Some v /\
                  forall k' v', In (k', v') (languages a) -> v' <= v
    end.
Proof.
  destruct (analyze_project_shape d) as (counted & fw & main & Hcount & Hrun & _ & ->).
  destruct (count_files_spec (os_walk_files d) ([], []) d)
    as (r & Hrun' & _ & Hnd & _);
    [apply NoDup_nil_2 | constructor |].
  rewrite Hcount in Hrun'. injection Hrun' as <-.
  eexists. split; [exact Hrun|]. cbn [main_language languages].
  destruct (snd counted) as [|[k v] rest]; [reflexivity|].
  destruct (max_from_spec rest k v) as (m & Hin & Hle & Hall).
  exists m. split; [now apply dict_get_in_nodup|].
  intros k' v' [[= <- <-]|Hin']; [exact Hle | eauto].
Qed.

End Tally.

(** ** The description and the frameworks *)

Section Manifest.
Context `{E : Env}.
Import FS.

Lemma detect_project_type_named files :
  exists t, _detect_project_type files = Some t /\ Py.truthy t = true.
Proof.
  unfold _detect_project_type.
  repeat match goal with
         | |- context [if ?b then _ else _] => destruct b
         end; eexists; split; reflexivity.
Qed.

(** X14. The description of the generated document always names a kind of
    project: [_detect_project_type] ends in [Application] for every list
    of files, so that the sentence [Project uploaded via Telegram Bot.] of
    [generate_readme] is never written. *)
Theorem description_always_names_project_type (d : fs) :
  exists (a : analysis) (t : string),
    analyze_project d = (Ok a, d) /\
    project_type a = Some t /\ Py.truthy t = true /\
    description_section a
    = "A " +:+ t +:+
      (if truthy_opt (main_language a)
       then " built with " +:+ default "" (main_language a) else "") +:+
      "." +:+ Py.nl +:+ Py.nl.
Proof.
  destruct (analyze_project_shape d) as (counted & fw & main & _ & Hrun & _).
  destruct (detect_project_type_named (fst counted)) as (t & Ht & Htruthy).
  eexists. exists t. split; [exact Hrun|].
  unfold description_section. cbn [project_type main_language].
  rewrite Ht, Htruthy. auto.
Qed.

Lemma assoc_in name x (entries : list (string * node)) :
  assoc name entries = Some x -> In (name, x) entries.
Proof.
  induction entries as [|[n y] rest IH]; cbn; [discriminate|].
  destruct (String.eqb_spec n name) as [->|_].
  - intros [= ->]. now left.
  - intros H. right. auto.
Qed.

(** A file of the root is a file of the walk, under its own name. *)
Lemma root_file_walked name c d :
  stat [name] d = Some (File c) -> In name (map fst (os_walk_files d)).
Proof.
  destruct d as [[c0|entries]|]; cbn; try discriminate.
  destruct (assoc name entries) as [x|] eqn:Hassoc; [|discriminate].
  intros [= ->]. apply assoc_in in Hassoc.
  rewrite map_app. apply in_or_app. left.
  apply in_map_iff. exists (name, c). split; [reflexivity|].
  apply in_flat_map. exists (name, File c). split; [exact Hassoc|].
  cbn. left. reflexivity.
Qed.

(** The first loop of [_detect_frameworks] adds the frameworks of the
    indicator files, and nothing else. *)
Lemma indicator_frameworks_spec files : forall acc d,
  exists r,
    indicator_frameworks files acc d = (Ok r, d) /\
    forall f, In f r <->
      In f acc \/
      exists file found,
        In file files /\
        Dict.get (OsPath.basename file) framework_indicators = Some found /\
        In f found.
Proof.
  induction files as [|file rest IH]; intros acc d; cbn [indicator_frameworks].
  - exists acc. split; [reflexivity|]. intros f. split; [auto|].
    intros [H|(file & found & [] & _)]. exact H.
  - unfold Dict.contains, Dict.getitem.
    destruct (Dict.get (OsPath.basename file) framework_indicators)
      as [found|] eqn:Hget.
    + unfold bind. cbn [ret].
      destruct (IH (acc ++ found)%list d) as (r & Hrun & Hr).
      exists r. split; [exact Hrun|]. intros f. rewrite Hr, in_app_iff.
      split.
      * intros [[H|H]|(file' & found' & Hin & Hg & Hf)]; [now left | |].
        -- right. exists file, found. split; [now left | auto].
        -- right. exists file', found'. split; [now right | auto].
      * intros [H|(file' & found' & [<-|Hin] & Hg & Hf)]; [now left; left | |].
        -- left. right. congruence.
        -- right. exists file', found'. auto.
    + destruct (IH acc d) as (r & Hrun & Hr).
      exists r. split; [exact Hrun|]. intros f. rewrite Hr.
      split.
      * intros [H|(file' & found' & Hin & Hg & Hf)]; [now left|].
        right. exists file', found'. split; [now right | auto].
      * intros [H|(file' & found' & [<-|Hin] & Hg & Hf)]; [now left | congruence |].
        right. exists file', found'. auto.
Qed.

Lemma in_list_of_set f l : In f (list_of_set l) <-> In f l.
Proof.
  unfold list_of_set. rewrite <- !list_elem_of_In.
  rewrite elem_of_elements. apply elem_of_list_to_set.
Qed.

Lemma has_basename_in name file files :
  In file files -> OsPath.basename file = name ->
  has_basename name files = true.
Proof.
  intros Hin Hbase. unfold has_basename. apply existsb_exists.
  exists name. split; [|apply String.eqb_refl].
  apply in_map_iff. now exists file.
Qed.

(** X18. A [package.json] that cannot be parsed is passed over: the
    analysis still succeeds, the project is a [Web Application], [Node.js]
    and [npm] are among its frameworks, and every framework listed comes
    from the table of the indicator files. *)
Theorem unreadable_package_json_is_ignored
    (d : fs) (content : string) (e : exn) :
  stat ["package.json"] d = Some (File content) ->
  json_load content = Raise e ->
  exists a : analysis,
    analyze_project d = (Ok a, d) /\
    project_type a = Some "Web Application" /\
    In "Node.js" (frameworks a) /\ In "npm" (frameworks a) /\
    forall f, In f (frameworks a) ->
              In f (concat (map snd framework_indicators)).
Proof.
  intros Hstat Hparse.
  destruct (analyze_project_shape d) as (counted & fw & main & Hcount & Hrun & Hfw & _).
  destruct (count_files_spec (os_walk_files d) ([], []) d)
    as (r & Hrun' & Hfiles & _); [apply NoDup_nil_2 | constructor |].
  rewrite Hcount in Hrun'. injection Hrun' as <-. cbn in Hfiles.
  assert (Hin : In "package.json" (fst counted)).
  { rewrite Hfiles. exact (root_file_walked _ _ _ Hstat). }
  destruct (indicator_frameworks_spec (fst counted) [] d) as (found & Hind & Hfound).
  assert (Hfw' : fw = list_of_set found).
  { unfold _detect_frameworks in Hfw. unfold bind at 1 in Hfw.
    rewrite Hind in Hfw. unfold bind at 1 in Hfw.
    unfold os_path_exists, gets in Hfw. rewrite Hstat in Hfw.
    unfold bind, try_except, package_frameworks, read_file, bind, gets in Hfw.
    rewrite Hstat in Hfw. cbn [ret] in Hfw. rewrite Hparse in Hfw.
    unfold raise, ret in Hfw. cbv beta iota in Hfw.
    rewrite app_nil_r in Hfw. congruence. }
  eexists. split; [exact Hrun|]. cbn [project_type frameworks]. subst fw.
  split.
  { unfold _detect_project_type.
    now rewrite (has_basename_in "package.json" "package.json" _ Hin). }
  split; [|split].
  - apply in_list_of_set, Hfound. right.
    exists "package.json", ["Node.js"; "npm"].
    split; [exact Hin|]. split; [reflexivity | now left].
  - apply in_list_of_set, Hfound. right.
    exists "package.json", ["Node.js"; "npm"].
    split; [exact Hin|]. split; [reflexivity | now right; left].
  - intros f Hf. apply in_list_of_set, Hfound in Hf.
    destruct Hf as [[]|(file & fnd & _ & Hget & Hf)].
    apply in_concat. exists fnd. split; [|exact Hf].
    apply in_map_iff. exists (OsPath.basename file, fnd). split; [reflexivity|].
    clear -Hget. revert Hget. generalize (OsPath.basename file). intros k.
    induction framework_indicators as [|[k' v'] rest IH]; cbn; [discriminate|].
    destruct (String.eqb_spec k' k) as [->|_].
    + intros [= ->]. now left.
    + intros H. right. auto.
Qed.

End Manifest.

Section ManifestScenario.
#[local] Existing Instance demo_env.

(** A Node project whose manifest is cut short. *)
Lemma unreadable_package_json_is_ignored_witness :
  let d := Some (Dir [("package.json", File "{ ");
                      ("index.js", File "console.log(1)")]) in
  FS.stat ["package.json"] d = Some (File "{ ") /\
  json_load "{ " = Raise (Exception "Expecting value") /\
  exists a : analysis,
    analyze_project d = (Ok a, d) /\
    project_type a = Some "Web Application" /\
    In "Node.js" (frameworks a) /\ In "npm" (frameworks a) /\
    forall f, In f (frameworks a) ->
              In f (concat (map snd framework_indicators)).
Proof.
  split; [reflexivity|]. split; [reflexivity|].
  exact (unreadable_package_json_is_ignored
           (Some (Dir [("package.json", File "{ ");
                       ("index.js", File "console.log(1)")]))
           "{ " (Exception "Expecting value") eq_refl eq_refl).
Defined.

End ManifestScenario.

(** ** The order of the languages in the document *)

Section LanguageOrder.

Lemma insert_by_count_perm x l : insert_by_count x l ≡ₚ x :: l.
Proof.
  induction l as [|y rest IH]; cbn; [reflexivity|].
  destruct (snd y <? snd x); [reflexivity|].
  rewrite IH. apply Permutation_swap.
Qed.

Lemma insert_by_count_sorted x l :
  StronglySorted (fun a b => snd b <= snd a) l ->
  StronglySorted (fun a b => snd b <= snd a) (insert_by_count x l).
Proof.
  induction 1 as [|y rest Hsorted IH Hall]; cbn.
  - repeat constructor.
  - destruct (Z.ltb_spec (snd y) (snd x)) as [Hlt|Hge].
    + constructor; [now constructor|].
      constructor; [lia|].
      eapply Forall_impl; [exact Hall|]. cbn. intros z Hz. lia.
    + constructor; [exact IH|].
      rewrite (insert_by_count_perm x rest). now constructor.
Qed.

Lemma insert_by_count_stable c x l :
  StronglySorted (fun a b => snd b <= snd a) l ->
  List.filter (by_count c) (insert_by_count x l)
  = (List.filter (by_count c) l ++ List.filter (by_count c) [x])%list.
Proof.
  induction 1 as [|y rest Hsorted IH Hall]; cbn [insert_by_count].
  - reflexivity.
  - destruct (Z.ltb_spec (snd y) (snd x)) as [Hlt|Hge].
    + assert (Hnone : snd x = c -> List.filter (by_count c) (y :: rest) = []).
      { intros Hc. cbn [List.filter]. unfold by_count at 1.
        destruct (Z.eqb_spec (snd y) c) as [Hy|_]; [lia|].
        clear -Hall Hlt Hc. induction Hall as [|z rest Hz _ IH]; cbn.
        - reflexivity.
        - unfold by_count at 1.
          destruct (Z.eqb_spec (snd z) c); [lia | exact IH]. }
      change (List.filter (by_count c) (x :: y :: rest))
        with (if by_count c x then x :: List.filter (by_count c) (y :: rest)
              else List.filter (by_count c) (y :: rest)).
      change (List.filter (by_count c) [x])
        with (if by_count c x then [x] else []).
      destruct (by_count c x) eqn:Hx.
      * apply Z.eqb_eq in Hx. now rewrite (Hnone Hx).
      * now rewrite app_nil_r.
    + cbn [List.filter]. rewrite IH.
      destruct (by_count c y); reflexivity.
Qed.

Lemma fold_insert_by_count l : forall acc,
  StronglySorted (fun a b => snd b <= snd a) acc ->
  fold_left (fun acc x => insert_by_count x acc) l acc ≡ₚ (acc ++ l)%list /\
  StronglySorted (fun a b => snd b <= snd a)
                 (fold_left (fun acc x => insert_by_count x acc) l acc) /\
  forall c,
    List.filter (by_count c) (fold_left (fun acc x => insert_by_count x acc) l acc)
    = (List.filter (by_count c) acc ++ List.filter (by_count c) l)%list.
Proof.
  induction l as [|x rest IH]; intros acc Hacc; cbn [fold_left].
  - rewrite app_nil_r. split; [reflexivity|]. split; [exact Hacc|].
    intros c. cbn. now rewrite app_nil_r.
  - destruct (IH (insert_by_count x acc) (insert_by_count_sorted x acc Hacc))
      as (Hperm & Hsorted & Hstable).
    split; [|split; [exact Hsorted|]].
    + rewrite Hperm, insert_by_count_perm. cbn [app].
      apply Permutation_middle.
    + intros c. rewrite Hstable, insert_by_count_stable by exact Hacc.
      rewrite <- app_assoc. f_equal. cbn [List.filter].
      now destruct (by_count c x).
Qed.

(** X17. The languages are written by decreasing count: the list that
    [generate_readme] walks holds the items of the tally, each once, no
    count before a larger one, and the languages of equal count in the
    order of the tally. *)
Theorem sorted_by_count_is_stable_descending (d : list (string * Z)) :
  sorted_by_count d ≡ₚ d /\
  StronglySorted (fun a b => snd b <= snd a) (sorted_by_count d) /\
  forall c, List.filter (by_count c) (sorted_by_count d)
            = List.filter (by_count c) d.
Proof.
  destruct (fold_insert_by_count d []) as (Hperm & Hsorted & Hstable);
    [constructor|].
  unfold sorted_by_count. auto.
Qed.

End LanguageOrder.

(** ** The README of the staged tree *)

Section ReadmeStep.
Context `{E : Env}.
Import FS.

Lemma assoc_set_entry name x n (entries : list (string * node)) :
  assoc n (set_entry name x entries)
  = if String.eqb name n then Some x else assoc n entries.
Proof.
  induction entries as [|[k y] rest IH]; cbn.
  - reflexivity.
  - destruct (String.eqb_spec k name) as [->|Hk]; cbn.
    + now destruct (String.eqb name n).
    + rewrite IH. destruct (String.eqb_spec name n) as [->|_]; [|reflexivity].
      destruct (String.eqb_spec k n); [contradiction | reflexivity].
Qed.

(** X19. The README of the staged root, by mode.  With the template the
    generated document replaces the [README.md] of the archive, and every
    other entry of the root is as it was; the document is the one generated
    from the tree as unpacked.  Without the template a [README.md] of the
    archive is kept, and the tree is left as it is. *)
Theorem readme_step_respects_mode
    (project_name basic : string) (entries : list (string * node)) :
  (forall sub, assoc "README.md" entries <> Some (Dir sub)) ->
  (exists (doc : string) (entries' : list (string * node)),
     generate_readme project_name (Some (Dir entries))
     = (Ok doc, Some (Dir entries)) /\
     readme_step true project_name basic (Some (Dir entries))
     = (Ok tt, Some (Dir entries')) /\
     assoc "README.md" entries' = Some (File doc) /\
     forall n, n <> "README.md" -> assoc n entries' = assoc n entries) /\
  (forall x, assoc "README.md" entries = Some x ->
     readme_step false project_name basic (Some (Dir entries))
     = (Ok tt, Some (Dir entries))).
Proof.
  intros Hfile. split.
  - destruct (total_generate_readme project_name (Some (Dir entries)))
      as (doc & Hdoc).
    exists doc, (set_entry "README.md" (File doc) entries).
    split; [exact Hdoc|]. split; [|split].
    + unfold readme_step, bind. rewrite Hdoc.
      unfold write_file, bind, gets, modify.
      cbn [stat lookup parent List.removelast].
      destruct (assoc "README.md" entries) as [[c|sub]|] eqn:Hassoc;
        [reflexivity | now destruct (Hfile sub) | reflexivity].
    + rewrite assoc_set_entry. now rewrite String.eqb_refl.
    + intros n Hn. rewrite assoc_set_entry.
      destruct (String.eqb_spec "README.md" n); [congruence | reflexivity].
  - intros x Hx. unfold readme_step, os_path_exists, bind, gets.
    cbn [stat lookup]. now rewrite Hx.
Qed.

End ReadmeStep.

Section ReadmeStepScenario.
#[local] Existing Instance demo_env.

(** An archive with a README of its own. *)
Lemma readme_step_respects_mode_witness :
  let entries := [("README.md", File "mine"); ("main.py", File "print(1)")] in
  (forall sub, FS.assoc "README.md" entries <> Some (Dir sub)) /\
  (exists (doc : string) (entries' : list (string * node)),
     generate_readme "demo" (Some (Dir entries))
     = (Ok doc, Some (Dir entries)) /\
     readme_step true "demo" "basic" (Some (Dir entries))
     = (Ok tt, Some (Dir entries')) /\
     FS.assoc "README.md" entries' = Some (File doc) /\
     forall n, n <> "README.md" -> FS.assoc n entries' = FS.assoc n entries) /\
  (forall x, FS.assoc "README.md" entries = Some x ->
     readme_step false "demo" "basic" (Some (Dir entries))
     = (Ok tt, Some (Dir entries))).
Proof.
  assert (H : forall sub,
             FS.assoc "README.md"
               [("README.md", File "mine"); ("main.py", File "print(1)")]
             <> Some (Dir sub)) by (intros sub; discriminate).
  split; [exact H|].
  exact (readme_step_respects_mode "demo" "basic"
           [("README.md", File "mine"); ("main.py", File "print(1)")] H).
Defined.

End ReadmeStepScenario.

(** ** The wrapping directory of an archive *)

Section ZipStructureOutcome.
Import FS.

(** The loop of [_fix_zip_structure] over a first part of the wrapper. *)
Lemma move_items_prefix w names : forall pre rest moved,
  NoDup (map fst (pre ++ rest)) ->
  w ∉ map fst pre -> w ∉ map fst moved ->
  (forall n, n ∈ map fst pre -> n ∉ map fst moved) ->
  move_items [w] (map fst pre ++ names)
             (Some (Dir ((w, Dir (pre ++ rest)) :: moved)))
  = move_items [w] names (Some (Dir ((w, Dir rest) :: moved ++ pre))).
Proof.
  induction pre as [|[item x] pre IH]; intros rest moved Hnd Hw Hwm Hdisj.
  - cbn. now rewrite app_nil_r.
  - cbn [map fst app move_items]. cbn [map fst app] in Hnd, Hw, Hdisj.
    apply NoDup_cons in Hnd as [Hitem Hnd].
    apply not_elem_of_cons in Hw as [Hne Hw].
    unfold bind.
    rewrite (shutil_move_hoists w item x (pre ++ rest) moved); auto.
    + rewrite IH; auto.
      * now rewrite <- app_assoc.
      * rewrite map_app. cbn. intros H.
        apply elem_of_app in H as [H|H]; [contradiction|].
        apply list_elem_of_singleton in H. congruence.
      * intros n Hn. rewrite map_app. cbn. intros H.
        apply elem_of_app in H as [H|H].
        -- apply (Hdisj n); [now right | exact H].
        -- apply list_elem_of_singleton in H. subst.
           apply Hitem. rewrite map_app. apply elem_of_app. now left.
    + apply Hdisj. now left.
Qed.

(** The entry that has the name of the wrapper cannot move. *)
Lemma shutil_move_onto_wrapper w x rest moved :
  shutil_move [w; w] [w] (Some (Dir ((w, Dir ((w, x) :: rest)) :: moved)))
  = (Raise DestinationExists,
     Some (Dir ((w, Dir ((w, x) :: rest)) :: moved))).
Proof.
  unfold shutil_move, bind.
  rewrite os_path_isdir_eq, stat_head.
  rewrite bool_decide_eq_false_2 by discriminate.
  unfold os_path_exists, gets.
  cbn [app name_of List.last stat lookup assoc].
  rewrite String.eqb_refl. cbn [lookup assoc]. now rewrite String.eqb_refl.
Qed.

Lemma named_entry_split w (items : list (string * node)) :
  w ∈ map fst items ->
  exists pre x post, items = (pre ++ (w, x) :: post)%list.
Proof.
  intros Hin. apply list_elem_of_fmap in Hin as ([n x] & -> & Hin).
  apply list_elem_of_split in Hin as (pre & post & ->).
  now exists pre, x, post.
Qed.

(** X20. An archive that is one directory [w] of entries with distinct
    names is unwrapped exactly when no entry is called [w]: then the
    entries of [w] become those of the root.  Otherwise the entries before
    the one called [w] have moved to the root, [shutil.move] raises on
    that entry, and it and the entries after it stay in [w]. *)
Theorem fix_zip_structure_unwraps_unless_name_taken
    (w : string) (items : list (string * node)) :
  NoDup (map fst items) ->
  let out := check_and_fix_zip_structure (Some (Dir [(w, Dir items)])) in
  (w ∉ map fst items -> out = (Ok tt, Some (Dir items))) /\
  (w ∈ map fst items ->
   exists pre x post,
     items = (pre ++ (w, x) :: post)%list /\
     out = (Raise DestinationExists,
            Some (Dir ((w, Dir ((w, x) :: post)) :: pre)))).
Proof.
  intros Hnd out. split.
  - intros Hw. now apply fix_zip_structure_hoists.
  - intros Hw. destruct (named_entry_split w items Hw) as (pre & x & post & ->).
    exists pre, x, post. split; [reflexivity|].
    assert (Hpre : w ∉ map fst pre).
    { rewrite map_app in Hnd. apply NoDup_app in Hnd as (_ & Hdisj & _).
      intros Hin. apply (Hdisj w Hin). cbn. now left. }
    subst out.
    set (items := (pre ++ (w, x) :: post)%list).
    set (root := Some (Dir [(w, Dir items)])).
    assert (Hst : stat [w] root = Some (Dir items)) by apply stat_head.
    assert (Hroot : stat [] root = Some (Dir [(w, Dir items)])) by reflexivity.
    assert (Hcheck : _check_zip_structure root = (Ok false, root)).
    { unfold _check_zip_structure, bind.
      rewrite (os_listdir_dir [] root _ Hroot). cbn [map fst].
      now rewrite os_path_isdir_eq, Hst. }
    unfold check_and_fix_zip_structure, bind. rewrite Hcheck. cbn [negb].
    unfold _fix_zip_structure, bind.
    rewrite (os_listdir_dir [] root _ Hroot). cbn [map fst].
    rewrite os_path_isdir_eq, Hst.
    rewrite (os_listdir_dir [w] root _ Hst).
    unfold root, items. rewrite map_app.
    rewrite (move_items_prefix w (map fst ((w, x) :: post)) pre
               ((w, x) :: post) []); auto.
    + cbn [app map fst move_items]. unfold bind.
      now rewrite shutil_move_onto_wrapper.
    + apply not_elem_of_nil.
    + intros n _. apply not_elem_of_nil.
Qed.

(** A project [app] that ships a folder [app]. *)
Lemma fix_zip_structure_unwraps_unless_name_taken_witness :
  let items := [("run.sh", File "#!/bin/sh"); ("app", Dir []); ("LICENSE", File "MIT")] in
  NoDup (map fst items) /\
  (("app" : string) ∉ map fst items ->
   check_and_fix_zip_structure (Some (Dir [("app", Dir items)]))
   = (Ok tt, Some (Dir items))) /\
  (("app" : string) ∈ map fst items ->
   exists pre x post,
     items = (pre ++ ("app", x) :: post)%list /\
     check_and_fix_zip_structure (Some (Dir [("app", Dir items)]))
     = (Raise DestinationExists,
        Some (Dir (("app", Dir (("app", x) :: post)) :: pre)))).
Proof.
  assert (H : NoDup (map fst [("run.sh", File "#!/bin/sh"); ("app", Dir []);
                              ("LICENSE", File "MIT")]))
    by (apply (bool_decide_unpack (NoDup (_ : list string))); vm_compute; exact I).
  split; [exact H|].
  exact (fix_zip_structure_unwraps_unless_name_taken "app"
           [("run.sh", File "#!/bin/sh"); ("app", Dir []); ("LICENSE", File "MIT")]
           H).
Defined.

End ZipStructureOutcome.

(** ** The client without a network *)

Section Unreachable.
Context `{E : Env}.
Hypothesis unreachable : forall req w, fst (http req w) = None.

Lemma http_request_unreachable req st :
  exists st', http_request req st = (Ok None, st').
Proof.
  unfold http_request. pose proof (unreachable req (world st)) as H.
  destruct (http req (world st)) as [r w']. cbn in H. subst r. eauto.
Qed.

Lemma get_username_unreachable st :
  exists u st', get_username st = (Ok u, st').
Proof.
  destruct (get_username_spec st) as (u & st' & _ & Hrun & _). eauto.
Qed.

Lemma upload_loop_unreachable username repo_name files : forall n st,
  exists st', upload_loop username repo_name files n st = (Ok n, st').
Proof.
  induction files as [|[rel content] rest IH]; intros n st; cbn [upload_loop].
  - now exists st.
  - destruct (http_request_unreachable
                (put_request username repo_name rel content) st) as (st1 & Hreq).
    unfold bind. rewrite Hreq. cbn [uploaded_ok]. apply IH.
Qed.

Lemma get_repository_contents_unreachable repo_name path st :
  fst (get_repository_contents repo_name path st) = Ok None.
Proof.
  unfold get_repository_contents, get_repository_contents_via.
  destruct (get_username_unreachable st) as (u & st1 & Hu).
  unfold bind at 1. rewrite Hu. destruct (truthy_opt u); [|reflexivity].
  destruct (http_request_unreachable
              (contents_request (default "" u) repo_name path) st1)
    as (st' & Hreq).
  unfold bind. now rewrite Hreq.
Qed.

End Unreachable.

Section UnreachableClient.
Context `{E : Env}.

(** X7. When no request gets through, the client raises in none of its
    methods and each returns its value for a failure: [False], [None] or
    the empty list.  The exception is [clear_repository_contents], which
    returns [True] although nothing was deleted. *)
Theorem client_methods_when_unreachable :
  (forall req w, fst (http req w) = None) ->
  forall (repo_name description path : string) (private : bool)
         (source_dir : FS.fs) (f : file_info) (st : state),
    fst (create_repository repo_name description st) = Ok false /\
    fst (upload_files repo_name source_dir st) = Ok false /\
    fst (get_repositories st) = Ok (Some (PRepos [])) /\
    fst (delete_repository repo_name st) = Ok false /\
    fst (get_repository_info repo_name st) = Ok None /\
    fst (get_repository_contents repo_name path st) = Ok None /\
    fst (delete_file repo_name f st) = Ok false /\
    fst (set_repository_visibility repo_name private st) = Ok false /\
    fst (clear_repository_contents repo_name st) = Ok true.
Proof.
  intros Hoff repo_name description path private source_dir f st.
  repeat split.
  - unfold create_repository.
    destruct (http_request_unreachable Hoff
                (create_request repo_name description) st) as (st' & Hreq).
    unfold bind. now rewrite Hreq.
  - unfold upload_files.
    destruct (get_username_unreachable st) as (u & st1 & Hu).
    unfold bind at 1. rewrite Hu.
    destruct u as [u|]; [|reflexivity].
    destruct (Py.truthy u); [|reflexivity].
    destruct (upload_loop_unreachable Hoff u repo_name
                (os_walk_files source_dir) 0 st1) as (st2 & Hloop).
    unfold bind. now rewrite Hloop.
  - unfold get_repositories.
    destruct (http_request_unreachable Hoff repos_request st) as (st' & Hreq).
    unfold bind. now rewrite Hreq.
  - unfold delete_repository.
    destruct (get_username_unreachable st) as (u & st1 & Hu).
    unfold bind at 1. rewrite Hu. destruct (truthy_opt u); [|reflexivity].
    destruct (http_request_unreachable Hoff
                (Request DELETE (repo_url (default "" u) repo_name) NoBody) st1)
      as (st' & Hreq).
    unfold bind. now rewrite Hreq.
  - unfold get_repository_info.
    destruct (get_username_unreachable st) as (u & st1 & Hu).
    unfold bind at 1. rewrite Hu. destruct (truthy_opt u); [|reflexivity].
    destruct (http_request_unreachable Hoff
                (Request GET (repo_url (default "" u) repo_name) NoBody) st1)
      as (st' & Hreq).
    unfold bind. now rewrite Hreq.
  - now apply get_repository_contents_unreachable.
  - unfold delete_file.
    destruct (get_username_unreachable st) as (u & st1 & Hu).
    unfold bind at 1. rewrite Hu. destruct (truthy_opt u); [|reflexivity].
    destruct (http_request_unreachable Hoff
                (delete_request (default "" u) repo_name f) st1)
      as (st' & Hreq).
    unfold bind. now rewrite Hreq.
  - unfold set_repository_visibility.
    destruct (get_username_unreachable st) as (u & st1 & Hu).
    unfold bind at 1. rewrite Hu. destruct (truthy_opt u); [|reflexivity].
    destruct (http_request_unreachable Hoff
                (Request PATCH (repo_url (default "" u) repo_name)
                         (SetPrivate private)) st1)
      as (st' & Hreq).
    unfold bind. now rewrite Hreq.
  - pose proof (get_repository_contents_unreachable Hoff repo_name "" st) as Hc.
    unfold clear_repository_contents, try_except, find_files_recursively.
    unfold bind at 1. unfold bind at 1.
    destruct (get_repository_contents repo_name "" st) as [r st1].
    cbn in Hc. subst r. reflexivity.
Qed.

End UnreachableClient.

Section UnreachableScenario.

Lemma client_methods_when_unreachable_witness :
  (forall req w, fst (@http offline_env req w) = None) /\
  fst (@create_repository offline_env "demo" "Project uploaded via Telegram Bot"
         (@initial_state offline_env (1700000000%Q, 0%nat))) = Ok false /\
  fst (@clear_repository_contents offline_env "demo"
         (@initial_state offline_env (1700000000%Q, 0%nat))) = Ok true.
Proof.
  split; [intros req w; reflexivity|].
  pose proof (@client_methods_when_unreachable offline_env
                (fun req w => eq_refl) "demo"
                "Project uploaded via Telegram Bot" "" false
                (Some (Dir demo_entries)) (FileInfo "old.txt" "3b18e5")
                (@initial_state offline_env (1700000000%Q, 0%nat))) as H.
  split; [exact (proj1 H) | exact (proj2 (proj2 (proj2 (proj2 (proj2 (proj2 (proj2 (proj2 H))))))))].
Defined.

End UnreachableScenario.

(** ** The handlers that can raise *)

Section UnguardedHandlers.
Context `{E : Env}.

(** A value of [get_repository_info] that is true is the decoded body of
    a 200 answer to its last request. *)
Lemma get_repository_info_truthy repo_name st info st1 :
  get_repository_info repo_name st = (Ok info, st1) ->
  truthy_value info = true ->
  exists req resp,
    last (trace st1) = Some (EvHttp req (Some resp)) /\
    status resp = 200 /\ info = decoded (json_body resp).
Proof.
  unfold get_repository_info.
  destruct (get_username_spec st) as (u & st0 & evs & Hrun & _).
  unfold bind at 1. rewrite Hrun.
  destruct (truthy_opt u); [|unfold ret; intros [= <- <-]; discriminate].
  destruct (http_request_spec
              (Request GET (repo_url (default "" u) repo_name) NoBody) st0)
    as (r & st2 & Hreq & _ & Htr & _).
  unfold bind. rewrite Hreq.
  destruct r as [resp|]; [|unfold ret; intros [= <- <-]; discriminate].
  destruct (Z.eqb_spec (status resp) 200) as [Hs|Hs];
    [|unfold ret; intros [= <- <-]; discriminate].
  unfold ret. intros [= <- <-] _.
  exists (Request GET (repo_url (default "" u) repo_name) NoBody), resp.
  rewrite Htr, last_snoc. auto.
Qed.

Lemma decoded_truthy p :
  truthy_value (decoded p) = truthy_payload p.
Proof. now destruct p. Qed.

(** [/info] raises only on a 200 answer that is true and is not a list of
    repositories, right after the request. *)
Lemma info_body_outcome st :
  let body := bind get_repositories (fun repos =>
              bind (gets upload_counter) (fun counter =>
              bind (if truthy_value repos then
                      match repos with
                      | Some (PRepos repos) => ret (statistics_text repos counter)
                      | _ => raise ShapeError
                      end
                    else ret "Belum ada repository di akun GitHub kamu.")
                   (fun repo_info => reply_text repo_info))) in
  (exists st', body st = (Ok tt, st')) \/
  (exists resp,
     body st = (Raise ShapeError,
                set_trace (trace st ++ [EvHttp repos_request (Some resp)])%list
                          (set_world (snd (http repos_request (world st))) st)) /\
     fst (http repos_request (world st)) = Some resp /\
     status resp = 200 /\ truthy_payload (json_body resp) = true /\
     forall repos, json_body resp <> PRepos repos).
Proof.
  cbv zeta.
  destruct (http repos_request (world st)) as [r w'] eqn:Hhttp. cbn [fst snd].
  assert (Hrepos : get_repositories st
                   = (Ok match r with
                         | Some resp =>
                             if status resp =? 200 then decoded (json_body resp)
                             else Some (PRepos [])
                         | None => Some (PRepos [])
                         end,
                      set_trace (trace st ++ [EvHttp repos_request r])%list
                                (set_world w' st))).
  { unfold get_repositories, http_request, bind. rewrite Hhttp.
    destruct r as [resp|]; [|reflexivity].
    now destruct (status resp =? 200). }
  unfold bind. rewrite Hrepos. clear Hrepos.
  unfold gets. cbv beta iota.
  destruct r as [resp|]; [|left; eexists; reflexivity].
  destruct (Z.eqb_spec (status resp) 200) as [Hs|Hs]; [|left; eexists; reflexivity].
  rewrite decoded_truthy.
  destruct (json_body resp) as [|login|info|repos|items|] eqn:Hb;
    cbn [truthy_payload decoded].
  - left. eexists. reflexivity.
  - right. exists resp. rewrite Hb. repeat split; auto; try (intros repos'; discriminate).
  - right. exists resp. rewrite Hb. repeat split; auto; try (intros repos'; discriminate).
  - left. destruct repos; eexists; reflexivity.
  - destruct items as [|i rest]; [left; eexists; reflexivity|].
    right. exists resp. rewrite Hb. repeat split; auto; try (intros repos'; discriminate).
  - right. exists resp. rewrite Hb. repeat split; auto; try (intros repos'; discriminate).
Qed.

(** With a name and a size the create workflow returns: what it does after
    its tests is inside the [try]. *)
Lemma create_workflow_returns doc name size :
  file_name doc = Some name -> file_size doc = Some size ->
  never_raises (create_workflow doc).
Proof.
  intros Hname Hsize.
  apply (steady_never_raises (fun _ : state => tt)).
  unfold create_workflow. rewrite Hname, Hsize.
  destruct (Py.endswith name ".zip"); cbn [negb];
    [|apply steady_reply_text, blind_unit].
  destruct (Config.MAX_FILE_SIZE <? size); [apply steady_reply_text, blind_unit|].
  apply steady_bind; [apply steady_gets|]. intros use_template.
  apply steady_bind; [apply steady_update_user_data; reflexivity|]. intros _.
  apply steady_bind; [apply steady_update_user_data; reflexivity|]. intros _.
  apply steady_bind; [apply steady_reply_text, blind_unit|]. intros _.
  apply steady_try_except.
  - apply preserves_create_steps; [apply blind_unit | reflexivity].
  - intros e. apply steady_edit_text, blind_unit.
Qed.

(** X12. An exception leaves a handler in three places only, all of them
    outside a [try]: in [/info] when the list of repositories is answered
    200 with a value that is true and is not a list of repositories; in
    [/inp] when the repository is answered 200 with a value that is true
    and is not the object of a repository; and for a document, while the
    create mode is armed, that has no name, or has a name that ends in
    [.zip] and no size.  In the first two the request is the last thing
    done; in the third nothing is done after the gate.  Every other
    handler returns, and so does the refresh workflow, whatever the
    download, the extraction, the layout fix, the description or the
    client raise: that is caught inside the workflow. *)
Theorem dispatch_raises_only_outside_try (upd : update) (st : state) :
  (forall e st', dispatch upd st = (Raise e, st') ->
     gate_accepts upd st = true /\
     ((exists text args resp,
         incoming upd = Command CmdInfo text args /\
         trace st' = (trace st ++ [EvHttp repos_request (Some resp)])%list /\
         status resp = 200 /\ truthy_payload (json_body resp) = true /\
         forall repos, json_body resp <> PRepos repos) \/
      (exists text repo_name rest req resp,
         incoming upd = Command CmdInp text (repo_name :: rest) /\
         last (trace st') = Some (EvHttp req (Some resp)) /\
         status resp = 200 /\ truthy_payload (json_body resp) = true /\
         forall info, json_body resp <> PRepo info) \/
      (exists doc,
         incoming upd = DocumentUpload doc /\
         mode_is "update" (udata st) = false /\
         mode_is "upload" (udata st) = true /\
         st' = accepted_state st /\
         (file_name doc = None \/
          exists name, file_name doc = Some name /\
                       Py.endswith name ".zip" = true /\
                       file_size doc = None)))) /\
  ((forall text args, incoming upd <> Command CmdInfo text args) ->
   (forall text args, incoming upd <> Command CmdInp text args) ->
   (forall doc, incoming upd = DocumentUpload doc ->
      mode_is "update" (udata st) = true \/
      mode_is "upload" (udata st) = false \/
      exists name, file_name doc = Some name /\
                   (Py.endswith name ".zip" = false \/ file_size doc <> None)) ->
   exists st', dispatch upd st = (Ok tt, st')).
Proof.
  assert (Hmain : forall e st', dispatch upd st = (Raise e, st') ->
     gate_accepts upd st = true /\
     ((exists text args resp,
         incoming upd = Command CmdInfo text args /\
         trace st' = (trace st ++ [EvHttp repos_request (Some resp)])%list /\
         status resp = 200 /\ truthy_payload (json_body resp) = true /\
         forall repos, json_body resp <> PRepos repos) \/
      (exists text repo_name rest req resp,
         incoming upd = Command CmdInp text (repo_name :: rest) /\
         last (trace st') = Some (EvHttp req (Some resp)) /\
         status resp = 200 /\ truthy_payload (json_body resp) = true /\
         forall info, json_body resp <> PRepo info) \/
      (exists doc,
         incoming upd = DocumentUpload doc /\
         mode_is "update" (udata st) = false /\
         mode_is "upload" (udata st) = true /\
         st' = accepted_state st /\
         (file_name doc = None \/
          exists name, file_name doc = Some name /\
                       Py.endswith name ".zip" = true /\
                       file_size doc = None)))).
  { intros e st' Hraise.
    destruct (gate_accepts upd st) eqn:Hgate;
      [|rewrite dispatch_rejected in Hraise by exact Hgate; discriminate].
    split; [reflexivity|].
    destruct (incoming upd) as [c text args|doc|text] eqn:Hin.
    - assert (Hreturns :
        (forall t a, incoming upd <> Command CmdInfo t a) ->
        (forall t a, incoming upd <> Command CmdInp t a) -> False).
      { intros Hnoinfo Hnoinp.
        destruct (command_gated_returns (fun _ : state => tt) blind_unit
                    (fun _ _ => eq_refl) upd)
          as (body & Hd & Hbody); try assumption.
        { intros doc. rewrite Hin. discriminate. }
        rewrite Hd, gated_accepted in Hraise by exact Hgate.
        destruct (Hbody (accepted_state st)) as (a & st2 & Hrun & _).
        rewrite Hrun in Hraise. discriminate. }
      destruct c;
        try (exfalso; apply Hreturns; intros t a; rewrite Hin; discriminate).
      + (* /info *)
        left. unfold dispatch in Hraise. rewrite Hin in Hraise.
        unfold info_command in Hraise.
        rewrite gated_accepted in Hraise by exact Hgate.
        destruct (info_body_outcome (accepted_state st))
          as [(st2 & Hok)|(resp & Hrun & _ & Hs & Ht & Hshape)].
        * rewrite Hok in Hraise. discriminate.
        * rewrite Hrun in Hraise. injection Hraise as <- <-.
          exists text, args, resp. now repeat split.
      + (* /inp *)
        right. left. unfold dispatch in Hraise. rewrite Hin in Hraise.
        unfold project_info_command in Hraise.
        rewrite gated_accepted in Hraise by exact Hgate.
        destruct args as [|repo_name rest]; [discriminate|].
        unfold bind at 1 in Hraise.
        unfold reply_text at 1, emit at 1, modify at 1 in Hraise.
        cbv beta iota in Hraise. unfold bind at 1 in Hraise.
        destruct (get_repository_info repo_name _) as [[info|e0] st1] eqn:Hinfo.
        2: { destruct (steady_get_repository_info (fun _ : state => tt) blind_unit
                         repo_name
                         (set_trace
                            (trace (accepted_state st) ++
                             [EvReply ("📡 Mengambil info repository '" +:+
                                       repo_name +:+ "'...")])%list
                            (accepted_state st)))
               as (a & st2 & Hrun & _).
             rewrite Hrun in Hinfo. discriminate. }
        destruct (truthy_value info) eqn:Htruthy; [|discriminate].
        destruct (get_repository_info_truthy _ _ _ _ Hinfo Htruthy)
          as (req & resp & Hlast & Hs & ->).
        rewrite decoded_truthy in Htruthy.
        destruct (json_body resp) as [|login|i|repos|items|] eqn:Hb;
          cbn [decoded] in Hraise; try discriminate;
          injection Hraise as <- <-;
          exists text, repo_name, rest, req, resp; rewrite Hb;
          (split; [reflexivity|]); (split; [exact Hlast|]);
          (split; [exact Hs|]); (split; [exact Htruthy|]);
          intros i'; discriminate.
    - (* a document *)
      right. right. exists doc. split; [reflexivity|].
      unfold dispatch in Hraise. rewrite Hin in Hraise.
      rewrite handle_document_accepted in Hraise by exact Hgate.
      destruct (mode_is "update" (udata st)) eqn:Hupdate.
      { destruct (steady_update_branch (fun _ : state => tt) blind_unit
                    (fun _ _ => eq_refl) doc (udata st) (accepted_state st))
          as (a & st2 & Hrun & _).
        rewrite Hrun in Hraise. discriminate. }
      destruct (mode_is "upload" (udata st)) eqn:Hupload; cbn [negb] in Hraise;
        [|discriminate].
      split; [reflexivity|]. split; [reflexivity|].
      destruct (file_name doc) as [name|] eqn:Hname.
      + destruct (file_size doc) as [size|] eqn:Hsize.
        * destruct (create_workflow_returns doc name size Hname Hsize
                      (accepted_state st)) as (a & st2 & Hrun).
          rewrite Hrun in Hraise. discriminate.
        * unfold create_workflow in Hraise. rewrite Hname, Hsize in Hraise.
          destruct (Py.endswith name ".zip") eqn:Hzip; cbn [negb] in Hraise;
            [|discriminate].
          injection Hraise as <- <-. split; [reflexivity|].
          right. now exists name.
      + unfold create_workflow in Hraise. rewrite Hname in Hraise.
        injection Hraise as <- <-. split; [reflexivity|]. now left.
    - exfalso.
      destruct (command_gated_returns (fun _ : state => tt) blind_unit
                  (fun _ _ => eq_refl) upd)
        as (body & Hd & Hbody); try (intros; rewrite Hin; discriminate).
      rewrite Hd, gated_accepted in Hraise by exact Hgate.
      destruct (Hbody (accepted_state st)) as (a & st2 & Hrun & _).
      rewrite Hrun in Hraise. discriminate. }
  split; [exact Hmain|].
  intros Hnoinfo Hnoinp Hdoc.
  destruct (dispatch upd st) as [[[]|e] st'] eqn:Hrun; [now exists st'|].
  exfalso. destruct (Hmain e st' eq_refl) as (_ & [H|[H|H]]).
  - destruct H as (text & args & _ & Hin & _). exact (Hnoinfo _ _ Hin).
  - destruct H as (text & name & rest & _ & _ & Hin & _). exact (Hnoinp _ _ Hin).
  - destruct H as (doc & Hin & Hupdate & Hupload & _ & Hmissing).
    destruct (Hdoc doc Hin) as [H|[H|(name & Hname & H)]]; try congruence.
    destruct Hmissing as [Hno|(name' & Hname' & Hzip & Hsize)]; [congruence|].
    rewrite Hname in Hname'. injection Hname' as <-.
    destruct H as [H|H]; congruence.
Qed.

End UnguardedHandlers.

Section UnguardedHandlerScenario.

(** In [object_env] the owner's [/info] raises. *)
Lemma dispatch_raises_only_outside_try_witness :
  let upd := Update (Some 42) (Command CmdInfo "/info" []) in
  let out := @dispatch object_env upd object_state in
  out = (Raise ShapeError, snd out) /\
  @gate_accepts object_env upd object_state = true /\
  exists resp,
    @trace object_env (snd out)
    = (@trace object_env object_state ++ [EvHttp repos_request (Some resp)])%list /\
    status resp = 200 /\ truthy_payload (json_body resp) = true.
Proof.
  cbv zeta.
  assert (Hout : @dispatch object_env (Update (Some 42) (Command CmdInfo "/info" []))
                   object_state
                 = (Raise ShapeError,
                    snd (@dispatch object_env
                           (Update (Some 42) (Command CmdInfo "/info" []))
                           object_state)))
    by (vm_compute; reflexivity).
  split; [exact Hout|].
  destruct (proj1 (@dispatch_raises_only_outside_try object_env
                     (Update (Some 42) (Command CmdInfo "/info" [])) object_state)
              _ _ Hout) as (Hgate & Hcases).
  split; [exact Hgate|].
  destruct Hcases as [(text & args & resp & _ & Htr & Hs & Ht & _)|[H|H]].
  - exists resp. auto.
  - destruct H as (text & name & rest & req & resp & Hin & _). discriminate.
  - destruct H as (doc & Hin & _). discriminate.
Defined.

End UnguardedHandlerScenario.
